(** * GRF-250 serial API: packet codec, response decoder and managed
      request/response loop of [serial_c_api/lw_serial_api.c].

    The development embeds the C functions as Rocq functions over [Z]
    (fixed-width unsigned integers with their wrap-around written out) and
    lists of bytes (arrays, with bounds-checked indexing), and proves the
    properties of the protocol engine against that embedding. *)

From Stdlib Require Import ZArith Lia List Bool.
From stdpp Require Import base option list.
Import ListNotations.

Local Open Scope Z_scope.

(** ** Fixed-width unsigned arithmetic *)

Definition u8 (x : Z) : Z := x mod 2 ^ 8.
Definition u16 (x : Z) : Z := x mod 2 ^ 16.
Definition u32 (x : Z) : Z := x mod 2 ^ 32.

Definition is_byte (b : Z) : Prop := 0 <= b < 256.

(** ** Result codes and parser states (the two enums of the header) *)

Inductive lw_result : Type :=
| LW_RESULT_SUCCESS
| LW_RESULT_ERROR
| LW_RESULT_AGAIN
| LW_RESULT_TIMEOUT
| LW_RESULT_EXCEEDED_RETRIES
| LW_RESULT_INVALID_PARAMETER
| LW_RESULT_INCORRECT_COMMAND_ID.

Inductive lw_packet_parse_state : Type :=
| LW_PARSESTATE_START
| LW_PARSESTATE_FLAGS1
| LW_PARSESTATE_FLAGS2
| LW_PARSESTATE_PAYLOAD
| LW_PARSESTATE_DONE.

#[global] Instance lw_result_eq_dec : EqDecision lw_result.
Proof. solve_decision. Defined.

#[global] Instance lw_packet_parse_state_eq_dec : EqDecision lw_packet_parse_state.
Proof. solve_decision. Defined.

Definition LW_PACKET_START_BYTE : Z := 0xAA.
Definition LW_PACKET_SEND_SIZE : Z := 160.
Definition LW_REQUEST_RETRIES : Z := 4.
Definition LW_RESPONSE_TIMEOUT_MS : Z := 1000.
Definition LW_ANY_COMMAND : Z := 255.
Definition UINT8_MAX : Z := 255.

(** ** Checksum *)

(** One iteration of the loop body of [lw_create_crc]: [crc] and [code] are
    [uint16_t] locals, so every assignment truncates to 16 bits.  Note that
    [code] is overwritten by [code << 5] before it is shifted by 7. *)
Definition crc_update (crc b : Z) : Z :=
  let code := u16 (Z.shiftr crc 8) in
  let code := u16 (Z.lxor code b) in
  let code := u16 (Z.lxor code (Z.shiftr code 4)) in
  let crc := u16 (Z.shiftl crc 8) in
  let crc := u16 (Z.lxor crc code) in
  let code := u16 (Z.shiftl code 5) in
  let crc := u16 (Z.lxor crc code) in
  let code := u16 (Z.shiftl code 7) in
  let crc := u16 (Z.lxor crc code) in
  crc.

(** [lw_create_crc data size]: the loop visits [data[0]], ..., [data[size-1]]
    in order, starting from [crc = 0]. *)
Definition lw_create_crc (data : list Z) (size : Z) : Z :=
  fold_left crc_update (take (Z.to_nat size) data) 0.

(** The checksum as section 4.1 of the specification words it: [code] is
    assigned in steps 1 and 2 only, and steps 4 and 5 shift that same value
    by 5 and by 7. *)
Definition spec_crc_step (crc b : Z) : Z :=
  let code := u16 (Z.lxor (Z.shiftr crc 8) b) in
  let code := u16 (Z.lxor code (Z.shiftr code 4)) in
  let crc := u16 (Z.lxor (u16 (Z.shiftl crc 8)) code) in
  let crc := u16 (Z.lxor crc (u16 (Z.shiftl code 5))) in
  let crc := u16 (Z.lxor crc (u16 (Z.shiftl code 7))) in
  crc.

Definition spec_checksum (bytes : list Z) : Z :=
  fold_left spec_crc_step bytes 0.

(** The same five steps, with step 5 applied to the value that step 4 left in
    [code], that is to the step-2 value shifted by 12. *)
Definition shifted_crc_step (crc b : Z) : Z :=
  let code := Z.lxor (Z.shiftr crc 8) b in
  let code := Z.lxor code (Z.shiftr code 4) in
  let crc := Z.lxor (u16 (Z.shiftl crc 8)) code in
  let crc := Z.lxor crc (Z.shiftl code 5) in
  let crc := Z.lxor crc (u16 (Z.shiftl code 12)) in
  crc.

Definition shifted_checksum (bytes : list Z) : Z :=
  fold_left shifted_crc_step bytes 0.

(** ** Arrays

    A C array is a list of its elements; an access outside the array has no
    defined behaviour in C and is [None] here. *)

Definition array_get (a : list Z) (i : Z) : option Z :=
  if decide (0 <= i) then a !! Z.to_nat i else None.

Definition array_set (a : list Z) (i v : Z) : option (list Z) :=
  if decide (0 <= i < Z.of_nat (length a))
  then Some (<[Z.to_nat i := v]> a)
  else None.

(** [memcpy (dst, src + off, size)] seen from the reader's side: the [size]
    bytes of [src] that start at index [off]. *)
Definition array_slice (src : list Z) (off size : Z) : list Z :=
  take (Z.to_nat size) (drop (Z.to_nat off) src).

(** ** Requests and responses *)

(** [lw_request]: [data] is an array of [LW_PACKET_SEND_SIZE] bytes. *)
Record lw_request : Type := mk_request {
  req_data : list Z;
  req_data_size : Z;
  req_command_id : Z
}.

(** [lw_response]: [data] is an array of [LW_PACKET_RECV_SIZE] bytes, the two
    sizes are [uint32_t], [command_id] is [uint8_t]. *)
Record lw_response : Type := mk_response {
  rsp_data : list Z;
  rsp_data_size : Z;
  rsp_payload_size : Z;
  rsp_parse_state : lw_packet_parse_state;
  rsp_command_id : Z
}.

(** [lw_init_response] resets the four scalar fields and leaves the bytes of
    the buffer as they are. *)
Definition lw_init_response (response : lw_response) : lw_response :=
  {| rsp_data := rsp_data response;
     rsp_data_size := 0;
     rsp_payload_size := 0;
     rsp_parse_state := LW_PARSESTATE_START;
     rsp_command_id := UINT8_MAX |}.

(** The payload length a decoder reads from the two flag bytes. *)
Definition declared_payload_size (lo hi : Z) : Z :=
  Z.shiftr (u32 (Z.lor lo (Z.shiftl hi 8))) 6.

Section Decoder.

(** The build-time switch [LW_LARGE_PACKETS] selects the capacity of the
    receive buffer. *)
Variable LW_LARGE_PACKETS : bool.

Definition LW_PACKET_RECV_SIZE : Z :=
  if LW_LARGE_PACKETS then 1024 else 64.

(** [lw_feed_response]: one byte into the decoder.  The result is [None]
    when an array access falls outside the buffer. *)
Definition lw_feed_response (response : lw_response) (data : Z)
  : option (lw_result * lw_response) :=
  let response :=
    if decide (rsp_parse_state response = LW_PARSESTATE_DONE)
    then lw_init_response response else response in
  match rsp_parse_state response with
  | LW_PARSESTATE_START =>
      if decide (data = LW_PACKET_START_BYTE) then
        buf ← array_set (rsp_data response) 0 LW_PACKET_START_BYTE;
        Some (LW_RESULT_AGAIN,
              {| rsp_data := buf;
                 rsp_data_size := rsp_data_size response;
                 rsp_payload_size := rsp_payload_size response;
                 rsp_parse_state := LW_PARSESTATE_FLAGS1;
                 rsp_command_id := rsp_command_id response |})
      else Some (LW_RESULT_AGAIN, response)
  | LW_PARSESTATE_FLAGS1 =>
      buf ← array_set (rsp_data response) 1 data;
      Some (LW_RESULT_AGAIN,
            {| rsp_data := buf;
               rsp_data_size := rsp_data_size response;
               rsp_payload_size := rsp_payload_size response;
               rsp_parse_state := LW_PARSESTATE_FLAGS2;
               rsp_command_id := rsp_command_id response |})
  | LW_PARSESTATE_FLAGS2 =>
      buf ← array_set (rsp_data response) 2 data;
      lo ← array_get buf 1;
      hi ← array_get buf 2;
      let payload_size := Z.shiftr (u32 (Z.lor lo (Z.shiftl hi 8))) 6 in
      Some (LW_RESULT_AGAIN,
            {| rsp_data := buf;
               rsp_data_size := 3;
               rsp_payload_size := payload_size;
               rsp_parse_state :=
                 if decide (payload_size > LW_PACKET_RECV_SIZE - 5
                            \/ payload_size < 1)
                 then LW_PARSESTATE_START else LW_PARSESTATE_PAYLOAD;
               rsp_command_id := rsp_command_id response |})
  | LW_PARSESTATE_PAYLOAD =>
      buf ← array_set (rsp_data response) (rsp_data_size response) data;
      let data_size := u32 (rsp_data_size response + 1) in
      if decide (data_size = u32 (rsp_payload_size response + 5)) then
        lo ← array_get buf (u32 (data_size - 2));
        hi ← array_get buf (u32 (data_size - 1));
        let crc := u16 (Z.lor lo (Z.shiftl hi 8)) in
        let verify_crc := lw_create_crc buf (u16 (u32 (data_size - 2))) in
        if decide (crc = verify_crc) then
          id ← array_get buf 3;
          Some (LW_RESULT_SUCCESS,
                {| rsp_data := buf;
                   rsp_data_size := data_size;
                   rsp_payload_size := rsp_payload_size response;
                   rsp_parse_state := LW_PARSESTATE_DONE;
                   rsp_command_id := id |})
        else
          Some (LW_RESULT_AGAIN,
                {| rsp_data := buf;
                   rsp_data_size := data_size;
                   rsp_payload_size := rsp_payload_size response;
                   rsp_parse_state := LW_PARSESTATE_START;
                   rsp_command_id := rsp_command_id response |})
      else
        Some (LW_RESULT_AGAIN,
              {| rsp_data := buf;
                 rsp_data_size := data_size;
                 rsp_payload_size := rsp_payload_size response;
                 rsp_parse_state := LW_PARSESTATE_PAYLOAD;
                 rsp_command_id := rsp_command_id response |})
  | LW_PARSESTATE_DONE => Some (LW_RESULT_ERROR, response)
  end.

(** Feeding a sequence of bytes one call at a time, collecting the result
    of every call. *)
Fixpoint feed_all (response : lw_response) (bytes : list Z)
  : option (list lw_result * lw_response) :=
  match bytes with
  | [] => Some ([], response)
  | b :: rest =>
      '(res, response') ← lw_feed_response response b;
      '(results, final) ← feed_all response' rest;
      Some (res :: results, final)
  end.

(** The index of the store into [data] that a call performs, if it
    performs one (read off the four assignments [response->data[..] = ..]). *)
Definition feed_write_index (response : lw_response) (data : Z) : option Z :=
  let response :=
    if decide (rsp_parse_state response = LW_PARSESTATE_DONE)
    then lw_init_response response else response in
  match rsp_parse_state response with
  | LW_PARSESTATE_START =>
      if decide (data = LW_PACKET_START_BYTE) then Some 0 else None
  | LW_PARSESTATE_FLAGS1 => Some 1
  | LW_PARSESTATE_FLAGS2 => Some 2
  | LW_PARSESTATE_PAYLOAD => Some (rsp_data_size response)
  | LW_PARSESTATE_DONE => None
  end.

(** A response as [lw_callback_device device = {0}] leaves it. *)
Definition zero_response : lw_response :=
  mk_response (repeat 0 (Z.to_nat LW_PACKET_RECV_SIZE)) 0 0 LW_PARSESTATE_START 0.

(** The response is laid out as the header declares it. *)
Definition wf_response (response : lw_response) : Prop :=
  Z.of_nat (length (rsp_data response)) = LW_PACKET_RECV_SIZE.

(** What holds of every reachable decoder state: the buffer has its
    declared size, and while the payload is read the count of bytes stored
    stays below the packet's total size, which fits the buffer. *)
Definition decoder_inv (r : lw_response) : Prop :=
  wf_response r /\
  (rsp_parse_state r = LW_PARSESTATE_PAYLOAD ->
   3 <= rsp_data_size r < rsp_payload_size r + 5 /\
   1 <= rsp_payload_size r <= LW_PACKET_RECV_SIZE - 5).

(** Two decoders have made the same progress on the current packet: same
    state, and the same bytes and counts as far as the state has stored
    any (nothing at [START]; the recorded command id once [DONE]). *)
Definition same_progress (r1 r2 : lw_response) : Prop :=
  rsp_parse_state r1 = rsp_parse_state r2 /\
  match rsp_parse_state r1 with
  | LW_PARSESTATE_START => True
  | LW_PARSESTATE_FLAGS1 => take 1 (rsp_data r1) = take 1 (rsp_data r2)
  | LW_PARSESTATE_FLAGS2 => take 2 (rsp_data r1) = take 2 (rsp_data r2)
  | LW_PARSESTATE_PAYLOAD =>
      rsp_data_size r1 = rsp_data_size r2 /\
      rsp_payload_size r1 = rsp_payload_size r2 /\
      take (Z.to_nat (rsp_data_size r1)) (rsp_data r1)
        = take (Z.to_nat (rsp_data_size r2)) (rsp_data r2)
  | LW_PARSESTATE_DONE =>
      rsp_data_size r1 = rsp_data_size r2 /\
      rsp_payload_size r1 = rsp_payload_size r2 /\
      take (Z.to_nat (rsp_data_size r1)) (rsp_data r1)
        = take (Z.to_nat (rsp_data_size r2)) (rsp_data r2) /\
      rsp_command_id r1 = rsp_command_id r2
  end.

(** Decoder states reachable from an initialised response. *)
Inductive reachable : lw_response -> Prop :=
| reachable_init (r0 : lw_response) :
    wf_response r0 -> reachable (lw_init_response r0)
| reachable_feed (r r' : lw_response) (b : Z) (res : lw_result) :
    reachable r -> lw_feed_response r b = Some (res, r') -> reachable r'.

(** The decoder state after an initialised, zeroed response has been fed
    [bytes]. *)
Definition decoder_after (bytes : list Z) : lw_response :=
  match feed_all (lw_init_response zero_response) bytes with
  | Some (_, r) => r
  | None => lw_init_response zero_response
  end.

End Decoder.

(** ** Packet construction and extraction *)

(** [lw_create_packet] on a little-endian host (the source reads the two
    bytes of [flags] and of [crc] through a byte pointer and labels the first
    one "low"): the bytes written to [packet_buffer], [6 + data_size] of
    them.  [data] holds the [data_size] payload bytes. *)
Definition lw_create_packet (command_id write : Z) (data : list Z) (data_size : Z)
  : list Z :=
  let payload_length := u32 (1 + data_size) in
  let flags := u16 (Z.lor (u32 (Z.shiftl payload_length 6)) (Z.land write 1)) in
  let header :=
    [LW_PACKET_START_BYTE; u8 flags; u8 (Z.shiftr flags 8); command_id] in
  let body := header ++ take (Z.to_nat data_size) data in
  let crc := lw_create_crc body (u16 (u32 (4 + data_size))) in
  body ++ [u8 crc; u8 (Z.shiftr crc 8)].

(** [lw_parse_packet_data]: [size] bytes from [packet_buffer + 4 + offset]. *)
Definition lw_parse_packet_data (packet_buffer : list Z) (size offset : Z)
  : list Z :=
  array_slice packet_buffer (u32 (4 + offset)) size.

Definition lw_init_request (request : lw_request) (command_id size : Z)
  : lw_request :=
  {| req_data := req_data request;
     req_data_size := size;
     req_command_id := command_id |}.

(** [lw_create_request_read]: the packet is written at the start of the
    request's buffer; the bytes behind it keep their values. *)
Definition lw_create_request_read (request : lw_request) (command_id : Z)
  : lw_request :=
  let packet := lw_create_packet command_id 0 [] 0 in
  lw_init_request
    {| req_data := packet ++ drop (length packet) (req_data request);
       req_data_size := req_data_size request;
       req_command_id := req_command_id request |}
    command_id (Z.of_nat (length packet)).

(** ** The callback device

    The four platform callbacks receive the device and act on the state
    behind [user_data]; here each of them maps that state to its return
    value and the next state.  [calls] is not a field of the C struct: it
    records, oldest first, every callback invocation the engine makes, so
    that statements about what was called, how often and with which
    arguments can be written down. *)

Inductive event : Type :=
| EvGetTime (now : Z)
| EvSend (size sent : Z)
| EvReceive (timeout_ms bytes_read byte : Z).

Record lw_callback_device (U : Type) : Type := mk_device {
  user_data : U;
  sleep : U -> Z -> U;
  get_time_ms : U -> Z * U;
  serial_send : U -> list Z -> Z -> Z * U;
  serial_receive : U -> Z -> Z -> Z * Z * U;
  request : lw_request;
  response : lw_response;
  calls : list event
}.

Arguments mk_device {U} _ _ _ _ _ _ _ _.
Arguments user_data {U} _.
Arguments sleep {U} _ _ _.
Arguments get_time_ms {U} _ _.
Arguments serial_send {U} _ _ _ _.
Arguments serial_receive {U} _ _ _ _.
Arguments request {U} _.
Arguments response {U} _.
Arguments calls {U} _.

Definition is_send (e : event) : bool :=
  match e with EvSend _ _ => true | _ => false end.

Definition is_receive (e : event) : bool :=
  match e with EvReceive _ _ _ => true | _ => false end.

Definition count_sends (l : list event) : nat := length (filter is_send l).

(** A receive asked with timeout 0 that brought a byte. *)
Definition poll_got_byte (e : event) : bool :=
  match e with
  | EvReceive timeout_ms bytes_read _ => (timeout_ms =? 0) && (0 <? bytes_read)
  | _ => false
  end.

Section Managed.

Context {U : Type}.
Variable LW_LARGE_PACKETS : bool.

(** A callback returned: its effect on the platform state and the record
    of the call. *)
Definition after_call (d : lw_callback_device U) (u : U) (e : event)
  : lw_callback_device U :=
  mk_device u (sleep d) (get_time_ms d) (serial_send d) (serial_receive d)
            (request d) (response d) (calls d ++ [e]).

Definition set_response (d : lw_callback_device U) (r : lw_response)
  : lw_callback_device U :=
  mk_device (user_data d) (sleep d) (get_time_ms d) (serial_send d)
            (serial_receive d) (request d) r (calls d).

Definition call_get_time_ms (d : lw_callback_device U)
  : Z * lw_callback_device U :=
  let '(now, u) := get_time_ms d (user_data d) in
  (now, after_call d u (EvGetTime now)).

Definition call_serial_send (d : lw_callback_device U) (buffer : list Z) (size : Z)
  : Z * lw_callback_device U :=
  let '(sent, u) := serial_send d (user_data d) buffer size in
  (sent, after_call d u (EvSend size sent)).

(** [serial_receive (device, &byte, 1, timeout_ms)]: the count returned and
    the value found in [byte] afterwards. *)
Definition call_serial_receive (d : lw_callback_device U) (size timeout_ms : Z)
  : Z * Z * lw_callback_device U :=
  let '(bytes_read, byte, u) := serial_receive d (user_data d) size timeout_ms in
  (bytes_read, byte, after_call d u (EvReceive timeout_ms bytes_read byte)).

(** [lw_create_callback_device]: the struct is zero-initialised, the
    callbacks stored, request and response initialised. *)
Definition lw_create_callback_device (u : U)
    (sleep_cb : U -> Z -> U) (get_time_ms_cb : U -> Z * U)
    (serial_send_cb : U -> list Z -> Z -> Z * U)
    (serial_receive_cb : U -> Z -> Z -> Z * Z * U) : lw_callback_device U :=
  mk_device u sleep_cb get_time_ms_cb serial_send_cb serial_receive_cb
    (lw_init_request
       (mk_request (repeat 0 (Z.to_nat LW_PACKET_SEND_SIZE)) 0 0) 0 0)
    (lw_init_response (zero_response LW_LARGE_PACKETS))
    [].

(** The time left that one pass of the loop computes: none in non-blocking
    mode, otherwise the clock is read and compared with the deadline. *)
Definition time_left (d : lw_callback_device U) (timeout_ms timeout_time : Z)
  : Z * lw_callback_device U :=
  if decide (timeout_ms <> 0) then
    let '(current_time, d1) := call_get_time_ms d in
    (if decide (current_time < timeout_time)
     then u32 (timeout_time - current_time) else 0, d1)
  else (0, d).

(** One pass through the body of the [while (1)] loop of
    [lw_wait_for_next_response]: [Some (Some res, d')] when the body
    returns [res], [Some (None, d')] when it falls through to the next
    pass, [None] when the decoder left its buffer. *)
Definition wait_iteration (d : lw_callback_device U)
    (command_id timeout_ms timeout_time : Z)
  : option (option lw_result * lw_callback_device U) :=
  let '(time_left_ms, d1) := time_left d timeout_ms timeout_time in
  let '(bytes_read, byte, d2) := call_serial_receive d1 1 time_left_ms in
  if decide (bytes_read = -1) then Some (Some LW_RESULT_ERROR, d2)
  else if decide (bytes_read > 0) then
    '(res, r) ← lw_feed_response LW_LARGE_PACKETS (response d2) byte;
    if decide (res = LW_RESULT_SUCCESS) then
      if decide (command_id = LW_ANY_COMMAND \/ rsp_command_id r = command_id)
      then Some (Some LW_RESULT_SUCCESS, set_response d2 r)
      else Some (None, set_response d2 r)
    else Some (None, set_response d2 r)
  else if decide (timeout_ms = 0) then Some (Some LW_RESULT_AGAIN, d2)
  else if decide (time_left_ms = 0) then Some (Some LW_RESULT_TIMEOUT, d2)
  else Some (None, d2).

(** The loop, at most [fuel] passes; [None] when no pass returned within
    them (or the decoder left its buffer). *)
Fixpoint wait_loop (fuel : nat) (d : lw_callback_device U)
    (command_id timeout_ms timeout_time : Z)
  : option (lw_result * lw_callback_device U) :=
  match fuel with
  | O => None
  | S fuel' =>
      match wait_iteration d command_id timeout_ms timeout_time with
      | None => None
      | Some (Some res, d') => Some (res, d')
      | Some (None, d') =>
          wait_loop fuel' d' command_id timeout_ms timeout_time
      end
  end.

(** The deadline computed at entry: [uint32_t] addition. *)
Definition wait_deadline (d : lw_callback_device U) (timeout_ms : Z)
  : Z * lw_callback_device U :=
  if decide (timeout_ms <> 0) then
    let '(now, d0) := call_get_time_ms d in (u32 (now + timeout_ms), d0)
  else (0, d).

Definition lw_wait_for_next_response (fuel : nat) (d : lw_callback_device U)
    (command_id timeout_ms : Z)
  : option (lw_result * lw_callback_device U) :=
  let '(timeout_time, d0) := wait_deadline d timeout_ms in
  wait_loop fuel d0 command_id timeout_ms timeout_time.

(** One turn of [while (attempts--)]: send, then await the response. *)
Fixpoint send_attempts (attempts fuel : nat) (d : lw_callback_device U)
  : option (lw_result * lw_callback_device U) :=
  match attempts with
  | O => Some (LW_RESULT_EXCEEDED_RETRIES, d)
  | S attempts' =>
      let '(sent, d1) :=
        call_serial_send d (req_data (request d)) (req_data_size (request d)) in
      if decide (sent = 0) then Some (LW_RESULT_ERROR, d1)
      else
        match lw_wait_for_next_response fuel d1
                (req_command_id (request d1)) LW_RESPONSE_TIMEOUT_MS with
        | None => None
        | Some (result, d2) =>
            if decide (result = LW_RESULT_SUCCESS)
            then Some (LW_RESULT_SUCCESS, d2)
            else if decide (result = LW_RESULT_ERROR)
            then Some (LW_RESULT_ERROR, d2)
            else send_attempts attempts' fuel d2
        end
  end.

(** [fuel] bounds the passes of each await. *)
Definition lw_send_request_get_response (fuel : nat) (d : lw_callback_device U)
  : option (lw_result * lw_callback_device U) :=
  send_attempts (Z.to_nat LW_REQUEST_RETRIES) fuel d.

Definition set_request (d : lw_callback_device U) (q : lw_request)
  : lw_callback_device U :=
  mk_device (user_data d) (sleep d) (get_time_ms d) (serial_send d)
            (serial_receive d) q (response d) (calls d).

(** A turn of the retry loop that ends without a verdict: the send reports
    a nonzero count and the await that follows returns, with neither
    [SUCCESS] nor [ERROR].  The result is the device after the turn. *)
Definition failed_attempt (fuel : nat) (d : lw_callback_device U)
  : option (lw_callback_device U) :=
  let '(sent, d1) :=
    call_serial_send d (req_data (request d)) (req_data_size (request d)) in
  if decide (sent = 0) then None
  else
    match lw_wait_for_next_response fuel d1
            (req_command_id (request d1)) LW_RESPONSE_TIMEOUT_MS with
    | Some (result, d2) =>
        if decide (result = LW_RESULT_SUCCESS \/ result = LW_RESULT_ERROR)
        then None else Some d2
    | None => None
    end.

Fixpoint failed_attempts (n fuel : nat) (d : lw_callback_device U)
  : option (lw_callback_device U) :=
  match n with
  | O => Some d
  | S n' => d' ← failed_attempt fuel d; failed_attempts n' fuel d'
  end.

End Managed.

(** ** A scripted platform

    The platform state is a clock and the bytes still to arrive.  Reading
    the clock returns it and advances it by [tick]; a receive delivers the
    next byte, or reports [idle] when none is left; a send reports the size
    it was given.  The device holds a read request for [command_id]. *)
Definition scripted_device (LW_LARGE_PACKETS : bool) (tick idle : Z)
    (incoming : list Z) (command_id : Z) : lw_callback_device (Z * list Z) :=
  let d :=
    lw_create_callback_device LW_LARGE_PACKETS (0, incoming)
      (fun u _ => u)
      (fun u => (u32 (fst u), (fst u + tick, snd u)))
      (fun u _ size => (size, u))
      (fun u _ _ =>
         match snd u with
         | [] => (idle, 0, u)
         | b :: rest => (1, b, (fst u, rest))
         end) in
  set_request d (lw_create_request_read (request d) command_id).

(** * The rest of the API *)

(** ** Checksum helpers *)

(** The state before a checksum step whose byte was 0, recovered from the
    state after it; used to show that a step loses nothing. *)
Definition crc_step_back (n : Z) : Z :=
  let lo := n mod 256 in
  let code' := Z.lxor lo (Z.shiftl (lo mod 8) 5) in
  let code := Z.lxor code' (Z.shiftr code' 4) in
  let shifted :=
    Z.lxor (Z.lxor n code') (Z.lxor (Z.shiftl code' 5) (u16 (Z.shiftl code' 12))) in
  Z.lor (Z.shiftl code 8) (Z.shiftr shifted 8).

(** [p k] for [count] consecutive values from [k] on. *)
Fixpoint holds_from (p : Z -> bool) (count : nat) (k : Z) : bool :=
  match count with
  | O => true
  | S count' => p k && holds_from p count' (k + 1)
  end.

(** ** A completed packet *)

(** What the buffer of a response holds when a packet has been accepted:
    the start byte, flag bytes that declare the recorded payload size, the
    recorded command id at index 3, and two trailing bytes that are the
    checksum of everything before them. *)
Definition verified_packet (LW_LARGE_PACKETS : bool) (r : lw_response) : Prop :=
  rsp_data r !! 0%nat = Some LW_PACKET_START_BYTE /\
  (exists lo hi,
     rsp_data r !! 1%nat = Some lo /\ rsp_data r !! 2%nat = Some hi /\
     declared_payload_size lo hi = rsp_payload_size r) /\
  1 <= rsp_payload_size r <= LW_PACKET_RECV_SIZE LW_LARGE_PACKETS - 5 /\
  rsp_data_size r = rsp_payload_size r + 5 /\
  rsp_data r !! 3%nat = Some (rsp_command_id r) /\
  (exists c0 c1,
     array_get (rsp_data r) (rsp_data_size r - 2) = Some c0 /\
     array_get (rsp_data r) (rsp_data_size r - 1) = Some c1 /\
     u16 (Z.lor c0 (Z.shiftl c1 8))
       = lw_create_crc (rsp_data r) (rsp_data_size r - 2)).

(** What the decoder has stored of the packet in progress. *)
Definition header_inv (LW_LARGE_PACKETS : bool) (r : lw_response) : Prop :=
  match rsp_parse_state r with
  | LW_PARSESTATE_START => True
  | LW_PARSESTATE_FLAGS1 | LW_PARSESTATE_FLAGS2 =>
      rsp_data r !! 0%nat = Some LW_PACKET_START_BYTE
  | LW_PARSESTATE_PAYLOAD =>
      rsp_data r !! 0%nat = Some LW_PACKET_START_BYTE /\
      exists lo hi,
        rsp_data r !! 1%nat = Some lo /\ rsp_data r !! 2%nat = Some hi /\
        declared_payload_size lo hi = rsp_payload_size r
  | LW_PARSESTATE_DONE => verified_packet LW_LARGE_PACKETS r
  end.

(** ** Integers in memory (little-endian host) *)

(** The [n] bytes of an integer object, lowest first; for a negative value
    these are the bytes of its two's complement. *)
Fixpoint le_bytes (n : nat) (v : Z) : list Z :=
  match n with
  | O => []
  | S n' => u8 v :: le_bytes n' (Z.shiftr v 8)
  end.

(** The unsigned integer a run of bytes holds. *)
Fixpoint le_value (bs : list Z) : Z :=
  match bs with
  | [] => 0
  | b :: rest => Z.lor b (Z.shiftl (le_value rest) 8)
  end.

(** The value of a [bits]-wide object read as a signed integer. *)
Definition to_signed (bits v : Z) : Z :=
  if decide (v < 2 ^ (bits - 1)) then v else v - 2 ^ bits.

(** [int32_t] arithmetic: a result outside the type is undefined in C. *)
Definition int32_checked (x : Z) : option Z :=
  if decide (- 2 ^ 31 <= x < 2 ^ 31) then Some x else None.

(** ** Parsing helpers *)

Record lw_firmware_version : Type := mk_firmware_version {
  major : Z;
  minor : Z;
  patch : Z
}.

Definition lw_expand_firmware_version (version : Z) : lw_firmware_version :=
  {| major := Z.land (Z.shiftr version 16) 0xFF;
     minor := Z.land (Z.shiftr version 8) 0xFF;
     patch := Z.land (Z.shiftr version 0) 0xFF |}.

(** ** Request generators *)

(** [lw_init_request (request, command_id, lw_create_packet (request->data,
    ...))]: the packet is written at the start of the request's buffer, then
    size and command id are recorded.  [size] is what [lw_create_packet]
    returns. *)
Definition request_store (request : lw_request) (command_id : Z)
    (packet : list Z) (size : Z) : lw_request :=
  lw_init_request
    {| req_data := packet ++ drop (length packet) (req_data request);
       req_data_size := req_data_size request;
       req_command_id := req_command_id request |}
    command_id size.

Definition lw_create_request_write_int8 (request : lw_request)
    (command_id value : Z) : lw_request :=
  request_store request command_id
    (lw_create_packet command_id 1 (le_bytes 1 value) 1) (u32 (6 + 1)).

Definition lw_create_request_write_int16 (request : lw_request)
    (command_id value : Z) : lw_request :=
  request_store request command_id
    (lw_create_packet command_id 1 (le_bytes 2 value) 2) (u32 (6 + 2)).

Definition lw_create_request_write_int32 (request : lw_request)
    (command_id value : Z) : lw_request :=
  request_store request command_id
    (lw_create_packet command_id 1 (le_bytes 4 value) 4) (u32 (6 + 4)).

Definition lw_create_request_write_uint8 (request : lw_request)
    (command_id value : Z) : lw_request :=
  request_store request command_id
    (lw_create_packet command_id 1 (le_bytes 1 value) 1) (u32 (6 + 1)).

Definition lw_create_request_write_uint16 (request : lw_request)
    (command_id value : Z) : lw_request :=
  request_store request command_id
    (lw_create_packet command_id 1 (le_bytes 2 value) 2) (u32 (6 + 2)).

Definition lw_create_request_write_uint32 (request : lw_request)
    (command_id value : Z) : lw_request :=
  request_store request command_id
    (lw_create_packet command_id 1 (le_bytes 4 value) 4) (u32 (6 + 4)).

(** [lw_create_request_write_data]: nothing in the source compares
    [data_size] with the capacity of the request's buffer; a packet that does
    not fit is written past its end, which is [None] here, as is reading
    more bytes than [data] has. *)
Definition lw_create_request_write_data (request : lw_request)
    (command_id : Z) (data : list Z) (data_size : Z) : option lw_request :=
  if decide (0 <= data_size <= Z.of_nat (length data)
             /\ 6 + data_size <= Z.of_nat (length (req_data request)))
  then Some (request_store request command_id
               (lw_create_packet command_id 1 data data_size)
               (u32 (6 + data_size)))
  else None.

(** [lw_create_request_write_string]: [string] must be a 16-byte buffer. *)
Definition lw_create_request_write_string (request : lw_request)
    (command_id : Z) (string : list Z) : option lw_request :=
  lw_create_request_write_data request command_id string 16.

(** ** Response parsers *)

(** [lw_parse_packet_data (response->data, out, size, offset)], [None] when
    the bytes asked for are not all inside the buffer. *)
Definition parse_bytes (response : lw_response) (size offset : Z)
  : option (list Z) :=
  if decide (0 <= size
             /\ u32 (4 + offset) + size <= Z.of_nat (length (rsp_data response)))
  then Some (lw_parse_packet_data (rsp_data response) size offset)
  else None.

Definition lw_parse_response_int8 (response : lw_response) (offset : Z)
  : option Z :=
  bs ← parse_bytes response 1 offset; Some (to_signed 8 (le_value bs)).

Definition lw_parse_response_int16 (response : lw_response) (offset : Z)
  : option Z :=
  bs ← parse_bytes response 2 offset; Some (to_signed 16 (le_value bs)).

Definition lw_parse_response_int32 (response : lw_response) (offset : Z)
  : option Z :=
  bs ← parse_bytes response 4 offset; Some (to_signed 32 (le_value bs)).

Definition lw_parse_response_uint8 (response : lw_response) (offset : Z)
  : option Z :=
  bs ← parse_bytes response 1 offset; Some (le_value bs).

Definition lw_parse_response_uint16 (response : lw_response) (offset : Z)
  : option Z :=
  bs ← parse_bytes response 2 offset; Some (le_value bs).

Definition lw_parse_response_uint32 (response : lw_response) (offset : Z)
  : option Z :=
  bs ← parse_bytes response 4 offset; Some (le_value bs).

Definition lw_parse_response_string (response : lw_response) (offset : Z)
  : option (list Z) :=
  parse_bytes response 16 offset.

Definition lw_parse_response_data (response : lw_response) (size offset : Z)
  : option (list Z) :=
  parse_bytes response size offset.

(** The bytes a send of the request transmits: [serial_send] is handed
    [request.data] and [request.data_size]. *)
Definition sent_bytes (request : lw_request) : list Z :=
  take (Z.to_nat (req_data_size request)) (req_data request).

(** * The GRF-250 command catalog *)

Definition LW_GRF250_COMMAND_PRODUCT_NAME : Z := 0.
Definition LW_GRF250_COMMAND_HARDWARE_VERSION : Z := 1.
Definition LW_GRF250_COMMAND_FIRMWARE_VERSION : Z := 2.
Definition LW_GRF250_COMMAND_SERIAL_NUMBER : Z := 3.
Definition LW_GRF250_COMMAND_USER_DATA : Z := 9.
Definition LW_GRF250_COMMAND_TOKEN : Z := 10.
Definition LW_GRF250_COMMAND_SAVE_PARAMETERS : Z := 12.
Definition LW_GRF250_COMMAND_RESET : Z := 14.
Definition LW_GRF250_COMMAND_DISTANCE_CONFIG : Z := 27.
Definition LW_GRF250_COMMAND_STREAM : Z := 30.
Definition LW_GRF250_COMMAND_DISTANCE_DATA : Z := 44.
Definition LW_GRF250_COMMAND_MULTI_DATA : Z := 45.
Definition LW_GRF250_COMMAND_LASER_FIRING : Z := 50.
Definition LW_GRF250_COMMAND_TEMPERATURE : Z := 55.
Definition LW_GRF250_COMMAND_AUTO_EXPOSURE : Z := 70.
Definition LW_GRF250_COMMAND_UPDATE_RATE : Z := 74.
Definition LW_GRF250_COMMAND_ALARM_STATUS : Z := 76.
Definition LW_GRF250_COMMAND_ALARM_RETURN_MODE : Z := 77.
Definition LW_GRF250_COMMAND_LOST_SIGNAL_COUNTER : Z := 78.
Definition LW_GRF250_COMMAND_ALARM_A_DISTANCE : Z := 79.
Definition LW_GRF250_COMMAND_ALARM_B_DISTANCE : Z := 80.
Definition LW_GRF250_COMMAND_ALARM_HYSTERESIS : Z := 81.
Definition LW_GRF250_COMMAND_GPIO_MODE : Z := 83.
Definition LW_GRF250_COMMAND_GPIO_ALARM_CONFIRM_COUNT : Z := 84.
Definition LW_GRF250_COMMAND_MEDIAN_FILTER_ENABLE : Z := 86.
Definition LW_GRF250_COMMAND_MEDIAN_FILTER_SIZE : Z := 87.
Definition LW_GRF250_COMMAND_SMOOTH_FILTER_ENABLE : Z := 88.
Definition LW_GRF250_COMMAND_SMOOTH_FILTER_FACTOR : Z := 89.
Definition LW_GRF250_COMMAND_BAUD_RATE : Z := 91.
Definition LW_GRF250_COMMAND_I2C_ADDRESS : Z := 92.
Definition LW_GRF250_COMMAND_ROLLING_AVERAGE_ENABLE : Z := 93.
Definition LW_GRF250_COMMAND_ROLLING_AVERAGE_SIZE : Z := 94.
Definition LW_GRF250_COMMAND_SLEEP : Z := 98.
Definition LW_GRF250_COMMAND_LED_STATE : Z := 110.
Definition LW_GRF250_COMMAND_ZERO_OFFSET : Z := 114.

Definition LW_GRF250_DISTANCE_CONFIG_FIRST_RETURN_RAW : Z := Z.shiftl 1 0.
Definition LW_GRF250_DISTANCE_CONFIG_FIRST_RETURN_FILTERED : Z := Z.shiftl 1 1.
Definition LW_GRF250_DISTANCE_CONFIG_FIRST_RETURN_STRENGTH : Z := Z.shiftl 1 2.
Definition LW_GRF250_DISTANCE_CONFIG_LAST_RETURN_RAW : Z := Z.shiftl 1 3.
Definition LW_GRF250_DISTANCE_CONFIG_LAST_RETURN_FILTERED : Z := Z.shiftl 1 4.
Definition LW_GRF250_DISTANCE_CONFIG_LAST_RETURN_STRENGTH : Z := Z.shiftl 1 5.
Definition LW_GRF250_DISTANCE_CONFIG_TEMPERATURE : Z := Z.shiftl 1 6.
Definition LW_GRF250_DISTANCE_CONFIG_ALARM_STATUS : Z := Z.shiftl 1 7.

Definition LW_GRF250_STREAM_NONE : Z := 0.
Definition LW_GRF250_STREAM_DISTANCE : Z := 5.
Definition LW_GRF250_STREAM_MULTI : Z := 6.
Definition LW_GRF250_DISABLED : Z := 0.
Definition LW_GRF250_ENABLED : Z := 1.
Definition LW_GRF250_FIRST_RETURN : Z := 0.
Definition LW_GRF250_LAST_RETURN : Z := 1.
Definition LW_GRF250_GPIO_MODE_NO_OUTPUT : Z := 0.
Definition LW_GRF250_GPIO_MODE_ALARM_A : Z := 1.
Definition LW_GRF250_GPIO_MODE_ALARM_B : Z := 2.
Definition LW_GRF250_BAUD_9600 : Z := 0.
Definition LW_GRF250_BAUD_921600 : Z := 7.

(** ** Catalog request generators

    Each returns its [lw_result] and the request as it is afterwards; a
    rejected parameter leaves the request as it was.  Enumeration
    parameters are integers here, as they are in C. *)

Definition lw_grf250_create_request_read_token (request : lw_request)
  : lw_result * lw_request :=
  (LW_RESULT_SUCCESS, lw_create_request_read request LW_GRF250_COMMAND_TOKEN).

Definition lw_grf250_create_request_read_update_rate (request : lw_request)
  : lw_result * lw_request :=
  (LW_RESULT_SUCCESS, lw_create_request_read request LW_GRF250_COMMAND_UPDATE_RATE).

(** [None]: the 16 bytes are not all inside [data], or the packet does not
    fit the request's buffer. *)
Definition lw_grf250_create_request_write_user_data (request : lw_request)
    (data : list Z) (data_size : Z) : option (lw_result * lw_request) :=
  if decide (data_size <> 16) then Some (LW_RESULT_INVALID_PARAMETER, request)
  else
    q ← lw_create_request_write_data request LW_GRF250_COMMAND_USER_DATA
          data data_size;
    Some (LW_RESULT_SUCCESS, q).

Definition lw_grf250_create_request_write_save_parameters (request : lw_request)
    (token : Z) : lw_result * lw_request :=
  (LW_RESULT_SUCCESS,
   lw_create_request_write_uint16 request LW_GRF250_COMMAND_SAVE_PARAMETERS token).

Definition lw_grf250_create_request_write_reset (request : lw_request)
    (token : Z) : lw_result * lw_request :=
  (LW_RESULT_SUCCESS,
   lw_create_request_write_uint16 request LW_GRF250_COMMAND_RESET token).

Definition lw_grf250_create_request_write_distance_config (request : lw_request)
    (distance_config : Z) : lw_result * lw_request :=
  (LW_RESULT_SUCCESS,
   lw_create_request_write_uint32 request LW_GRF250_COMMAND_DISTANCE_CONFIG
     distance_config).

Definition lw_grf250_create_request_write_stream (request : lw_request)
    (stream : Z) : lw_result * lw_request :=
  if decide (stream <> LW_GRF250_STREAM_NONE
             /\ stream <> LW_GRF250_STREAM_DISTANCE
             /\ stream <> LW_GRF250_STREAM_MULTI)
  then (LW_RESULT_INVALID_PARAMETER, request)
  else (LW_RESULT_SUCCESS,
        lw_create_request_write_uint32 request LW_GRF250_COMMAND_STREAM
          (u32 stream)).

Definition lw_grf250_create_request_write_laser_firing (request : lw_request)
    (enable : Z) : lw_result * lw_request :=
  if decide (enable <> LW_GRF250_DISABLED /\ enable <> LW_GRF250_ENABLED)
  then (LW_RESULT_INVALID_PARAMETER, request)
  else (LW_RESULT_SUCCESS,
        lw_create_request_write_uint8 request LW_GRF250_COMMAND_LASER_FIRING
          (u8 enable)).

Definition lw_grf250_create_request_write_auto_exposure (request : lw_request)
    (enable : Z) : lw_result * lw_request :=
  if decide (enable <> LW_GRF250_DISABLED /\ enable <> LW_GRF250_ENABLED)
  then (LW_RESULT_INVALID_PARAMETER, request)
  else (LW_RESULT_SUCCESS,
        lw_create_request_write_uint8 request LW_GRF250_COMMAND_AUTO_EXPOSURE
          (u8 enable)).

Definition lw_grf250_create_request_write_update_rate (request : lw_request)
    (rate : Z) : lw_result * lw_request :=
  if decide (rate < 1 \/ rate > 50) then (LW_RESULT_INVALID_PARAMETER, request)
  else (LW_RESULT_SUCCESS,
        lw_create_request_write_uint32 request LW_GRF250_COMMAND_UPDATE_RATE rate).

Definition lw_grf250_create_request_write_alarm_return_mode (request : lw_request)
    (mode : Z) : lw_result * lw_request :=
  if decide (mode <> LW_GRF250_FIRST_RETURN /\ mode <> LW_GRF250_LAST_RETURN)
  then (LW_RESULT_INVALID_PARAMETER, request)
  else (LW_RESULT_SUCCESS,
        lw_create_request_write_uint8 request LW_GRF250_COMMAND_ALARM_RETURN_MODE
          (u8 mode)).

Definition lw_grf250_create_request_write_lost_signal_counter
    (request : lw_request) (counter : Z) : lw_result * lw_request :=
  if decide (counter < 1 \/ counter > 250)
  then (LW_RESULT_INVALID_PARAMETER, request)
  else (LW_RESULT_SUCCESS,
        lw_create_request_write_uint32 request
          LW_GRF250_COMMAND_LOST_SIGNAL_COUNTER counter).

Definition lw_grf250_create_request_write_alarm_a_distance (request : lw_request)
    (distance_cm : Z) : lw_result * lw_request :=
  if decide (distance_cm > 30000) then (LW_RESULT_INVALID_PARAMETER, request)
  else (LW_RESULT_SUCCESS,
        lw_create_request_write_uint32 request LW_GRF250_COMMAND_ALARM_A_DISTANCE
          (distance_cm / 10)).

Definition lw_grf250_create_request_write_alarm_b_distance (request : lw_request)
    (distance_cm : Z) : lw_result * lw_request :=
  if decide (distance_cm > 30000) then (LW_RESULT_INVALID_PARAMETER, request)
  else (LW_RESULT_SUCCESS,
        lw_create_request_write_uint32 request LW_GRF250_COMMAND_ALARM_B_DISTANCE
          (distance_cm / 10)).

Definition lw_grf250_create_request_write_alarm_hysteresis (request : lw_request)
    (hysteresis_cm : Z) : lw_result * lw_request :=
  if decide (hysteresis_cm > 3000) then (LW_RESULT_INVALID_PARAMETER, request)
  else (LW_RESULT_SUCCESS,
        lw_create_request_write_uint32 request LW_GRF250_COMMAND_ALARM_HYSTERESIS
          (hysteresis_cm / 10)).

Definition lw_grf250_create_request_write_gpio_mode (request : lw_request)
    (mode : Z) : lw_result * lw_request :=
  if decide (mode <> LW_GRF250_GPIO_MODE_NO_OUTPUT
             /\ mode <> LW_GRF250_GPIO_MODE_ALARM_A
             /\ mode <> LW_GRF250_GPIO_MODE_ALARM_B)
  then (LW_RESULT_INVALID_PARAMETER, request)
  else (LW_RESULT_SUCCESS,
        lw_create_request_write_uint8 request LW_GRF250_COMMAND_GPIO_MODE
          (u8 mode)).

Definition lw_grf250_create_request_write_gpio_alarm_confirm_count
    (request : lw_request) (count : Z) : lw_result * lw_request :=
  if decide (count > 1000) then (LW_RESULT_INVALID_PARAMETER, request)
  else (LW_RESULT_SUCCESS,
        lw_create_request_write_uint32 request
          LW_GRF250_COMMAND_GPIO_ALARM_CONFIRM_COUNT count).

Definition lw_grf250_create_request_write_median_filter_enable
    (request : lw_request) (enable : Z) : lw_result * lw_request :=
  if decide (enable <> LW_GRF250_DISABLED /\ enable <> LW_GRF250_ENABLED)
  then (LW_RESULT_INVALID_PARAMETER, request)
  else (LW_RESULT_SUCCESS,
        lw_create_request_write_uint8 request
          LW_GRF250_COMMAND_MEDIAN_FILTER_ENABLE (u8 enable)).

Definition lw_grf250_create_request_write_median_filter_size
    (request : lw_request) (size : Z) : lw_result * lw_request :=
  if decide (size < 3 \/ size > 32) then (LW_RESULT_INVALID_PARAMETER, request)
  else (LW_RESULT_SUCCESS,
        lw_create_request_write_uint32 request
          LW_GRF250_COMMAND_MEDIAN_FILTER_SIZE size).

Definition lw_grf250_create_request_write_smooth_filter_enable
    (request : lw_request) (enable : Z) : lw_result * lw_request :=
  if decide (enable <> LW_GRF250_DISABLED /\ enable <> LW_GRF250_ENABLED)
  then (LW_RESULT_INVALID_PARAMETER, request)
  else (LW_RESULT_SUCCESS,
        lw_create_request_write_uint8 request
          LW_GRF250_COMMAND_SMOOTH_FILTER_ENABLE (u8 enable)).

Definition lw_grf250_create_request_write_smooth_filter_factor
    (request : lw_request) (factor : Z) : lw_result * lw_request :=
  if decide (factor < 1 \/ factor > 99) then (LW_RESULT_INVALID_PARAMETER, request)
  else (LW_RESULT_SUCCESS,
        lw_create_request_write_uint32 request
          LW_GRF250_COMMAND_SMOOTH_FILTER_FACTOR factor).

Definition lw_grf250_create_request_write_baud_rate (request : lw_request)
    (baud_rate : Z) : lw_result * lw_request :=
  if decide (baud_rate < LW_GRF250_BAUD_9600 \/ baud_rate > LW_GRF250_BAUD_921600)
  then (LW_RESULT_INVALID_PARAMETER, request)
  else (LW_RESULT_SUCCESS,
        lw_create_request_write_uint8 request LW_GRF250_COMMAND_BAUD_RATE
          (u8 baud_rate)).

Definition lw_grf250_create_request_write_i2c_address (request : lw_request)
    (address : Z) : lw_result * lw_request :=
  (LW_RESULT_SUCCESS,
   lw_create_request_write_uint8 request LW_GRF250_COMMAND_I2C_ADDRESS address).

Definition lw_grf250_create_request_write_rolling_average_enable
    (request : lw_request) (enable : Z) : lw_result * lw_request :=
  if decide (enable <> LW_GRF250_DISABLED /\ enable <> LW_GRF250_ENABLED)
  then (LW_RESULT_INVALID_PARAMETER, request)
  else (LW_RESULT_SUCCESS,
        lw_create_request_write_uint8 request
          LW_GRF250_COMMAND_ROLLING_AVERAGE_ENABLE (u8 enable)).

Definition lw_grf250_create_request_write_rolling_average_size
    (request : lw_request) (size : Z) : lw_result * lw_request :=
  if decide (size < 2 \/ size > 32) then (LW_RESULT_INVALID_PARAMETER, request)
  else (LW_RESULT_SUCCESS,
        lw_create_request_write_uint32 request
          LW_GRF250_COMMAND_ROLLING_AVERAGE_SIZE size).

Definition lw_grf250_create_request_write_led_state (request : lw_request)
    (enable : Z) : lw_result * lw_request :=
  if decide (enable <> LW_GRF250_DISABLED /\ enable <> LW_GRF250_ENABLED)
  then (LW_RESULT_INVALID_PARAMETER, request)
  else (LW_RESULT_SUCCESS,
        lw_create_request_write_uint8 request LW_GRF250_COMMAND_LED_STATE
          (u8 enable)).

(** [offset_cm / 10] is a signed division: it truncates toward zero. *)
Definition lw_grf250_create_request_write_zero_offset (request : lw_request)
    (offset_cm : Z) : lw_result * lw_request :=
  if decide (offset_cm < -1000 \/ offset_cm > 1000)
  then (LW_RESULT_INVALID_PARAMETER, request)
  else (LW_RESULT_SUCCESS,
        lw_create_request_write_int32 request LW_GRF250_COMMAND_ZERO_OFFSET
          (Z.quot offset_cm 10)).

(** ** Catalog response parsers

    The second argument is what the caller's variable holds before the
    call; it is returned as it was when the parser leaves early.  [None]
    marks undefined behaviour: a read outside the response buffer, a write
    outside the caller's buffer, or an [int32_t] product that does not
    fit. *)

Definition lw_grf250_parse_response_firmware_version (response : lw_response)
    (firmware_version : Z) : option (lw_result * Z) :=
  if decide (rsp_command_id response <> LW_GRF250_COMMAND_FIRMWARE_VERSION)
  then Some (LW_RESULT_INCORRECT_COMMAND_ID, firmware_version)
  else v ← lw_parse_response_uint32 response 0; Some (LW_RESULT_SUCCESS, v).

Definition lw_grf250_parse_response_user_data (response : lw_response)
    (data : list Z) (data_size : Z) : option (lw_result * list Z) :=
  if decide (data_size > 16) then Some (LW_RESULT_INVALID_PARAMETER, data)
  else if decide (rsp_command_id response <> LW_GRF250_COMMAND_USER_DATA)
  then Some (LW_RESULT_INCORRECT_COMMAND_ID, data)
  else if decide (0 <= data_size <= Z.of_nat (length data)) then
    bs ← lw_parse_response_data response data_size 0;
    Some (LW_RESULT_SUCCESS, bs ++ drop (length bs) data)
  else None.

Definition lw_grf250_parse_response_token (response : lw_response)
    (token : Z) : option (lw_result * Z) :=
  if decide (rsp_command_id response <> LW_GRF250_COMMAND_TOKEN)
  then Some (LW_RESULT_INCORRECT_COMMAND_ID, token)
  else v ← lw_parse_response_uint16 response 0; Some (LW_RESULT_SUCCESS, v).

Definition lw_grf250_parse_response_distance_config (response : lw_response)
    (distance_config : Z) : option (lw_result * Z) :=
  if decide (rsp_command_id response <> LW_GRF250_COMMAND_DISTANCE_CONFIG)
  then Some (LW_RESULT_INCORRECT_COMMAND_ID, distance_config)
  else v ← lw_parse_response_uint32 response 0; Some (LW_RESULT_SUCCESS, v).

Definition lw_grf250_parse_response_update_rate (response : lw_response)
    (rate : Z) : option (lw_result * Z) :=
  if decide (rsp_command_id response <> LW_GRF250_COMMAND_UPDATE_RATE)
  then Some (LW_RESULT_INCORRECT_COMMAND_ID, rate)
  else v ← lw_parse_response_uint32 response 0; Some (LW_RESULT_SUCCESS, v).

Definition lw_grf250_parse_response_lost_signal_counter (response : lw_response)
    (counter : Z) : option (lw_result * Z) :=
  if decide (rsp_command_id response <> LW_GRF250_COMMAND_LOST_SIGNAL_COUNTER)
  then Some (LW_RESULT_INCORRECT_COMMAND_ID, counter)
  else v ← lw_parse_response_uint32 response 0; Some (LW_RESULT_SUCCESS, v).

(** [*distance_cm *= 10] on a [uint32_t]. *)
Definition lw_grf250_parse_response_alarm_a_distance (response : lw_response)
    (distance_cm : Z) : option (lw_result * Z) :=
  if decide (rsp_command_id response <> LW_GRF250_COMMAND_ALARM_A_DISTANCE)
  then Some (LW_RESULT_INCORRECT_COMMAND_ID, distance_cm)
  else
    v ← lw_parse_response_uint32 response 0;
    Some (LW_RESULT_SUCCESS, u32 (v * 10)).

Definition lw_grf250_parse_response_alarm_b_distance (response : lw_response)
    (distance_cm : Z) : option (lw_result * Z) :=
  if decide (rsp_command_id response <> LW_GRF250_COMMAND_ALARM_B_DISTANCE)
  then Some (LW_RESULT_INCORRECT_COMMAND_ID, distance_cm)
  else
    v ← lw_parse_response_uint32 response 0;
    Some (LW_RESULT_SUCCESS, u32 (v * 10)).

Definition lw_grf250_parse_response_alarm_hysteresis (response : lw_response)
    (hysteresis_cm : Z) : option (lw_result * Z) :=
  if decide (rsp_command_id response <> LW_GRF250_COMMAND_ALARM_HYSTERESIS)
  then Some (LW_RESULT_INCORRECT_COMMAND_ID, hysteresis_cm)
  else
    v ← lw_parse_response_uint32 response 0;
    Some (LW_RESULT_SUCCESS, u32 (v * 10)).

Definition lw_grf250_parse_response_gpio_alarm_confirm_count
    (response : lw_response) (count : Z) : option (lw_result * Z) :=
  if decide (rsp_command_id response <> LW_GRF250_COMMAND_GPIO_ALARM_CONFIRM_COUNT)
  then Some (LW_RESULT_INCORRECT_COMMAND_ID, count)
  else v ← lw_parse_response_uint32 response 0; Some (LW_RESULT_SUCCESS, v).

Definition lw_grf250_parse_response_median_filter_size (response : lw_response)
    (size : Z) : option (lw_result * Z) :=
  if decide (rsp_command_id response <> LW_GRF250_COMMAND_MEDIAN_FILTER_SIZE)
  then Some (LW_RESULT_INCORRECT_COMMAND_ID, size)
  else v ← lw_parse_response_uint32 response 0; Some (LW_RESULT_SUCCESS, v).

Definition lw_grf250_parse_response_smooth_filter_factor (response : lw_response)
    (factor : Z) : option (lw_result * Z) :=
  if decide (rsp_command_id response <> LW_GRF250_COMMAND_SMOOTH_FILTER_FACTOR)
  then Some (LW_RESULT_INCORRECT_COMMAND_ID, factor)
  else v ← lw_parse_response_uint32 response 0; Some (LW_RESULT_SUCCESS, v).

Definition lw_grf250_parse_response_i2c_address (response : lw_response)
    (address : Z) : option (lw_result * Z) :=
  if decide (rsp_command_id response <> LW_GRF250_COMMAND_I2C_ADDRESS)
  then Some (LW_RESULT_INCORRECT_COMMAND_ID, address)
  else v ← lw_parse_response_uint8 response 0; Some (LW_RESULT_SUCCESS, v).

Definition lw_grf250_parse_response_rolling_average_size (response : lw_response)
    (size : Z) : option (lw_result * Z) :=
  if decide (rsp_command_id response <> LW_GRF250_COMMAND_ROLLING_AVERAGE_SIZE)
  then Some (LW_RESULT_INCORRECT_COMMAND_ID, size)
  else v ← lw_parse_response_uint32 response 0; Some (LW_RESULT_SUCCESS, v).

(** [*offset_cm *= 10] on an [int32_t]. *)
Definition lw_grf250_parse_response_zero_offset (response : lw_response)
    (offset_cm : Z) : option (lw_result * Z) :=
  if decide (rsp_command_id response <> LW_GRF250_COMMAND_ZERO_OFFSET)
  then Some (LW_RESULT_INCORRECT_COMMAND_ID, offset_cm)
  else
    v ← lw_parse_response_int32 response 0;
    v10 ← int32_checked (v * 10);
    Some (LW_RESULT_SUCCESS, v10).

Record lw_grf250_alarm_status : Type := mk_alarm_status {
  alarm_a : Z;
  alarm_b : Z
}.

Definition lw_grf250_parse_response_alarm_status (response : lw_response)
    (alarm_status : lw_grf250_alarm_status)
  : option (lw_result * lw_grf250_alarm_status) :=
  if decide (rsp_command_id response <> LW_GRF250_COMMAND_ALARM_STATUS)
  then Some (LW_RESULT_INCORRECT_COMMAND_ID, alarm_status)
  else
    status ← lw_parse_response_uint32 response 0;
    Some (LW_RESULT_SUCCESS,
          {| alarm_a := u8 (Z.land (Z.shiftr status 0) 0xFF);
             alarm_b := u8 (Z.land (Z.shiftr status 8) 0xFF) |}).

(** ** The catalog in tables

    Parameters sent as a [uint32_t] and accepted within a range: generator,
    parser, command id, least and greatest accepted value. *)
Definition ranged_parameters
  : list ((lw_request -> Z -> lw_result * lw_request)
          * (lw_response -> Z -> option (lw_result * Z)) * Z * Z * Z) :=
  [ (lw_grf250_create_request_write_update_rate,
     lw_grf250_parse_response_update_rate,
     LW_GRF250_COMMAND_UPDATE_RATE, 1, 50);
    (lw_grf250_create_request_write_lost_signal_counter,
     lw_grf250_parse_response_lost_signal_counter,
     LW_GRF250_COMMAND_LOST_SIGNAL_COUNTER, 1, 250);
    (lw_grf250_create_request_write_gpio_alarm_confirm_count,
     lw_grf250_parse_response_gpio_alarm_confirm_count,
     LW_GRF250_COMMAND_GPIO_ALARM_CONFIRM_COUNT, 0, 1000);
    (lw_grf250_create_request_write_median_filter_size,
     lw_grf250_parse_response_median_filter_size,
     LW_GRF250_COMMAND_MEDIAN_FILTER_SIZE, 3, 32);
    (lw_grf250_create_request_write_smooth_filter_factor,
     lw_grf250_parse_response_smooth_filter_factor,
     LW_GRF250_COMMAND_SMOOTH_FILTER_FACTOR, 1, 99);
    (lw_grf250_create_request_write_rolling_average_size,
     lw_grf250_parse_response_rolling_average_size,
     LW_GRF250_COMMAND_ROLLING_AVERAGE_SIZE, 2, 32) ].

(** Distances given in centimetres and sent divided by 10: generator,
    parser, command id, greatest accepted value. *)
Definition scaled_parameters
  : list ((lw_request -> Z -> lw_result * lw_request)
          * (lw_response -> Z -> option (lw_result * Z)) * Z * Z) :=
  [ (lw_grf250_create_request_write_alarm_a_distance,
     lw_grf250_parse_response_alarm_a_distance,
     LW_GRF250_COMMAND_ALARM_A_DISTANCE, 30000);
    (lw_grf250_create_request_write_alarm_b_distance,
     lw_grf250_parse_response_alarm_b_distance,
     LW_GRF250_COMMAND_ALARM_B_DISTANCE, 30000);
    (lw_grf250_create_request_write_alarm_hysteresis,
     lw_grf250_parse_response_alarm_hysteresis,
     LW_GRF250_COMMAND_ALARM_HYSTERESIS, 3000) ].

(** Parameters of an enumeration type: generator, command id, the values
    accepted, and the number of bytes the value takes in the packet. *)
Definition enumerated_parameters
  : list ((lw_request -> Z -> lw_result * lw_request) * Z * list Z * nat) :=
  [ (lw_grf250_create_request_write_stream, LW_GRF250_COMMAND_STREAM,
     [LW_GRF250_STREAM_NONE; LW_GRF250_STREAM_DISTANCE; LW_GRF250_STREAM_MULTI],
     4%nat);
    (lw_grf250_create_request_write_laser_firing, LW_GRF250_COMMAND_LASER_FIRING,
     [LW_GRF250_DISABLED; LW_GRF250_ENABLED], 1%nat);
    (lw_grf250_create_request_write_auto_exposure, LW_GRF250_COMMAND_AUTO_EXPOSURE,
     [LW_GRF250_DISABLED; LW_GRF250_ENABLED], 1%nat);
    (lw_grf250_create_request_write_alarm_return_mode,
     LW_GRF250_COMMAND_ALARM_RETURN_MODE,
     [LW_GRF250_FIRST_RETURN; LW_GRF250_LAST_RETURN], 1%nat);
    (lw_grf250_create_request_write_gpio_mode, LW_GRF250_COMMAND_GPIO_MODE,
     [LW_GRF250_GPIO_MODE_NO_OUTPUT; LW_GRF250_GPIO_MODE_ALARM_A;
      LW_GRF250_GPIO_MODE_ALARM_B], 1%nat);
    (lw_grf250_create_request_write_median_filter_enable,
     LW_GRF250_COMMAND_MEDIAN_FILTER_ENABLE,
     [LW_GRF250_DISABLED; LW_GRF250_ENABLED], 1%nat);
    (lw_grf250_create_request_write_smooth_filter_enable,
     LW_GRF250_COMMAND_SMOOTH_FILTER_ENABLE,
     [LW_GRF250_DISABLED; LW_GRF250_ENABLED], 1%nat);
    (lw_grf250_create_request_write_baud_rate, LW_GRF250_COMMAND_BAUD_RATE,
     [0; 1; 2; 3; 4; 5; 6; 7], 1%nat);
    (lw_grf250_create_request_write_rolling_average_enable,
     LW_GRF250_COMMAND_ROLLING_AVERAGE_ENABLE,
     [LW_GRF250_DISABLED; LW_GRF250_ENABLED], 1%nat);
    (lw_grf250_create_request_write_led_state, LW_GRF250_COMMAND_LED_STATE,
     [LW_GRF250_DISABLED; LW_GRF250_ENABLED], 1%nat) ].

(** ** Managed catalog commands

    A managed command builds its request in [device->request], runs the
    exchange and parses [device->response]; [LW_CHECK_SUCCESS] returns the
    first result that is not [SUCCESS].  The last argument of a getter is
    what the caller's variable holds before the call. *)

Section ManagedCatalog.

Context {U : Type}.
Variable LW_LARGE_PACKETS : bool.

Definition lw_grf250_get_token (fuel : nat) (d : lw_callback_device U) (token : Z)
  : option (lw_result * lw_callback_device U * Z) :=
  let '(result, q) := lw_grf250_create_request_read_token (request d) in
  let d := set_request d q in
  if decide (result <> LW_RESULT_SUCCESS) then Some (result, d, token)
  else
    '(result, d) ← lw_send_request_get_response LW_LARGE_PACKETS fuel d;
    if decide (result <> LW_RESULT_SUCCESS) then Some (result, d, token)
    else
      '(result, token) ← lw_grf250_parse_response_token (response d) token;
      Some (result, d, token).

Definition lw_grf250_set_save_parameters (fuel : nat) (d : lw_callback_device U)
    (token : Z) : option (lw_result * lw_callback_device U) :=
  let '(result, q) :=
    lw_grf250_create_request_write_save_parameters (request d) token in
  let d := set_request d q in
  if decide (result <> LW_RESULT_SUCCESS) then Some (result, d)
  else lw_send_request_get_response LW_LARGE_PACKETS fuel d.

Definition lw_grf250_set_reset (fuel : nat) (d : lw_callback_device U)
    (token : Z) : option (lw_result * lw_callback_device U) :=
  let '(result, q) := lw_grf250_create_request_write_reset (request d) token in
  let d := set_request d q in
  if decide (result <> LW_RESULT_SUCCESS) then Some (result, d)
  else lw_send_request_get_response LW_LARGE_PACKETS fuel d.

Definition lw_grf250_get_update_rate (fuel : nat) (d : lw_callback_device U)
    (rate : Z) : option (lw_result * lw_callback_device U * Z) :=
  let '(result, q) := lw_grf250_create_request_read_update_rate (request d) in
  let d := set_request d q in
  if decide (result <> LW_RESULT_SUCCESS) then Some (result, d, rate)
  else
    '(result, d) ← lw_send_request_get_response LW_LARGE_PACKETS fuel d;
    if decide (result <> LW_RESULT_SUCCESS) then Some (result, d, rate)
    else
      '(result, rate) ← lw_grf250_parse_response_update_rate (response d) rate;
      Some (result, d, rate).

Definition lw_grf250_set_update_rate (fuel : nat) (d : lw_callback_device U)
    (rate : Z) : option (lw_result * lw_callback_device U) :=
  let '(result, q) := lw_grf250_create_request_write_update_rate (request d) rate in
  let d := set_request d q in
  if decide (result <> LW_RESULT_SUCCESS) then Some (result, d)
  else lw_send_request_get_response LW_LARGE_PACKETS fuel d.

Definition lw_grf250_reset (fuel : nat) (d : lw_callback_device U)
  : option (lw_result * lw_callback_device U) :=
  let token := 0 in
  '(result, d, token) ← lw_grf250_get_token fuel d token;
  if decide (result <> LW_RESULT_SUCCESS) then Some (result, d)
  else
    '(result, d) ← lw_grf250_set_reset fuel d token;
    if decide (result <> LW_RESULT_SUCCESS) then Some (result, d)
    else Some (LW_RESULT_SUCCESS, d).

Definition lw_grf250_save_parameters (fuel : nat) (d : lw_callback_device U)
  : option (lw_result * lw_callback_device U) :=
  let token := 0 in
  '(result, d, token) ← lw_grf250_get_token fuel d token;
  if decide (result <> LW_RESULT_SUCCESS) then Some (result, d)
  else
    '(result, d) ← lw_grf250_set_save_parameters fuel d token;
    if decide (result <> LW_RESULT_SUCCESS) then Some (result, d)
    else Some (LW_RESULT_SUCCESS, d).

End ManagedCatalog.

(** The callbacks of the scripted platform, by name. *)
Definition scripted_clock (tick : Z) (u : Z * list Z) : Z * (Z * list Z) :=
  (u32 (fst u), (fst u + tick, snd u)).

Definition scripted_send (u : Z * list Z) (buffer : list Z) (size : Z)
  : Z * (Z * list Z) :=
  (size, u).

Definition scripted_receive (idle : Z) (u : Z * list Z) (size timeout_ms : Z)
  : Z * Z * (Z * list Z) :=
  match snd u with
  | [] => (idle, 0, u)
  | b :: rest => (1, b, (fst u, rest))
  end.

(** A device on the scripted platform, whatever its request, response and
    history. *)
Definition on_scripted_platform (tick idle : Z)
    (d : lw_callback_device (Z * list Z)) : Prop :=
  get_time_ms d = scripted_clock tick /\
  serial_send d = scripted_send /\
  serial_receive d = scripted_receive idle.

(** The number of buffer positions the packet in progress has filled: the
    next store of the decoder goes to this index. *)
Definition filled (r : lw_response) : Z :=
  match rsp_parse_state r with
  | LW_PARSESTATE_START | LW_PARSESTATE_DONE => 0
  | LW_PARSESTATE_FLAGS1 => 1
  | LW_PARSESTATE_FLAGS2 => 2
  | LW_PARSESTATE_PAYLOAD => rsp_data_size r
  end.

(** ** Distance data *)

Record lw_grf250_distance_data : Type := mk_distance_data {
  first_return_raw_mm : Z;
  first_return_filtered_mm : Z;
  first_return_strength : Z;
  last_return_raw_mm : Z;
  last_return_filtered_mm : Z;
  last_return_strength : Z;
  temperature : Z;
  alarm_status : Z
}.

(** Assignments to the fields of [*distance_data]. *)
Definition set_first_return_raw_mm (v : Z) (d : lw_grf250_distance_data) :=
  mk_distance_data v (first_return_filtered_mm d) (first_return_strength d)
    (last_return_raw_mm d) (last_return_filtered_mm d) (last_return_strength d)
    (temperature d) (alarm_status d).

Definition set_first_return_filtered_mm (v : Z) (d : lw_grf250_distance_data) :=
  mk_distance_data (first_return_raw_mm d) v (first_return_strength d)
    (last_return_raw_mm d) (last_return_filtered_mm d) (last_return_strength d)
    (temperature d) (alarm_status d).

Definition set_first_return_strength (v : Z) (d : lw_grf250_distance_data) :=
  mk_distance_data (first_return_raw_mm d) (first_return_filtered_mm d) v
    (last_return_raw_mm d) (last_return_filtered_mm d) (last_return_strength d)
    (temperature d) (alarm_status d).

Definition set_last_return_raw_mm (v : Z) (d : lw_grf250_distance_data) :=
  mk_distance_data (first_return_raw_mm d) (first_return_filtered_mm d)
    (first_return_strength d) v (last_return_filtered_mm d)
    (last_return_strength d) (temperature d) (alarm_status d).

Definition set_last_return_filtered_mm (v : Z) (d : lw_grf250_distance_data) :=
  mk_distance_data (first_return_raw_mm d) (first_return_filtered_mm d)
    (first_return_strength d) (last_return_raw_mm d) v
    (last_return_strength d) (temperature d) (alarm_status d).

Definition set_last_return_strength (v : Z) (d : lw_grf250_distance_data) :=
  mk_distance_data (first_return_raw_mm d) (first_return_filtered_mm d)
    (first_return_strength d) (last_return_raw_mm d) (last_return_filtered_mm d)
    v (temperature d) (alarm_status d).

Definition set_temperature (v : Z) (d : lw_grf250_distance_data) :=
  mk_distance_data (first_return_raw_mm d) (first_return_filtered_mm d)
    (first_return_strength d) (last_return_raw_mm d) (last_return_filtered_mm d)
    (last_return_strength d) v (alarm_status d).

Definition set_alarm_status (v : Z) (d : lw_grf250_distance_data) :=
  mk_distance_data (first_return_raw_mm d) (first_return_filtered_mm d)
    (first_return_strength d) (last_return_raw_mm d) (last_return_filtered_mm d)
    (last_return_strength d) (temperature d) v.

(** One block of [lw_grf250_parse_response_distance_data]:
    [if (config & bit) { lw_parse_response_int32 (response, &field, offset);
    field *= scale; offset += sizeof (uint32_t); }], where the
    multiplication is present for the raw and filtered distances only
    ([scale] is [None] for the other fields). *)
Definition parse_field (response : lw_response) (config bit : Z)
    (scale : option Z)
    (store : Z -> lw_grf250_distance_data -> lw_grf250_distance_data)
    (st : lw_grf250_distance_data * Z)
  : option (lw_grf250_distance_data * Z) :=
  let '(distance_data, offset) := st in
  if decide (Z.land config bit <> 0) then
    v ← lw_parse_response_int32 response offset;
    v ← match scale with
        | Some s => int32_checked (v * s)
        | None => Some v
        end;
    Some (store v distance_data, u32 (offset + 4))
  else Some (distance_data, offset).

Definition lw_grf250_parse_response_distance_data (response : lw_response)
    (config : Z) (distance_data : lw_grf250_distance_data)
  : option (lw_result * lw_grf250_distance_data) :=
  if decide (rsp_command_id response <> LW_GRF250_COMMAND_DISTANCE_DATA)
  then Some (LW_RESULT_INCORRECT_COMMAND_ID, distance_data)
  else
    st ← parse_field response config LW_GRF250_DISTANCE_CONFIG_FIRST_RETURN_RAW
           (Some 100) set_first_return_raw_mm (distance_data, 0);
    st ← parse_field response config
           LW_GRF250_DISTANCE_CONFIG_FIRST_RETURN_FILTERED
           (Some 100) set_first_return_filtered_mm st;
    st ← parse_field response config
           LW_GRF250_DISTANCE_CONFIG_FIRST_RETURN_STRENGTH
           None set_first_return_strength st;
    st ← parse_field response config LW_GRF250_DISTANCE_CONFIG_LAST_RETURN_RAW
           (Some 100) set_last_return_raw_mm st;
    st ← parse_field response config
           LW_GRF250_DISTANCE_CONFIG_LAST_RETURN_FILTERED
           (Some 100) set_last_return_filtered_mm st;
    st ← parse_field response config
           LW_GRF250_DISTANCE_CONFIG_LAST_RETURN_STRENGTH
           None set_last_return_strength st;
    st ← parse_field response config LW_GRF250_DISTANCE_CONFIG_TEMPERATURE
           None set_temperature st;
    st ← parse_field response config LW_GRF250_DISTANCE_CONFIG_ALARM_STATUS
           None set_alarm_status st;
    Some (LW_RESULT_SUCCESS, fst st).

(** The number of configuration bits below bit [k] that are set. *)
Fixpoint fields_before (config : Z) (k : nat) : Z :=
  match k with
  | O => 0
  | S k' =>
      fields_before config k' + (if Z.testbit config (Z.of_nat k') then 1 else 0)
  end.

(** The fields of the distance record: configuration bit, factor applied
    to the number on the wire, and the field. *)
Definition distance_fields : list (nat * Z * (lw_grf250_distance_data -> Z)) :=
  [ (0%nat, 100, first_return_raw_mm);
    (1%nat, 100, first_return_filtered_mm);
    (2%nat, 1, first_return_strength);
    (3%nat, 100, last_return_raw_mm);
    (4%nat, 100, last_return_filtered_mm);
    (5%nat, 1, last_return_strength);
    (6%nat, 1, temperature);
    (7%nat, 1, alarm_status) ].

(** * Properties *)

(** ** Fixed-width arithmetic *)

Lemma u8_range x : 0 <= u8 x < 256.
Proof. unfold u8. apply Z.mod_pos_bound. lia. Qed.

Lemma u16_range x : 0 <= u16 x < 65536.
Proof. unfold u16. apply Z.mod_pos_bound. lia. Qed.

Lemma u32_range x : 0 <= u32 x < 4294967296.
Proof. unfold u32. apply Z.mod_pos_bound. lia. Qed.

Lemma u8_small x : 0 <= x < 256 -> u8 x = x.
Proof. intros. unfold u8. apply Z.mod_small. lia. Qed.

Lemma u16_small x : 0 <= x < 65536 -> u16 x = x.
Proof. intros. unfold u16. apply Z.mod_small. lia. Qed.

Lemma u32_small x : 0 <= x < 4294967296 -> u32 x = x.
Proof. intros. unfold u32. apply Z.mod_small. lia. Qed.

Lemma below_pow2_bits n a :
  0 <= n -> 0 <= a < 2 ^ n -> forall i, n <= i -> Z.testbit a i = false.
Proof.
  intros Hn Ha i Hi.
  rewrite <- (Z.mod_small a (2 ^ n)) by lia.
  apply Z.mod_pow2_bits_high. lia.
Qed.

Lemma bits_below_pow2 n a :
  0 <= n -> 0 <= a -> (forall i, n <= i -> Z.testbit a i = false) ->
  a < 2 ^ n.
Proof.
  intros Hn Ha Hbits.
  assert (Hmod : a mod 2 ^ n = a).
  { apply Z.bits_inj'. intros i Hi.
    destruct (Z.lt_ge_cases i n) as [Hlt | Hge].
    - apply Z.mod_pow2_bits_low. lia.
    - rewrite Z.mod_pow2_bits_high by lia. symmetry. apply Hbits. lia. }
  rewrite <- Hmod. apply Z.mod_pos_bound. apply Z.pow_pos_nonneg; lia.
Qed.

Lemma lxor_bound n a b :
  0 <= n -> 0 <= a < 2 ^ n -> 0 <= b < 2 ^ n -> 0 <= Z.lxor a b < 2 ^ n.
Proof.
  intros Hn Ha Hb.
  assert (Hnn : 0 <= Z.lxor a b) by (apply Z.lxor_nonneg; lia).
  split; [exact Hnn |].
  apply bits_below_pow2; [lia | exact Hnn |].
  intros i Hi. rewrite Z.lxor_spec.
  rewrite (below_pow2_bits n a), (below_pow2_bits n b) by lia. reflexivity.
Qed.

Lemma lor_bound n a b :
  0 <= n -> 0 <= a < 2 ^ n -> 0 <= b < 2 ^ n -> 0 <= Z.lor a b < 2 ^ n.
Proof.
  intros Hn Ha Hb.
  assert (Hnn : 0 <= Z.lor a b) by (apply Z.lor_nonneg; lia).
  split; [exact Hnn |].
  apply bits_below_pow2; [lia | exact Hnn |].
  intros i Hi. rewrite Z.lor_spec.
  rewrite (below_pow2_bits n a), (below_pow2_bits n b) by lia. reflexivity.
Qed.

Lemma shiftr_bound a k n :
  0 <= k -> 0 <= n -> 0 <= a < 2 ^ (n + k) -> 0 <= Z.shiftr a k < 2 ^ n.
Proof.
  intros Hk Hn Ha. rewrite Z.shiftr_div_pow2 by lia.
  assert (0 < 2 ^ k) by (apply Z.pow_pos_nonneg; lia).
  split.
  - apply Z.div_pos; lia.
  - apply Z.div_lt_upper_bound; [lia |].
    rewrite <- Z.pow_add_r by lia. replace (k + n) with (n + k) by lia. lia.
Qed.

Lemma shiftl_bound a k n :
  0 <= k -> 0 <= n -> 0 <= a < 2 ^ n -> 0 <= Z.shiftl a k < 2 ^ (n + k).
Proof.
  intros Hk Hn Ha. rewrite Z.shiftl_mul_pow2 by lia.
  assert (0 < 2 ^ k) by (apply Z.pow_pos_nonneg; lia).
  rewrite Z.pow_add_r by lia. nia.
Qed.

(** ** Checksum *)

Lemma crc_update_range crc b : 0 <= crc_update crc b < 65536.
Proof. unfold crc_update. apply u16_range. Qed.

Lemma crc_fold_range bytes crc :
  0 <= crc < 65536 -> 0 <= fold_left crc_update bytes crc < 65536.
Proof.
  revert crc. induction bytes as [| b bytes IH]; intros crc Hcrc; simpl.
  - exact Hcrc.
  - apply IH. apply crc_update_range.
Qed.

Lemma lw_create_crc_range data size : 0 <= lw_create_crc data size < 65536.
Proof. unfold lw_create_crc. apply crc_fold_range. lia. Qed.

(** The loop body, with its step-by-step truncations, computes the closed
    form in which the last term is the step-2 code shifted by 12. *)
Lemma crc_update_shifted crc b :
  0 <= crc < 65536 -> is_byte b -> crc_update crc b = shifted_crc_step crc b.
Proof.
  intros Hcrc Hb. unfold is_byte in Hb. unfold crc_update, shifted_crc_step.
  assert (H1 : 0 <= Z.shiftr crc 8 < 2 ^ 8)
    by (apply shiftr_bound; simpl; lia).
  rewrite (u16_small (Z.shiftr crc 8)) by (simpl in H1; lia).
  set (c1 := Z.shiftr crc 8) in *.
  assert (H2 : 0 <= Z.lxor c1 b < 2 ^ 8) by (apply lxor_bound; simpl; lia).
  rewrite (u16_small (Z.lxor c1 b)) by (simpl in H2; lia).
  set (c2 := Z.lxor c1 b) in *.
  assert (H2' : 0 <= Z.shiftr c2 4 < 2 ^ 8).
  { pose proof (shiftr_bound c2 4 4) as Hs. simpl in Hs, H2 |- *. lia. }
  assert (H3 : 0 <= Z.lxor c2 (Z.shiftr c2 4) < 2 ^ 8)
    by (apply lxor_bound; simpl; lia).
  rewrite (u16_small (Z.lxor c2 (Z.shiftr c2 4))) by (simpl in H3; lia).
  set (c3 := Z.lxor c2 (Z.shiftr c2 4)) in *.
  pose proof (u16_range (Z.shiftl crc 8)) as H4.
  set (k1 := u16 (Z.shiftl crc 8)) in *.
  assert (H5 : 0 <= Z.lxor k1 c3 < 2 ^ 16)
    by (apply lxor_bound; simpl in *; lia).
  rewrite (u16_small (Z.lxor k1 c3)) by (simpl in H5; lia).
  assert (H6 : 0 <= Z.shiftl c3 5 < 2 ^ (8 + 5))
    by (apply shiftl_bound; simpl in *; lia).
  rewrite (u16_small (Z.shiftl c3 5)) by (simpl in H6; lia).
  assert (H7 : 0 <= Z.lxor (Z.lxor k1 c3) (Z.shiftl c3 5) < 2 ^ 16)
    by (apply lxor_bound; simpl in *; lia).
  rewrite (u16_small (Z.lxor (Z.lxor k1 c3) (Z.shiftl c3 5)))
    by (simpl in H7; lia).
  rewrite Z.shiftl_shiftl by lia. change (5 + 7) with 12.
  pose proof (u16_range (Z.shiftl c3 12)) as H8.
  apply u16_small.
  change 65536 with (2 ^ 16). apply lxor_bound; simpl in *; lia.
Qed.

Lemma crc_fold_shifted bytes crc :
  0 <= crc < 65536 -> Forall is_byte bytes ->
  fold_left crc_update bytes crc = fold_left shifted_crc_step bytes crc.
Proof.
  revert crc. induction bytes as [| b bytes IH]; intros crc Hcrc Hall; simpl.
  - reflexivity.
  - inversion Hall as [| ? ? Hb Hrest]; subst.
    rewrite <- crc_update_shifted by assumption.
    apply IH; [apply crc_update_range | assumption].
Qed.

Lemma take_all_length {A} (l : list A) :
  take (Z.to_nat (Z.of_nat (length l))) l = l.
Proof. rewrite Nat2Z.id. apply firstn_all. Qed.

(** C1 (as amended): for every byte sequence, [lw_create_crc] over the whole
    sequence is the five-step checksum in which step 5 uses the code already
    shifted by step 4, that is [crc XOR ((code << 12) mod 2^16)]. *)
Theorem C1_lw_create_crc_shifted (bytes : list Z) :
  Forall is_byte bytes ->
  lw_create_crc bytes (Z.of_nat (length bytes)) = shifted_checksum bytes.
Proof.
  intros Hall. unfold lw_create_crc, shifted_checksum.
  rewrite take_all_length. apply crc_fold_shifted; [lia | exact Hall].
Qed.

Lemma C1_lw_create_crc_shifted_witness :
  lw_create_crc [0xAA; 0x40; 0; 5] 4 = shifted_checksum [0xAA; 0x40; 0; 5].
Proof.
  apply (C1_lw_create_crc_shifted [0xAA; 0x40; 0; 5]).
  repeat constructor; unfold is_byte; lia.
Defined.

(** C1 (as stated) fails: on the one-byte input [1] the source returns
    [0x1021], the algorithm worded in section 4.1 returns [0xA1]. *)
Lemma C1_counterexample :
  lw_create_crc [1] 1 = 4129 /\ spec_checksum [1] = 161 /\
  lw_create_crc [1] (Z.of_nat (length [1])) <> spec_checksum [1].
Proof. vm_compute. repeat split; discriminate. Qed.

(** ** Arrays *)

Lemma array_get_nat (a : list Z) (i : nat) : array_get a (Z.of_nat i) = a !! i.
Proof.
  unfold array_get. rewrite decide_True by lia. rewrite Nat2Z.id. reflexivity.
Qed.

Lemma array_set_nat (a : list Z) (i : nat) (v : Z) :
  (i < length a)%nat -> array_set a (Z.of_nat i) v = Some (<[i := v]> a).
Proof.
  intros Hi. unfold array_set. rewrite decide_True by lia.
  rewrite Nat2Z.id. reflexivity.
Qed.

Lemma array_get_Z (a : list Z) (i : Z) :
  0 <= i -> array_get a i = a !! Z.to_nat i.
Proof. intros Hi. unfold array_get. rewrite decide_True by lia. reflexivity. Qed.

Lemma array_set_Z (a : list Z) (i v : Z) :
  0 <= i < Z.of_nat (length a) ->
  array_set a i v = Some (<[Z.to_nat i := v]> a).
Proof. intros Hi. unfold array_set. rewrite decide_True by lia. reflexivity. Qed.

Lemma array_set_in_bounds (a a' : list Z) (i v : Z) :
  array_set a i v = Some a' ->
  0 <= i < Z.of_nat (length a) /\ length a' = length a.
Proof.
  unfold array_set. intros H. destruct (decide (0 <= i < Z.of_nat (length a))).
  - inversion H; subst. split; [assumption | apply length_insert].
  - discriminate.
Qed.

Lemma array_set_total (a : list Z) (i v : Z) :
  0 <= i < Z.of_nat (length a) -> exists a', array_set a i v = Some a'.
Proof.
  intros Hi. unfold array_set. rewrite decide_True by assumption. eauto.
Qed.

Lemma array_get_total (a : list Z) (i : Z) :
  0 <= i < Z.of_nat (length a) -> exists v, array_get a i = Some v.
Proof.
  intros Hi. unfold array_get. rewrite decide_True by lia.
  apply lookup_lt_is_Some_2. lia.
Qed.

(** ** The decoder *)

Section DecoderFacts.

Variable LW : bool.

Lemma recv_size_bounds : 64 <= LW_PACKET_RECV_SIZE LW <= 1024.
Proof. unfold LW_PACKET_RECV_SIZE. destruct LW; lia. Qed.

Lemma decoder_inv_init r0 : wf_response LW r0 -> decoder_inv LW (lw_init_response r0).
Proof. intros Hwf. split; [exact Hwf | simpl; discriminate]. Qed.

Lemma feed_results_any r b res r' :
  lw_feed_response LW r b = Some (res, r') ->
  res = LW_RESULT_SUCCESS \/ res = LW_RESULT_AGAIN.
Proof.
  unfold lw_feed_response. intros H.
  destruct (decide (rsp_parse_state r = LW_PARSESTATE_DONE)) as [Hd | Hd].
  - simpl in H. repeat case_match; simplify_option_eq; auto.
  - destruct (rsp_parse_state r) eqn:Hst; try congruence;
      repeat case_match; simplify_option_eq; auto.
Qed.

Lemma feed_start_step r b :
  wf_response LW r -> rsp_parse_state r = LW_PARSESTATE_START ->
  lw_feed_response LW r b =
    Some (LW_RESULT_AGAIN,
          if decide (b = LW_PACKET_START_BYTE)
          then {| rsp_data := <[0%nat := LW_PACKET_START_BYTE]> (rsp_data r);
                  rsp_data_size := rsp_data_size r;
                  rsp_payload_size := rsp_payload_size r;
                  rsp_parse_state := LW_PARSESTATE_FLAGS1;
                  rsp_command_id := rsp_command_id r |}
          else r).
Proof.
  intros Hwf Hst. pose proof recv_size_bounds as Hb. unfold wf_response in Hwf.
  unfold lw_feed_response. rewrite Hst. rewrite decide_False by discriminate.
  rewrite Hst. destruct (decide (b = LW_PACKET_START_BYTE)); [| reflexivity].
  rewrite (array_set_nat _ 0) by lia. reflexivity.
Qed.

Lemma feed_done_reinit r b :
  rsp_parse_state r = LW_PARSESTATE_DONE ->
  lw_feed_response LW r b = lw_feed_response LW (lw_init_response r) b.
Proof.
  intros Hst. unfold lw_feed_response. rewrite Hst. reflexivity.
Qed.

Lemma feed_inv r b :
  decoder_inv LW r ->
  exists res r', lw_feed_response LW r b = Some (res, r') /\ decoder_inv LW r'.
Proof.
  intros [Hwf Hpay]. pose proof recv_size_bounds as Hb.
  destruct (rsp_parse_state r) eqn:Hst.
  - rewrite feed_start_step by assumption. do 2 eexists. split; [reflexivity |].
    destruct (decide (b = LW_PACKET_START_BYTE)).
    + split; [| simpl; discriminate].
      unfold wf_response in *. simpl. rewrite length_insert. exact Hwf.
    + split; [exact Hwf | rewrite Hst; discriminate].
  - unfold wf_response in Hwf. unfold lw_feed_response.
    rewrite Hst, decide_False by discriminate. rewrite Hst.
    rewrite (array_set_nat _ 1) by lia. simpl. do 2 eexists.
    split; [reflexivity |]. split; [| simpl; discriminate].
    unfold wf_response. simpl. rewrite length_insert. exact Hwf.
  - unfold wf_response in Hwf. unfold lw_feed_response.
    rewrite Hst, decide_False by discriminate. rewrite Hst.
    rewrite (array_set_nat _ 2) by lia. simpl.
    destruct (array_get_total (<[2%nat := b]> (rsp_data r)) 1) as [lo Hlo];
      [rewrite length_insert; lia |].
    destruct (array_get_total (<[2%nat := b]> (rsp_data r)) 2) as [hi Hhi];
      [rewrite length_insert; lia |].
    rewrite Hlo. simpl. rewrite Hhi. simpl. do 2 eexists.
    split; [reflexivity |]. split.
    + unfold wf_response. simpl. rewrite length_insert. exact Hwf.
    + simpl. case_decide; [discriminate |]. intros _. lia.
  - destruct (Hpay eq_refl) as [Hds Hps]. unfold wf_response in Hwf.
    unfold lw_feed_response.
    rewrite Hst, decide_False by discriminate. rewrite Hst.
    destruct (array_set_total (rsp_data r) (rsp_data_size r) b) as [buf Hbuf];
      [lia |].
    rewrite Hbuf. simpl.
    apply array_set_in_bounds in Hbuf as [_ Hlen].
    rewrite (u32_small (rsp_data_size r + 1)) by lia.
    rewrite (u32_small (rsp_payload_size r + 5)) by lia.
    case_decide as Heq.
    + rewrite (u32_small (rsp_data_size r + 1 - 2)) by lia.
      rewrite (u32_small (rsp_data_size r + 1 - 1)) by lia.
      destruct (array_get_total buf (rsp_data_size r + 1 - 2)) as [lo Hlo];
        [lia |].
      destruct (array_get_total buf (rsp_data_size r + 1 - 1)) as [hi Hhi];
        [lia |].
      destruct (array_get_total buf 3) as [id Hid]; [lia |].
      rewrite Hlo. simpl. rewrite Hhi. simpl. case_decide.
      * rewrite Hid. simpl. do 2 eexists. split; [reflexivity |].
        split; [| simpl; discriminate]. unfold wf_response. simpl. lia.
      * do 2 eexists. split; [reflexivity |].
        split; [| simpl; discriminate]. unfold wf_response. simpl. lia.
    + do 2 eexists. split; [reflexivity |]. split.
      * unfold wf_response. simpl. lia.
      * simpl. intros _. lia.
  - rewrite feed_done_reinit by assumption.
    rewrite feed_start_step by (try reflexivity; exact Hwf).
    do 2 eexists. split; [reflexivity |].
    destruct (decide (b = LW_PACKET_START_BYTE)).
    + split; [| simpl; discriminate].
      unfold wf_response in *. simpl. rewrite length_insert. exact Hwf.
    + apply decoder_inv_init. exact Hwf.
Qed.

Lemma reachable_inv r : reachable LW r -> decoder_inv LW r.
Proof.
  induction 1 as [r0 Hwf | r r' b res Hr IH Hfeed].
  - apply decoder_inv_init. exact Hwf.
  - destruct (feed_inv r b IH) as (res' & r'' & Hfeed' & Hinv).
    rewrite Hfeed in Hfeed'. inversion Hfeed'; subst. exact Hinv.
Qed.

End DecoderFacts.

(** ** Little-endian halves and the flags word *)

Lemma u8_bits x i :
  0 <= i -> Z.testbit (u8 x) i = if decide (i < 8) then Z.testbit x i else false.
Proof.
  intros Hi. unfold u8. case_decide.
  - apply Z.mod_pow2_bits_low. lia.
  - apply Z.mod_pow2_bits_high. lia.
Qed.

Lemma le_halves_combine x :
  0 <= x < 65536 -> Z.lor (u8 x) (Z.shiftl (u8 (Z.shiftr x 8)) 8) = x.
Proof.
  intros Hx. apply Z.bits_inj'. intros i Hi.
  rewrite Z.lor_spec, u8_bits by lia.
  destruct (Z.lt_ge_cases i 8) as [Hlt | Hge].
  - rewrite decide_True by lia. rewrite Z.shiftl_spec_low by lia.
    apply orb_false_r.
  - rewrite decide_False by lia. rewrite Z.shiftl_spec by lia.
    rewrite u8_bits by lia. rewrite Z.shiftr_spec by lia.
    replace (i - 8 + 8) with i by lia. case_decide; simpl; [reflexivity |].
    symmetry. apply (below_pow2_bits 16 x); simpl; lia.
Qed.

Lemma flags_shiftr_payload pl w :
  0 <= pl -> Z.shiftr (Z.lor (Z.shiftl pl 6) (Z.land w 1)) 6 = pl.
Proof.
  intros Hpl. apply Z.bits_inj'. intros i Hi.
  rewrite Z.shiftr_spec, Z.lor_spec, Z.shiftl_spec by lia.
  replace (i + 6 - 6) with i by lia.
  change 1 with (Z.ones 1). rewrite Z.land_ones by lia.
  rewrite Z.mod_pow2_bits_high by lia. apply orb_false_r.
Qed.

Lemma flags_range pl w :
  0 <= pl < 1024 -> 0 <= Z.lor (Z.shiftl pl 6) (Z.land w 1) < 65536.
Proof.
  intros Hpl. change 65536 with (2 ^ 16). apply lor_bound; [lia | |].
  - pose proof (shiftl_bound pl 6 10) as H. simpl in H |- *. lia.
  - change 1 with (Z.ones 1). rewrite Z.land_ones by lia.
    pose proof (Z.mod_pos_bound w (2 ^ 1)). simpl in *. lia.
Qed.

(** The flag bytes [lw_create_packet] emits for a payload of [pl] bytes
    (command id included) declare exactly [pl]. *)
Lemma created_flags_declare pl w :
  1 <= pl < 1024 ->
  let flags := u16 (Z.lor (u32 (Z.shiftl pl 6)) (Z.land w 1)) in
  declared_payload_size (u8 flags) (u8 (Z.shiftr flags 8)) = pl.
Proof.
  intros Hpl flags. unfold declared_payload_size.
  assert (Hsh : 0 <= Z.shiftl pl 6 < 65536).
  { pose proof (shiftl_bound pl 6 10) as H. simpl in H. lia. }
  pose proof (flags_range pl w) as Hfl.
  assert (Hflags : flags = Z.lor (Z.shiftl pl 6) (Z.land w 1)).
  { unfold flags. rewrite (u32_small (Z.shiftl pl 6)) by lia.
    apply u16_small. lia. }
  rewrite le_halves_combine by lia.
  rewrite u32_small by lia. rewrite Hflags. apply flags_shiftr_payload. lia.
Qed.

Lemma take_insert_snoc (l : list Z) (k : nat) (b : Z) :
  (k < length l)%nat -> take (S k) (<[k := b]> l) = take k l ++ [b].
Proof.
  intros Hk. rewrite (take_S_r _ _ b) by (apply list_lookup_insert_eq; lia).
  rewrite take_insert_ge by lia. reflexivity.
Qed.

Section Framing.

Variable LW : bool.

Lemma feed_all_app r xs ys :
  feed_all LW r (xs ++ ys) =
    '(res1, r1) ← feed_all LW r xs;
    '(res2, r2) ← feed_all LW r1 ys;
    Some (res1 ++ res2, r2).
Proof.
  revert r. induction xs as [| x xs IH]; intros r; simpl.
  - destruct (feed_all LW r ys) as [[res2 r2] |]; reflexivity.
  - destruct (lw_feed_response LW r x) as [[res r1] |]; simpl; [| reflexivity].
    rewrite IH. destruct (feed_all LW r1 xs) as [[res1 r2] |]; simpl;
      [| reflexivity].
    destruct (feed_all LW r2 ys) as [[res2 r3] |]; reflexivity.
Qed.

Lemma feed_flags1_step r b :
  wf_response LW r -> rsp_parse_state r = LW_PARSESTATE_FLAGS1 ->
  lw_feed_response LW r b =
    Some (LW_RESULT_AGAIN,
          {| rsp_data := <[1%nat := b]> (rsp_data r);
             rsp_data_size := rsp_data_size r;
             rsp_payload_size := rsp_payload_size r;
             rsp_parse_state := LW_PARSESTATE_FLAGS2;
             rsp_command_id := rsp_command_id r |}).
Proof.
  intros Hwf Hst. pose proof (recv_size_bounds LW) as Hb.
  unfold wf_response in Hwf. unfold lw_feed_response.
  rewrite Hst. simpl. rewrite Hst.
  rewrite (array_set_Z _ 1) by lia. reflexivity.
Qed.

Lemma feed_flags2_step r b lo :
  wf_response LW r -> rsp_parse_state r = LW_PARSESTATE_FLAGS2 ->
  rsp_data r !! 1%nat = Some lo ->
  lw_feed_response LW r b =
    Some (LW_RESULT_AGAIN,
          {| rsp_data := <[2%nat := b]> (rsp_data r);
             rsp_data_size := 3;
             rsp_payload_size := declared_payload_size lo b;
             rsp_parse_state :=
               if decide (declared_payload_size lo b > LW_PACKET_RECV_SIZE LW - 5
                          \/ declared_payload_size lo b < 1)
               then LW_PARSESTATE_START else LW_PARSESTATE_PAYLOAD;
             rsp_command_id := rsp_command_id r |}).
Proof.
  intros Hwf Hst Hlo. pose proof (recv_size_bounds LW) as Hb.
  unfold wf_response in Hwf. unfold lw_feed_response.
  rewrite Hst. simpl. rewrite Hst.
  rewrite (array_set_Z _ 2) by lia. simpl.
  rewrite (array_get_Z _ 1), (array_get_Z _ 2) by lia. simpl.
  change (Z.to_nat 2) with 2%nat. change (Z.to_nat 1) with 1%nat.
  rewrite (list_lookup_insert_ne _ 2 1) by lia. rewrite Hlo. simpl.
  rewrite list_lookup_insert_eq by lia. reflexivity.
Qed.

(** Start marker and the two flag bytes, from the [START] state. *)
Lemma feed_header r lo hi :
  wf_response LW r -> rsp_parse_state r = LW_PARSESTATE_START ->
  feed_all LW r [LW_PACKET_START_BYTE; lo; hi] =
    Some ([LW_RESULT_AGAIN; LW_RESULT_AGAIN; LW_RESULT_AGAIN],
          {| rsp_data :=
               <[2%nat := hi]> (<[1%nat := lo]>
                 (<[0%nat := LW_PACKET_START_BYTE]> (rsp_data r)));
             rsp_data_size := 3;
             rsp_payload_size := declared_payload_size lo hi;
             rsp_parse_state :=
               if decide (declared_payload_size lo hi > LW_PACKET_RECV_SIZE LW - 5
                          \/ declared_payload_size lo hi < 1)
               then LW_PARSESTATE_START else LW_PARSESTATE_PAYLOAD;
             rsp_command_id := rsp_command_id r |}).
Proof.
  intros Hwf Hst. pose proof (recv_size_bounds LW) as Hb.
  unfold wf_response in Hwf.
  assert (Hlen : (3 < length (rsp_data r))%nat) by lia.
  cbn [feed_all]. rewrite feed_start_step by assumption.
  rewrite decide_True by reflexivity. cbn [mbind option_bind].
  rewrite feed_flags1_step
    by (try reflexivity; unfold wf_response; simpl; rewrite length_insert; lia).
  cbn [mbind option_bind rsp_data rsp_data_size rsp_payload_size rsp_command_id].
  rewrite (feed_flags2_step _ hi lo).
  - reflexivity.
  - unfold wf_response. simpl. rewrite !length_insert. lia.
  - reflexivity.
  - simpl. apply list_lookup_insert_eq. rewrite length_insert. lia.
Qed.

Lemma header_prefix (buf : list Z) lo hi :
  (3 <= length buf)%nat ->
  take 3 (<[2%nat := hi]> (<[1%nat := lo]>
            (<[0%nat := LW_PACKET_START_BYTE]> buf))) =
    [LW_PACKET_START_BYTE; lo; hi].
Proof.
  intros Hlen.
  rewrite take_insert_snoc by (rewrite !length_insert; lia).
  rewrite take_insert_snoc by (rewrite !length_insert; lia).
  rewrite take_insert_snoc by lia. reflexivity.
Qed.

Lemma feed_payload_step r b (k : nat) :
  wf_response LW r ->
  rsp_parse_state r = LW_PARSESTATE_PAYLOAD ->
  rsp_data_size r = Z.of_nat k ->
  Z.of_nat k + 1 < rsp_payload_size r + 5 ->
  rsp_payload_size r + 5 <= LW_PACKET_RECV_SIZE LW ->
  lw_feed_response LW r b =
    Some (LW_RESULT_AGAIN,
          {| rsp_data := <[k := b]> (rsp_data r);
             rsp_data_size := Z.of_nat (S k);
             rsp_payload_size := rsp_payload_size r;
             rsp_parse_state := LW_PARSESTATE_PAYLOAD;
             rsp_command_id := rsp_command_id r |}).
Proof.
  intros Hwf Hst Hds Hlt Hcap. pose proof (recv_size_bounds LW) as Hb.
  unfold wf_response in Hwf.
  unfold lw_feed_response. rewrite Hst. simpl. rewrite Hst, Hds.
  rewrite array_set_nat by lia. simpl.
  rewrite (u32_small (Z.of_nat k + 1)) by lia.
  rewrite (u32_small (rsp_payload_size r + 5)) by lia.
  rewrite decide_False by lia.
  replace (Z.of_nat k + 1) with (Z.of_nat (S k)) by lia. reflexivity.
Qed.

(** Payload bytes that do not yet complete the packet. *)
Lemma feed_payload bs : forall r (k : nat),
  wf_response LW r ->
  rsp_parse_state r = LW_PARSESTATE_PAYLOAD ->
  rsp_data_size r = Z.of_nat k ->
  Z.of_nat k + Z.of_nat (length bs) < rsp_payload_size r + 5 ->
  rsp_payload_size r + 5 <= LW_PACKET_RECV_SIZE LW ->
  exists buf,
    feed_all LW r bs =
      Some (repeat LW_RESULT_AGAIN (length bs),
            {| rsp_data := buf;
               rsp_data_size := Z.of_nat (k + length bs);
               rsp_payload_size := rsp_payload_size r;
               rsp_parse_state := LW_PARSESTATE_PAYLOAD;
               rsp_command_id := rsp_command_id r |}) /\
    length buf = length (rsp_data r) /\
    take (k + length bs) buf = take k (rsp_data r) ++ bs.
Proof.
  pose proof (recv_size_bounds LW) as Hb.
  induction bs as [| b bs IH]; intros r k Hwf Hst Hds Hlt Hcap.
  - exists (rsp_data r). simpl. rewrite Nat.add_0_r, app_nil_r.
    split; [| split; reflexivity].
    destruct r; simpl in *. subst. reflexivity.
  - unfold wf_response in Hwf. cbn [length] in Hlt.
    assert (Hfeed :
      lw_feed_response LW r b =
        Some (LW_RESULT_AGAIN,
              {| rsp_data := <[k := b]> (rsp_data r);
                 rsp_data_size := Z.of_nat (S k);
                 rsp_payload_size := rsp_payload_size r;
                 rsp_parse_state := LW_PARSESTATE_PAYLOAD;
                 rsp_command_id := rsp_command_id r |})).
    { apply feed_payload_step; try assumption. lia. }
    set (r1 := {| rsp_data := <[k := b]> (rsp_data r);
                  rsp_data_size := Z.of_nat (S k);
                  rsp_payload_size := rsp_payload_size r;
                  rsp_parse_state := LW_PARSESTATE_PAYLOAD;
                  rsp_command_id := rsp_command_id r |}) in *.
    assert (Hwf1 : wf_response LW r1).
    { unfold wf_response, r1. cbn [rsp_data]. rewrite length_insert. exact Hwf. }
    destruct (IH r1 (S k) Hwf1 eq_refl eq_refl
                ltac:(unfold r1; cbn [rsp_payload_size]; lia) Hcap)
      as (buf & Hall & Hlen & Htake).
    exists buf. cbn [feed_all length repeat].
    rewrite Hfeed. cbn [mbind option_bind]. rewrite Hall.
    cbn [mbind option_bind].
    unfold r1 in Hlen, Htake |- *.
    cbn [rsp_data rsp_payload_size rsp_command_id] in Hlen, Htake |- *.
    replace (k + S (length bs))%nat with (S k + length bs)%nat by lia.
    split; [reflexivity |]. split.
    + rewrite Hlen. apply length_insert.
    + rewrite Htake. rewrite take_insert_snoc by lia.
      rewrite <- app_assoc. reflexivity.
Qed.

(** The byte that completes the packet: the checksum is verified. *)
Lemma feed_last r pre c0 c1 :
  wf_response LW r ->
  rsp_parse_state r = LW_PARSESTATE_PAYLOAD ->
  rsp_data_size r = Z.of_nat (S (length pre)) ->
  Z.of_nat (length pre) + 2 = rsp_payload_size r + 5 ->
  rsp_payload_size r + 5 <= LW_PACKET_RECV_SIZE LW ->
  take (S (length pre)) (rsp_data r) = pre ++ [c0] ->
  let buf := <[S (length pre) := c1]> (rsp_data r) in
  lw_feed_response LW r c1 =
    if decide (u16 (Z.lor c0 (Z.shiftl c1 8)) = fold_left crc_update pre 0)
    then id ← buf !! 3%nat;
         Some (LW_RESULT_SUCCESS,
               {| rsp_data := buf;
                  rsp_data_size := Z.of_nat (S (S (length pre)));
                  rsp_payload_size := rsp_payload_size r;
                  rsp_parse_state := LW_PARSESTATE_DONE;
                  rsp_command_id := id |})
    else Some (LW_RESULT_AGAIN,
               {| rsp_data := buf;
                  rsp_data_size := Z.of_nat (S (S (length pre)));
                  rsp_payload_size := rsp_payload_size r;
                  rsp_parse_state := LW_PARSESTATE_START;
                  rsp_command_id := rsp_command_id r |}).
Proof.
  intros Hwf Hst Hds Hfull Hcap Htake buf.
  pose proof (recv_size_bounds LW) as Hb. unfold wf_response in Hwf.
  set (m := length pre) in *.
  assert (Hlenbuf : length buf = length (rsp_data r))
    by (unfold buf; apply length_insert).
  assert (Htakebuf : take (S m) buf = pre ++ [c0]).
  { unfold buf. rewrite take_insert_ge by lia. exact Htake. }
  assert (Hlo : buf !! m = Some c0).
  { rewrite <- (lookup_take_lt buf (S m) m) by lia. rewrite Htakebuf.
    rewrite lookup_app_r by (fold m; lia). fold m.
    rewrite Nat.sub_diag. reflexivity. }
  assert (Hhi : buf !! S m = Some c1).
  { unfold buf. apply list_lookup_insert_eq. lia. }
  assert (Hpre : take m buf = pre).
  { transitivity (take m (take (S m) buf)).
    - rewrite take_take. f_equal. lia.
    - rewrite Htakebuf. apply take_app_length. }
  unfold lw_feed_response. rewrite Hst. simpl. rewrite Hst, Hds.
  rewrite array_set_nat by lia. fold buf. cbn [mbind option_bind].
  rewrite (u32_small (Z.of_nat (S m) + 1)) by lia.
  rewrite (u32_small (rsp_payload_size r + 5)) by lia.
  rewrite decide_True by lia.
  replace (Z.of_nat (S m) + 1 - 2) with (Z.of_nat m) by lia.
  replace (Z.of_nat (S m) + 1 - 1) with (Z.of_nat (S m)) by lia.
  rewrite (u32_small (Z.of_nat m)) by lia.
  rewrite (u32_small (Z.of_nat (S m))) by lia.
  rewrite (u16_small (Z.of_nat m)) by lia.
  rewrite !array_get_nat, Hlo, Hhi. cbn [mbind option_bind].
  unfold lw_create_crc. rewrite Nat2Z.id, Hpre.
  rewrite (array_get_Z _ 3) by lia. change (Z.to_nat 3) with 3%nat.
  replace (Z.of_nat (S m) + 1) with (Z.of_nat (S (S m))) by lia.
  reflexivity.
Qed.

(** A whole frame from the [START] state: marker, flag bytes declaring
    [1 + length payload] bytes, command id, payload, two trailing bytes.
    Every byte but the last answers [AGAIN]; the last answers [SUCCESS]
    when the trailing bytes are the checksum of what precedes them, and
    [AGAIN] with the decoder back in [START] when they are not. *)
Lemma feed_frame r lo hi cmd payload c0 c1 :
  wf_response LW r -> rsp_parse_state r = LW_PARSESTATE_START ->
  declared_payload_size lo hi = 1 + Z.of_nat (length payload) ->
  1 + Z.of_nat (length payload) <= LW_PACKET_RECV_SIZE LW - 5 ->
  let pre := [LW_PACKET_START_BYTE; lo; hi; cmd] ++ payload in
  let ok := bool_decide (u16 (Z.lor c0 (Z.shiftl c1 8)) = fold_left crc_update pre 0) in
  exists buf,
    length buf = length (rsp_data r) /\
    take (length pre + 2) buf = pre ++ [c0; c1] /\
    feed_all LW r (pre ++ [c0; c1]) =
      Some (repeat LW_RESULT_AGAIN (length pre + 1)
              ++ [if ok then LW_RESULT_SUCCESS else LW_RESULT_AGAIN],
            {| rsp_data := buf;
               rsp_data_size := Z.of_nat (length pre + 2);
               rsp_payload_size := 1 + Z.of_nat (length payload);
               rsp_parse_state :=
                 if ok then LW_PARSESTATE_DONE else LW_PARSESTATE_START;
               rsp_command_id := if ok then cmd else rsp_command_id r |}).
Proof.
  intros Hwf Hst Hdecl Hcap pre ok.
  pose proof (recv_size_bounds LW) as Hb.
  assert (Hlen0 : Z.of_nat (length (rsp_data r)) = LW_PACKET_RECV_SIZE LW)
    by exact Hwf.
  set (r3 := {| rsp_data :=
                  <[2%nat := hi]> (<[1%nat := lo]>
                    (<[0%nat := LW_PACKET_START_BYTE]> (rsp_data r)));
                rsp_data_size := 3;
                rsp_payload_size := declared_payload_size lo hi;
                rsp_parse_state := LW_PARSESTATE_PAYLOAD;
                rsp_command_id := rsp_command_id r |}).
  assert (Hhead : feed_all LW r [LW_PACKET_START_BYTE; lo; hi] =
                    Some (repeat LW_RESULT_AGAIN 3, r3)).
  { rewrite feed_header by assumption. rewrite decide_False by lia.
    reflexivity. }
  assert (Hwf3 : wf_response LW r3).
  { unfold wf_response, r3. cbn [rsp_data]. rewrite !length_insert. exact Hwf. }
  destruct (feed_payload ((cmd :: payload) ++ [c0]) r3 3 Hwf3 eq_refl eq_refl)
    as (buf4 & Hmid & Hlen4 & Htake4).
  { unfold r3. cbn [rsp_payload_size]. rewrite Hdecl.
    rewrite length_app. cbn [length]. lia. }
  { unfold r3. cbn [rsp_payload_size]. lia. }
  unfold r3 in Hlen4, Htake4. cbn [rsp_data] in Hlen4, Htake4.
  rewrite header_prefix in Htake4 by lia. rewrite !length_insert in Hlen4.
  assert (Hlenpre : length pre = (4 + length payload)%nat)
    by (unfold pre; rewrite length_app; reflexivity).
  assert (Hcount : (3 + length ((cmd :: payload) ++ [c0]))%nat = S (length pre)).
  { rewrite length_app. cbn [length]. lia. }
  rewrite Hcount in Hmid, Htake4.
  set (r4 := {| rsp_data := buf4;
                rsp_data_size := Z.of_nat (S (length pre));
                rsp_payload_size := rsp_payload_size r3;
                rsp_parse_state := LW_PARSESTATE_PAYLOAD;
                rsp_command_id := rsp_command_id r3 |}) in *.
  assert (Htake4' : take (S (length pre)) (rsp_data r4) = pre ++ [c0]).
  { unfold r4. cbn [rsp_data]. rewrite Htake4. unfold pre.
    reflexivity. }
  assert (Hwf4 : wf_response LW r4).
  { unfold wf_response, r4. cbn [rsp_data]. lia. }
  assert (Hfull : Z.of_nat (length pre) + 2 = rsp_payload_size r4 + 5).
  { unfold r4, r3. cbn [rsp_payload_size]. lia. }
  assert (Hcap4 : rsp_payload_size r4 + 5 <= LW_PACKET_RECV_SIZE LW).
  { unfold r4, r3. cbn [rsp_payload_size]. lia. }
  pose proof (feed_last r4 pre c0 c1 Hwf4 eq_refl eq_refl Hfull Hcap4 Htake4')
    as Hlast.
  cbv zeta in Hlast.
  set (buf := <[S (length pre) := c1]> (rsp_data r4)) in *.
  assert (Hlenbuf : length buf = length (rsp_data r)).
  { unfold buf, r4. cbn [rsp_data]. rewrite length_insert. exact Hlen4. }
  assert (Htakebuf : take (length pre + 2) buf = pre ++ [c0; c1]).
  { replace (length pre + 2)%nat with (S (S (length pre))) by lia.
    unfold buf. rewrite take_insert_snoc by (unfold r4; cbn [rsp_data]; lia).
    rewrite Htake4'. rewrite <- app_assoc. reflexivity. }
  assert (Hid : buf !! 3%nat = Some cmd).
  { rewrite <- (lookup_take_lt buf (length pre + 2) 3) by lia.
    rewrite Htakebuf. unfold pre. reflexivity. }
  exists buf. split; [exact Hlenbuf |]. split; [exact Htakebuf |].
  replace (pre ++ [c0; c1])
    with ([LW_PACKET_START_BYTE; lo; hi] ++ ((cmd :: payload) ++ [c0]) ++ [c1])
    by (unfold pre; cbn [app]; rewrite <- app_assoc; reflexivity).
  rewrite feed_all_app, Hhead. cbn [mbind option_bind].
  rewrite feed_all_app. rewrite Hmid. cbn [mbind option_bind].
  cbn [feed_all]. rewrite Hlast. rewrite Hid.
  assert (Hres : forall res : lw_result,
    repeat LW_RESULT_AGAIN 3
      ++ repeat LW_RESULT_AGAIN (length ((cmd :: payload) ++ [c0])) ++ [res]
    = repeat LW_RESULT_AGAIN (length pre + 1) ++ [res]).
  { intros res.
    replace (length pre + 1)%nat
      with (3 + length ((cmd :: payload) ++ [c0]))%nat by lia.
    rewrite repeat_app, <- app_assoc. reflexivity. }
  replace (length pre + 2)%nat with (S (S (length pre))) by lia.
  unfold ok, r4, r3. cbn [rsp_payload_size rsp_command_id].
  rewrite Hdecl.
  destruct (decide (u16 (Z.lor c0 (Z.shiftl c1 8)) = fold_left crc_update pre 0))
    as [Hok | Hbad].
  - rewrite bool_decide_eq_true_2 by exact Hok. cbn [mbind option_bind].
    rewrite Hres. reflexivity.
  - rewrite bool_decide_eq_false_2 by exact Hbad. cbn [mbind option_bind].
    rewrite Hres. reflexivity.
Qed.

End Framing.

(** ** Packets built by [lw_create_packet] *)

(** The packet is a frame: marker, two flag bytes declaring the payload
    length, command id, payload, and the checksum of all of that, low byte
    first. *)
Lemma lw_create_packet_frame command_id write (payload : list Z) :
  1 + Z.of_nat (length payload) < 1024 ->
  exists lo hi c0 c1,
    let pre := [LW_PACKET_START_BYTE; lo; hi; command_id] ++ payload in
    lw_create_packet command_id write payload (Z.of_nat (length payload))
      = pre ++ [c0; c1] /\
    declared_payload_size lo hi = 1 + Z.of_nat (length payload) /\
    u16 (Z.lor c0 (Z.shiftl c1 8)) = fold_left crc_update pre 0 /\
    c0 = u8 (lw_create_crc pre (Z.of_nat (length pre))) /\
    c1 = u8 (Z.shiftr (lw_create_crc pre (Z.of_nat (length pre))) 8).
Proof.
  intros Hsize. set (n := Z.of_nat (length payload)) in *.
  set (flags := u16 (Z.lor (u32 (Z.shiftl (1 + n) 6)) (Z.land write 1))).
  set (pre := [LW_PACKET_START_BYTE; u8 flags; u8 (Z.shiftr flags 8); command_id]
                ++ payload).
  set (crc := fold_left crc_update pre 0).
  assert (Hcrc : 0 <= crc < 65536) by (apply crc_fold_range; lia).
  assert (Hlenpre : Z.of_nat (length pre) = 4 + n).
  { unfold pre. rewrite length_app. cbn [length]. lia. }
  assert (Hcrc' : lw_create_crc pre (Z.of_nat (length pre)) = crc).
  { unfold lw_create_crc. rewrite take_all_length. reflexivity. }
  exists (u8 flags), (u8 (Z.shiftr flags 8)), (u8 crc), (u8 (Z.shiftr crc 8)).
  cbv zeta. fold pre. rewrite Hcrc'. repeat split.
  - assert (Htk : take (Z.to_nat n) payload = payload)
      by (unfold n; rewrite Nat2Z.id; apply firstn_all).
    unfold lw_create_packet. rewrite (u32_small (1 + n)) by lia. fold flags.
    rewrite Htk. fold pre.
    rewrite (u32_small (4 + n)), (u16_small (4 + n)) by lia.
    rewrite <- Hlenpre, Hcrc'. reflexivity.
  - apply created_flags_declare. lia.
  - rewrite le_halves_combine by lia. fold crc. apply u16_small. lia.
Qed.

Lemma packet_payload_slice (buf pre payload tail : list Z) :
  length pre = 4%nat ->
  take (length (pre ++ payload) + length tail) buf = (pre ++ payload) ++ tail ->
  lw_parse_packet_data buf (Z.of_nat (length payload)) 0 = payload.
Proof.
  intros Hpre Htake. unfold lw_parse_packet_data, array_slice.
  rewrite (u32_small (4 + 0)) by lia. rewrite Nat2Z.id.
  change (Z.to_nat (4 + 0)) with 4%nat.
  rewrite length_app, Hpre in Htake.
  rewrite take_drop_commute.
  assert (Hfront : take (4 + length payload) buf = pre ++ payload).
  { transitivity (take (4 + length payload)
                       (take (4 + length payload + length tail) buf)).
    - rewrite take_take. f_equal. lia.
    - rewrite Htake. rewrite take_app_length'; [reflexivity |].
      rewrite length_app. lia. }
  rewrite Hfront. rewrite drop_app_length'; [reflexivity | lia].
Qed.

Section RoundTrip.

Variable LW : bool.

(** Decoding a created packet from a decoder that is at [START], or that
    has just completed a packet. *)
Lemma decode_created_packet r command_id write payload :
  wf_response LW r ->
  rsp_parse_state r = LW_PARSESTATE_START
    \/ rsp_parse_state r = LW_PARSESTATE_DONE ->
  1 + Z.of_nat (length payload) <= LW_PACKET_RECV_SIZE LW - 5 ->
  let packet :=
    lw_create_packet command_id write payload (Z.of_nat (length payload)) in
  exists r',
    feed_all LW r packet =
      Some (repeat LW_RESULT_AGAIN (length packet - 1) ++ [LW_RESULT_SUCCESS], r')
    /\ length packet = (6 + length payload)%nat
    /\ rsp_parse_state r' = LW_PARSESTATE_DONE
    /\ rsp_command_id r' = command_id
    /\ rsp_data_size r' = Z.of_nat (length packet)
    /\ rsp_payload_size r' = 1 + Z.of_nat (length payload)
    /\ take (length packet) (rsp_data r') = packet
    /\ wf_response LW r'
    /\ lw_parse_packet_data (rsp_data r') (Z.of_nat (length payload)) 0 = payload.
Proof.
  intros Hwf Hst Hsize packet. pose proof (recv_size_bounds LW) as Hb.
  destruct (lw_create_packet_frame command_id write payload ltac:(lia))
    as (lo & hi & c0 & c1 & Hpkt & Hdecl & Hcrc & _ & _).
  cbv zeta in Hpkt, Hcrc. fold packet in Hpkt.
  set (pre := [LW_PACKET_START_BYTE; lo; hi; command_id] ++ payload) in *.
  assert (Hlenpre : length pre = (4 + length payload)%nat)
    by (unfold pre; rewrite length_app; reflexivity).
  assert (Hlenpkt : length packet = (6 + length payload)%nat).
  { rewrite Hpkt, length_app, Hlenpre. cbn [length]. lia. }
  assert (Hstart : forall r1, wf_response LW r1 ->
            rsp_parse_state r1 = LW_PARSESTATE_START ->
            length (rsp_data r1) = length (rsp_data r) ->
            exists r',
              feed_all LW r1 packet =
                Some (repeat LW_RESULT_AGAIN (length packet - 1)
                        ++ [LW_RESULT_SUCCESS], r')
              /\ rsp_parse_state r' = LW_PARSESTATE_DONE
              /\ rsp_command_id r' = command_id
              /\ rsp_data_size r' = Z.of_nat (length packet)
              /\ rsp_payload_size r' = 1 + Z.of_nat (length payload)
              /\ take (length packet) (rsp_data r') = packet
              /\ wf_response LW r').
  { intros r1 Hwf1 Hst1 Hlen1.
    destruct (feed_frame LW r1 lo hi command_id payload c0 c1 Hwf1 Hst1 Hdecl Hsize)
      as (buf & Hlenbuf & Htake & Hfeed).
    fold pre in Htake, Hfeed.
    rewrite bool_decide_eq_true_2 in Hfeed by exact Hcrc.
    rewrite <- Hpkt in Htake, Hfeed.
    replace (length pre + 1)%nat with (length packet - 1)%nat in Hfeed by lia.
    replace (length pre + 2)%nat with (length packet) in Htake, Hfeed by lia.
    eexists. split; [exact Hfeed |]. cbn [rsp_parse_state rsp_command_id
      rsp_data_size rsp_payload_size rsp_data].
    repeat split; try reflexivity; try assumption.
    unfold wf_response. cbn [rsp_data]. rewrite Hlenbuf. exact Hwf1. }
  assert (Hex : exists r',
            feed_all LW r packet =
              Some (repeat LW_RESULT_AGAIN (length packet - 1)
                      ++ [LW_RESULT_SUCCESS], r')
            /\ rsp_parse_state r' = LW_PARSESTATE_DONE
            /\ rsp_command_id r' = command_id
            /\ rsp_data_size r' = Z.of_nat (length packet)
            /\ rsp_payload_size r' = 1 + Z.of_nat (length payload)
            /\ take (length packet) (rsp_data r') = packet
            /\ wf_response LW r').
  { destruct Hst as [Hst | Hst].
    - apply Hstart; [assumption | assumption | reflexivity].
    - destruct (Hstart (lw_init_response r) Hwf eq_refl eq_refl) as (r' & Hfeed & Hrest).
      exists r'. split; [| exact Hrest].
      rewrite <- Hfeed. rewrite Hpkt. unfold pre. cbn [app feed_all].
      rewrite feed_done_reinit by exact Hst. reflexivity. }
  destruct Hex as (r' & Hfeed & Hdone & Hid & Hds & Hps & Htake & Hwf').
  exists r'. repeat split; try assumption.
  apply (packet_payload_slice _ [LW_PACKET_START_BYTE; lo; hi; command_id]
           payload [c0; c1]); [reflexivity |].
  fold pre. rewrite <- Hpkt.
  replace (length pre + length [c0; c1])%nat with (length packet)
    by (cbn [length]; lia).
  exact Htake.
Qed.

End RoundTrip.

(** ** The claims about packets and the decoder *)

Lemma zero_response_wf LW : wf_response LW (zero_response LW).
Proof.
  unfold wf_response, zero_response. cbn [rsp_data].
  rewrite repeat_length. destruct LW; reflexivity.
Qed.

(** C2 (as amended): command id 5, write flag 0 and no payload give the six
    bytes [AA 40 00 05 D5 CF], whose last two are the checksum [0xCFD5] that
    [lw_create_crc] computes over the first four, low byte first; fed one at
    a time to an initialised response they answer [AGAIN] five times and
    [SUCCESS] on the sixth byte, with command id 5 and no payload data. *)
Theorem C2_read_packet_decodes (LW : bool) (r0 : lw_response) :
  wf_response LW r0 ->
  lw_create_packet 5 0 [] 0 = [0xAA; 0x40; 0x00; 0x05; 0xD5; 0xCF] /\
  lw_create_crc [0xAA; 0x40; 0x00; 0x05] 4 = 0xCFD5 /\
  exists r',
    feed_all LW (lw_init_response r0) [0xAA; 0x40; 0x00; 0x05; 0xD5; 0xCF] =
      Some ([LW_RESULT_AGAIN; LW_RESULT_AGAIN; LW_RESULT_AGAIN;
             LW_RESULT_AGAIN; LW_RESULT_AGAIN; LW_RESULT_SUCCESS], r') /\
    rsp_parse_state r' = LW_PARSESTATE_DONE /\
    rsp_command_id r' = 5 /\
    rsp_payload_size r' = 1 /\
    lw_parse_packet_data (rsp_data r') 0 0 = [].
Proof.
  intros Hwf.
  assert (Hp : lw_create_packet 5 0 [] 0 = [0xAA; 0x40; 0x00; 0x05; 0xD5; 0xCF])
    by (vm_compute; reflexivity).
  split; [exact Hp |]. split; [vm_compute; reflexivity |].
  pose proof (recv_size_bounds LW) as Hb.
  destruct (decode_created_packet LW (lw_init_response r0) 5 0 [] Hwf
              (or_introl eq_refl) ltac:(cbn [length]; lia))
    as (r' & Hfeed & _ & Hdone & Hid & _ & Hps & _ & _ & Hdata).
  cbn [length] in Hfeed, Hps, Hdata. change (Z.of_nat 0) with 0 in *.
  rewrite Hp in Hfeed. exists r'. repeat split; assumption.
Qed.

Lemma C2_read_packet_decodes_witness :
  exists r',
    feed_all false (lw_init_response (zero_response false))
             [0xAA; 0x40; 0x00; 0x05; 0xD5; 0xCF] =
      Some ([LW_RESULT_AGAIN; LW_RESULT_AGAIN; LW_RESULT_AGAIN;
             LW_RESULT_AGAIN; LW_RESULT_AGAIN; LW_RESULT_SUCCESS], r') /\
    rsp_parse_state r' = LW_PARSESTATE_DONE /\
    rsp_command_id r' = 5 /\
    rsp_payload_size r' = 1 /\
    lw_parse_packet_data (rsp_data r') 0 0 = [].
Proof.
  apply (C2_read_packet_decodes false (zero_response false)).
  vm_compute. reflexivity.
Defined.

(** C2 (as stated) fails: the two trailing bytes of the packet are not the
    little-endian halves of the checksum that the wording of section 4.1
    gives for [AA 40 00 05] (that one is [0xD74C]). *)
Lemma C2_counterexample :
  spec_checksum [0xAA; 0x40; 0x00; 0x05] = 0xD74C /\
  lw_create_packet 5 0 [] 0 <>
    [0xAA; 0x40; 0x00; 0x05;
     u8 (spec_checksum [0xAA; 0x40; 0x00; 0x05]);
     u8 (Z.shiftr (spec_checksum [0xAA; 0x40; 0x00; 0x05]) 8)].
Proof. vm_compute. split; [reflexivity | discriminate]. Qed.

(** C3: round trip.  For every command id, write flag and payload with
    [length payload + 1] in [[1, LW_PACKET_RECV_SIZE - 5]], the bytes of
    [lw_create_packet], fed one at a time to an initialised response, answer
    [AGAIN] on every byte but the last and [SUCCESS] on the last; afterwards
    [command_id] is the input command id and [lw_parse_packet_data] returns
    the input payload. *)
Theorem C3_round_trip (LW : bool) (r0 : lw_response)
    (command_id write : Z) (payload : list Z) :
  wf_response LW r0 ->
  1 <= Z.of_nat (length payload) + 1 <= LW_PACKET_RECV_SIZE LW - 5 ->
  let packet :=
    lw_create_packet command_id write payload (Z.of_nat (length payload)) in
  exists r',
    feed_all LW (lw_init_response r0) packet =
      Some (repeat LW_RESULT_AGAIN (length packet - 1) ++ [LW_RESULT_SUCCESS], r') /\
    length packet = (6 + length payload)%nat /\
    rsp_parse_state r' = LW_PARSESTATE_DONE /\
    rsp_command_id r' = command_id /\
    lw_parse_packet_data (rsp_data r') (Z.of_nat (length payload)) 0 = payload.
Proof.
  intros Hwf Hsize packet.
  destruct (decode_created_packet LW (lw_init_response r0) command_id write
              payload Hwf (or_introl eq_refl) ltac:(lia))
    as (r' & Hfeed & Hlen & Hdone & Hid & _ & _ & _ & _ & Hdata).
  exists r'. repeat split; assumption.
Qed.

Lemma C3_round_trip_witness :
  exists r',
    feed_all true (lw_init_response (zero_response true))
             (lw_create_packet 44 1 [7; 0; 170; 255] 4) =
      Some (repeat LW_RESULT_AGAIN 9 ++ [LW_RESULT_SUCCESS], r') /\
    length (lw_create_packet 44 1 [7; 0; 170; 255] 4) = 10%nat /\
    rsp_parse_state r' = LW_PARSESTATE_DONE /\
    rsp_command_id r' = 44 /\
    lw_parse_packet_data (rsp_data r') 4 0 = [7; 0; 170; 255].
Proof.
  apply (C3_round_trip true (zero_response true) 44 1 [7; 0; 170; 255]).
  - vm_compute. reflexivity.
  - vm_compute. split; discriminate.
Defined.

(** C5: the decoder never reports an error.  Whatever the state, a call
    answers [SUCCESS] or [AGAIN] only; from every state reachable from
    [lw_init_response] it does answer (no access leaves the buffer), so the
    [LW_PARSESTATE_DONE] branch with its [LW_RESULT_ERROR] is never taken;
    and a structurally complete frame whose two trailing bytes are not the
    checksum of the bytes before them answers [AGAIN] on every byte and
    leaves the decoder in [START]. *)
Theorem C5_decoder_never_errors (LW : bool) :
  (forall r b res r',
     lw_feed_response LW r b = Some (res, r') ->
     res = LW_RESULT_SUCCESS \/ res = LW_RESULT_AGAIN) /\
  (forall r, reachable LW r -> forall b,
     exists res r', lw_feed_response LW r b = Some (res, r') /\
                    (res = LW_RESULT_SUCCESS \/ res = LW_RESULT_AGAIN)) /\
  (forall r0 lo hi cmd payload c0 c1,
     wf_response LW r0 ->
     declared_payload_size lo hi = 1 + Z.of_nat (length payload) ->
     1 + Z.of_nat (length payload) <= LW_PACKET_RECV_SIZE LW - 5 ->
     let pre := [LW_PACKET_START_BYTE; lo; hi; cmd] ++ payload in
     u16 (Z.lor c0 (Z.shiftl c1 8)) <> lw_create_crc pre (Z.of_nat (length pre)) ->
     exists r',
       feed_all LW (lw_init_response r0) (pre ++ [c0; c1]) =
         Some (repeat LW_RESULT_AGAIN (length pre + 2), r') /\
       rsp_parse_state r' = LW_PARSESTATE_START).
Proof.
  split; [| split].
  - intros r b res r'. apply feed_results_any.
  - intros r Hr b.
    destruct (feed_inv LW r b (reachable_inv LW r Hr)) as (res & r' & Hfeed & _).
    exists res, r'. split; [exact Hfeed |].
    apply (feed_results_any LW r b res r' Hfeed).
  - intros r0 lo hi cmd payload c0 c1 Hwf Hdecl Hsize pre Hbad.
    destruct (feed_frame LW (lw_init_response r0) lo hi cmd payload c0 c1
                Hwf eq_refl Hdecl Hsize) as (buf & _ & _ & Hfeed).
    fold pre in Hfeed.
    unfold lw_create_crc in Hbad. rewrite take_all_length in Hbad.
    rewrite bool_decide_eq_false_2 in Hfeed by exact Hbad.
    match type of Hfeed with _ = Some (_, ?rr) => exists rr end.
    split; [| reflexivity]. rewrite Hfeed. do 2 f_equal.
    replace (length pre + 2)%nat with (length pre + 1 + 1)%nat by lia.
    rewrite (repeat_app _ (length pre + 1) 1). reflexivity.
Qed.

Lemma C5_decoder_never_errors_witness :
  exists r',
    feed_all false (lw_init_response (zero_response false))
             ([LW_PACKET_START_BYTE; 0x40; 0x00; 0x05] ++ [] ++ [0xD5; 0xCE]) =
      Some (repeat LW_RESULT_AGAIN 6, r') /\
    rsp_parse_state r' = LW_PARSESTATE_START.
Proof.
  destruct (C5_decoder_never_errors false) as (_ & _ & Hbad).
  apply (Hbad (zero_response false) 0x40 0x00 0x05 [] 0xD5 0xCE).
  - vm_compute. reflexivity.
  - vm_compute. reflexivity.
  - vm_compute. discriminate.
  - vm_compute. discriminate.
Defined.

(** C6: resuming after a completed packet.  In state [DONE] a call behaves
    as the same call on the re-initialised response, which is the [START]
    rule applied to the incoming byte; hence the bytes of a valid packet fed
    right after a completion, with no reset in between, answer [AGAIN] on
    every byte but the last and [SUCCESS] once, on the last, and deliver
    that packet's command id and payload. *)
Theorem C6_resume_after_done (LW : bool) (r : lw_response) :
  wf_response LW r ->
  rsp_parse_state r = LW_PARSESTATE_DONE ->
  (forall b,
     lw_feed_response LW r b = lw_feed_response LW (lw_init_response r) b /\
     lw_feed_response LW r b =
       Some (LW_RESULT_AGAIN,
             if decide (b = LW_PACKET_START_BYTE)
             then {| rsp_data := <[0%nat := LW_PACKET_START_BYTE]> (rsp_data r);
                     rsp_data_size := 0;
                     rsp_payload_size := 0;
                     rsp_parse_state := LW_PARSESTATE_FLAGS1;
                     rsp_command_id := UINT8_MAX |}
             else lw_init_response r)) /\
  (forall command_id write payload,
     1 <= Z.of_nat (length payload) + 1 <= LW_PACKET_RECV_SIZE LW - 5 ->
     let packet :=
       lw_create_packet command_id write payload (Z.of_nat (length payload)) in
     exists r',
       feed_all LW r packet =
         Some (repeat LW_RESULT_AGAIN (length packet - 1) ++ [LW_RESULT_SUCCESS], r') /\
       rsp_parse_state r' = LW_PARSESTATE_DONE /\
       rsp_command_id r' = command_id /\
       lw_parse_packet_data (rsp_data r') (Z.of_nat (length payload)) 0 = payload).
Proof.
  intros Hwf Hdone. split.
  - intros b. split; [apply feed_done_reinit; exact Hdone |].
    rewrite feed_done_reinit by exact Hdone.
    rewrite feed_start_step by (try reflexivity; exact Hwf). reflexivity.
  - intros command_id write payload Hsize packet.
    destruct (decode_created_packet LW r command_id write payload Hwf
                (or_intror Hdone) ltac:(lia))
      as (r' & Hfeed & _ & Hst & Hid & _ & _ & _ & _ & Hdata).
    exists r'. repeat split; assumption.
Qed.

(** C10: buffer bounds.  In every decoder state reachable from
    [lw_init_response], the buffer has [LW_PACKET_RECV_SIZE] bytes; in the
    payload state [data_size < payload_size + 5 <= LW_PACKET_RECV_SIZE]; the
    store a call performs has its index below [LW_PACKET_RECV_SIZE]; and the
    call completes with every array access inside the buffer. *)
Theorem C10_buffer_bounds (LW : bool) (r : lw_response) :
  reachable LW r ->
  Z.of_nat (length (rsp_data r)) = LW_PACKET_RECV_SIZE LW /\
  (rsp_parse_state r = LW_PARSESTATE_PAYLOAD ->
   rsp_data_size r < rsp_payload_size r + 5 /\
   rsp_payload_size r + 5 <= LW_PACKET_RECV_SIZE LW) /\
  (forall b i, feed_write_index r b = Some i -> 0 <= i < LW_PACKET_RECV_SIZE LW) /\
  (forall b, exists res r', lw_feed_response LW r b = Some (res, r')).
Proof.
  intros Hr. pose proof (reachable_inv LW r Hr) as [Hwf Hpay].
  pose proof (recv_size_bounds LW) as Hb.
  split; [exact Hwf |]. split; [intros Hst; specialize (Hpay Hst); lia |]. split.
  - intros b i. unfold feed_write_index.
    destruct (rsp_parse_state r) eqn:Hst; simpl; try rewrite Hst;
      repeat case_decide; intros Hi; inversion Hi; subst; try lia.
    specialize (Hpay eq_refl). lia.
  - intros b. destruct (feed_inv LW r b (conj Hwf Hpay)) as (res & r' & Hfeed & _).
    eauto.
Qed.

(** ** Decoders that have made the same progress stay together *)

Section Simulation.

Variable LW : bool.

Lemma same_progress_start r1 r2 :
  rsp_parse_state r1 = LW_PARSESTATE_START ->
  rsp_parse_state r2 = LW_PARSESTATE_START ->
  same_progress r1 r2.
Proof. intros H1 H2. unfold same_progress. rewrite H1, H2. auto. Qed.

Lemma feed_start_same r1 r2 b res1 res2 r1' r2' :
  wf_response LW r1 -> wf_response LW r2 ->
  rsp_parse_state r1 = LW_PARSESTATE_START ->
  rsp_parse_state r2 = LW_PARSESTATE_START ->
  lw_feed_response LW r1 b = Some (res1, r1') ->
  lw_feed_response LW r2 b = Some (res2, r2') ->
  res1 = res2 /\ same_progress r1' r2'.
Proof.
  intros Hwf1 Hwf2 Hst1 Hst2 Hf1 Hf2. pose proof (recv_size_bounds LW) as Hb.
  rewrite feed_start_step in Hf1, Hf2 by assumption.
  inversion Hf1; inversion Hf2; subst. split; [reflexivity |].
  unfold wf_response in Hwf1, Hwf2.
  destruct (decide (b = LW_PACKET_START_BYTE)).
  - split; cbn [rsp_parse_state rsp_data]; [reflexivity |].
    rewrite !(take_insert_snoc _ 0) by lia. reflexivity.
  - apply same_progress_start; assumption.
Qed.

Lemma same_progress_feed r1 r2 b :
  decoder_inv LW r1 -> decoder_inv LW r2 -> same_progress r1 r2 ->
  exists res r1' r2',
    lw_feed_response LW r1 b = Some (res, r1') /\
    lw_feed_response LW r2 b = Some (res, r2') /\
    same_progress r1' r2' /\ decoder_inv LW r1' /\ decoder_inv LW r2'.
Proof.
  intros Hi1 Hi2 Hs. pose proof (recv_size_bounds LW) as Hb.
  destruct (feed_inv LW r1 b Hi1) as (res1 & r1' & Hf1 & Hi1').
  destruct (feed_inv LW r2 b Hi2) as (res2 & r2' & Hf2 & Hi2').
  enough (res1 = res2 /\ same_progress r1' r2') as [-> Hs']
    by (exists res2, r1', r2'; auto).
  destruct Hs as [Hst Hm]. destruct Hi1 as [Hwf1 Hp1], Hi2 as [Hwf2 Hp2].
  assert (Hl1 : Z.of_nat (length (rsp_data r1)) = LW_PACKET_RECV_SIZE LW)
    by exact Hwf1.
  assert (Hl2 : Z.of_nat (length (rsp_data r2)) = LW_PACKET_RECV_SIZE LW)
    by exact Hwf2.
  destruct (rsp_parse_state r1) eqn:Hst1; symmetry in Hst.
  - apply (feed_start_same r1 r2 b); assumption.
  - rewrite feed_flags1_step in Hf1, Hf2 by assumption.
    inversion Hf1; inversion Hf2; subst. split; [reflexivity |].
    split; cbn [rsp_parse_state rsp_data]; [reflexivity |].
    rewrite !(take_insert_snoc _ 1) by lia. rewrite Hm. reflexivity.
  - destruct (lookup_lt_is_Some_2 (rsp_data r1) 1 ltac:(lia)) as [lo Hlo1].
    assert (Hlo2 : rsp_data r2 !! 1%nat = Some lo).
    { rewrite <- (lookup_take_lt _ 2 1) by lia. rewrite <- Hm.
      rewrite lookup_take_lt by lia. exact Hlo1. }
    rewrite (feed_flags2_step LW r1 b lo) in Hf1 by assumption.
    rewrite (feed_flags2_step LW r2 b lo) in Hf2 by assumption.
    inversion Hf1; inversion Hf2; subst. split; [reflexivity |].
    split; cbn [rsp_parse_state rsp_data rsp_data_size rsp_payload_size];
      [reflexivity |].
    case_decide; [exact I |]. change (Z.to_nat 3) with 3%nat.
    rewrite !(take_insert_snoc _ 2) by lia. rewrite Hm. auto.
  - destruct (Hp1 eq_refl) as [Hds1 Hcap1]. destruct (Hp2 Hst) as [Hds2 Hcap2].
    destruct Hm as (Hds & Hps & Htake).
    set (k := Z.to_nat (rsp_data_size r1)) in *.
    assert (Hk1 : rsp_data_size r1 = Z.of_nat k) by (unfold k; lia).
    assert (Hk2 : rsp_data_size r2 = Z.of_nat k) by lia.
    replace (Z.to_nat (rsp_data_size r2)) with k in Htake by lia.
    destruct (Z.eq_dec (Z.of_nat k + 1) (rsp_payload_size r1 + 5)) as [Hfull | Hpart].
    + destruct k as [| m]; [lia |].
      destruct (lookup_lt_is_Some_2 (rsp_data r1) m ltac:(lia)) as [c0 Hc1].
      assert (Hc2 : rsp_data r2 !! m = Some c0).
      { rewrite <- (lookup_take_lt _ (S m) m) by lia. rewrite <- Htake.
        rewrite lookup_take_lt by lia. exact Hc1. }
      assert (Hpre : take m (rsp_data r1) = take m (rsp_data r2)).
      { transitivity (take m (take (S m) (rsp_data r1))).
        - rewrite take_take. f_equal. lia.
        - rewrite Htake. rewrite take_take. f_equal. lia. }
      remember (take m (rsp_data r1)) as pre eqn:Epre.
      assert (Hlenpre : length pre = m)
        by (rewrite Epre; apply length_take_le; lia).
      pose proof (feed_last LW r1 pre c0 b Hwf1 Hst1) as Hlast1.
      pose proof (feed_last LW r2 pre c0 b Hwf2 Hst) as Hlast2.
      rewrite Hlenpre in Hlast1, Hlast2.
      specialize (Hlast1 Hk1 ltac:(lia) ltac:(lia)
                    ltac:(rewrite Epre; apply take_S_r; exact Hc1)).
      specialize (Hlast2 Hk2 ltac:(lia) ltac:(lia)
                    ltac:(rewrite Hpre; apply take_S_r; exact Hc2)).
      cbv zeta in Hlast1, Hlast2.
      destruct (lookup_lt_is_Some_2 (rsp_data r1) 3 ltac:(lia)) as [id Hid1].
      assert (Hid2 : rsp_data r2 !! 3%nat = Some id).
      { rewrite <- (lookup_take_lt _ (S m) 3) by lia. rewrite <- Htake.
        rewrite lookup_take_lt by lia. exact Hid1. }
      rewrite list_lookup_insert_ne, Hid1 in Hlast1 by lia.
      rewrite list_lookup_insert_ne, Hid2 in Hlast2 by lia.
      rewrite Hlast1 in Hf1. rewrite Hlast2 in Hf2.
      assert (Hnext : take (S (S m)) (<[S m := b]> (rsp_data r1))
                      = take (S (S m)) (<[S m := b]> (rsp_data r2))).
      { rewrite !take_insert_snoc by lia. rewrite Htake. reflexivity. }
      case_decide; cbn [mbind option_bind] in Hf1, Hf2;
        inversion Hf1; inversion Hf2; subst.
      * split; [reflexivity |].
        split; cbn [rsp_parse_state rsp_data rsp_data_size rsp_payload_size
                    rsp_command_id]; [reflexivity |].
        rewrite Nat2Z.id. auto.
      * split; [reflexivity |]. apply same_progress_start; reflexivity.
    + rewrite (feed_payload_step LW r1 b k) in Hf1 by (try assumption; lia).
      rewrite (feed_payload_step LW r2 b k) in Hf2 by (try assumption; lia).
      inversion Hf1; inversion Hf2; subst. split; [reflexivity |].
      split; cbn [rsp_parse_state rsp_data rsp_data_size rsp_payload_size];
        [reflexivity |].
      rewrite Nat2Z.id. rewrite !take_insert_snoc by lia.
      rewrite Htake. auto.
  - rewrite feed_done_reinit in Hf1, Hf2 by assumption.
    apply (feed_start_same (lw_init_response r1) (lw_init_response r2) b);
      try assumption; reflexivity.
Qed.

Lemma same_progress_feed_all bytes : forall r1 r2,
  decoder_inv LW r1 -> decoder_inv LW r2 -> same_progress r1 r2 ->
  exists results f1 f2,
    feed_all LW r1 bytes = Some (results, f1) /\
    feed_all LW r2 bytes = Some (results, f2) /\
    same_progress f1 f2.
Proof.
  induction bytes as [| b bytes IH]; intros r1 r2 Hi1 Hi2 Hs.
  - exists [], r1, r2. auto.
  - destruct (same_progress_feed r1 r2 b Hi1 Hi2 Hs)
      as (res & r1' & r2' & Hf1 & Hf2 & Hs' & Hi1' & Hi2').
    destruct (IH r1' r2' Hi1' Hi2' Hs') as (results & f1 & f2 & Ha1 & Ha2 & Hsf).
    exists (res :: results), f1, f2. cbn [feed_all].
    rewrite Hf1, Hf2. cbn [mbind option_bind]. rewrite Ha1, Ha2. auto.
Qed.

End Simulation.

Lemma reachable_feed_all LW bytes : forall r results r',
  reachable LW r -> feed_all LW r bytes = Some (results, r') -> reachable LW r'.
Proof.
  induction bytes as [| b bytes IH]; intros r results r' Hr Hall.
  - cbn [feed_all] in Hall. inversion Hall; subst. exact Hr.
  - cbn [feed_all] in Hall.
    destruct (lw_feed_response LW r b) as [[res r1] |] eqn:Hfeed;
      cbn [mbind option_bind] in Hall; [| discriminate].
    destruct (feed_all LW r1 bytes) as [[results1 r2] |] eqn:Hrest;
      cbn [mbind option_bind] in Hall; [| discriminate].
    inversion Hall; subst.
    apply (IH r1 results1 r' (reachable_feed LW r r1 b res Hr Hfeed) Hrest).
Qed.

Lemma decoder_after_reachable LW bytes : reachable LW (decoder_after LW bytes).
Proof.
  unfold decoder_after.
  destruct (feed_all LW (lw_init_response (zero_response LW)) bytes)
    as [[results r] |] eqn:Hall.
  - apply (reachable_feed_all LW bytes (lw_init_response (zero_response LW))
             results r); [| exact Hall].
    apply reachable_init, zero_response_wf.
  - apply reachable_init, zero_response_wf.
Qed.

Lemma C6_resume_after_done_witness :
  exists r',
    feed_all false (decoder_after false [0xAA; 0x40; 0x00; 0x05; 0xD5; 0xCF])
             (lw_create_packet 44 1 [9; 8] 2) =
      Some (repeat LW_RESULT_AGAIN 7 ++ [LW_RESULT_SUCCESS], r') /\
    rsp_parse_state r' = LW_PARSESTATE_DONE /\
    rsp_command_id r' = 44 /\
    lw_parse_packet_data (rsp_data r') 2 0 = [9; 8].
Proof.
  assert (Hwf : wf_response false
                  (decoder_after false [0xAA; 0x40; 0x00; 0x05; 0xD5; 0xCF]))
    by (vm_compute; reflexivity).
  assert (Hdone : rsp_parse_state
                    (decoder_after false [0xAA; 0x40; 0x00; 0x05; 0xD5; 0xCF])
                  = LW_PARSESTATE_DONE)
    by (vm_compute; reflexivity).
  destruct (C6_resume_after_done false _ Hwf Hdone) as [_ Hsecond].
  apply (Hsecond 44 1 [9; 8]). vm_compute. split; discriminate.
Defined.

Lemma C10_buffer_bounds_witness :
  let r := decoder_after false [0xAA; 0x40; 0x00; 0x05] in
  Z.of_nat (length (rsp_data r)) = LW_PACKET_RECV_SIZE false /\
  (rsp_parse_state r = LW_PARSESTATE_PAYLOAD ->
   rsp_data_size r < rsp_payload_size r + 5 /\
   rsp_payload_size r + 5 <= LW_PACKET_RECV_SIZE false) /\
  (forall b i, feed_write_index r b = Some i -> 0 <= i < LW_PACKET_RECV_SIZE false) /\
  (forall b, exists res r', lw_feed_response false r b = Some (res, r')).
Proof.
  apply (C10_buffer_bounds false (decoder_after false [0xAA; 0x40; 0x00; 0x05])).
  apply decoder_after_reachable.
Defined.

(** C7: the length check on the high flags byte.  In state [FLAGS2], with
    the low flags byte [lo] stored at index 1, feeding the high byte [hi]
    sets the declared payload length to [(lo | (hi << 8)) >> 6]; when that
    is outside [[1, LW_PACKET_RECV_SIZE - 5]] the decoder is back at [START]
    and from there on answers every byte sequence exactly as a freshly
    initialised decoder does, making the same progress; when it is inside,
    the decoder is in the payload state with three bytes stored. *)
Theorem C7_flags2_length_check (LW : bool) (r : lw_response) (lo hi : Z) :
  wf_response LW r ->
  rsp_parse_state r = LW_PARSESTATE_FLAGS2 ->
  rsp_data r !! 1%nat = Some lo ->
  is_byte lo -> is_byte hi ->
  let n := Z.shiftr (Z.lor lo (Z.shiftl hi 8)) 6 in
  exists r',
    lw_feed_response LW r hi = Some (LW_RESULT_AGAIN, r') /\
    rsp_payload_size r' = n /\
    (n < 1 \/ n > LW_PACKET_RECV_SIZE LW - 5 ->
     rsp_parse_state r' = LW_PARSESTATE_START /\
     forall r0 bytes, wf_response LW r0 ->
       exists results f1 f2,
         feed_all LW r' bytes = Some (results, f1) /\
         feed_all LW (lw_init_response r0) bytes = Some (results, f2) /\
         same_progress f1 f2) /\
    (1 <= n <= LW_PACKET_RECV_SIZE LW - 5 ->
     rsp_parse_state r' = LW_PARSESTATE_PAYLOAD /\
     rsp_data_size r' = 3 /\
     rsp_data r' !! 1%nat = Some lo /\
     rsp_data r' !! 2%nat = Some hi).
Proof.
  intros Hwf Hst Hlo Hblo Hbhi n. pose proof (recv_size_bounds LW) as Hb.
  unfold is_byte in Hblo, Hbhi.
  assert (Hn : declared_payload_size lo hi = n).
  { unfold declared_payload_size, n. f_equal. apply u32_small.
    assert (0 <= Z.shiftl hi 8 < 2 ^ 16).
    { pose proof (shiftl_bound hi 8 8) as H. simpl in H |- *. lia. }
    pose proof (lor_bound 16 lo (Z.shiftl hi 8)) as H'. simpl in *. lia. }
  rewrite (feed_flags2_step LW r hi lo Hwf Hst Hlo). rewrite Hn.
  eexists. split; [reflexivity |].
  cbn [rsp_payload_size rsp_parse_state rsp_data_size rsp_data].
  assert (Hlen : Z.of_nat (length (rsp_data r)) = LW_PACKET_RECV_SIZE LW)
    by exact Hwf.
  split; [reflexivity |]. split.
  - intros Hout. rewrite decide_True by lia. split; [reflexivity |].
    intros r0 bytes Hwf0. apply same_progress_feed_all.
    + split; [| cbn [rsp_parse_state]; discriminate].
      unfold wf_response. cbn [rsp_data]. rewrite length_insert. exact Hwf.
    + apply decoder_inv_init. exact Hwf0.
    + apply same_progress_start; reflexivity.
  - intros Hin. rewrite decide_False by lia.
    split; [reflexivity |]. split; [reflexivity |]. split.
    + rewrite list_lookup_insert_ne by lia. exact Hlo.
    + apply list_lookup_insert_eq. lia.
Qed.

Lemma C7_flags2_length_check_witness :
  let r := decoder_after true [0xAA; 0xC0] in
  let n := Z.shiftr (Z.lor 0xC0 (Z.shiftl 0xFF 8)) 6 in
  exists r',
    lw_feed_response true r 0xFF = Some (LW_RESULT_AGAIN, r') /\
    rsp_payload_size r' = n /\
    (n < 1 \/ n > LW_PACKET_RECV_SIZE true - 5 ->
     rsp_parse_state r' = LW_PARSESTATE_START /\
     forall r0 bytes, wf_response true r0 ->
       exists results f1 f2,
         feed_all true r' bytes = Some (results, f1) /\
         feed_all true (lw_init_response r0) bytes = Some (results, f2) /\
         same_progress f1 f2) /\
    (1 <= n <= LW_PACKET_RECV_SIZE true - 5 ->
     rsp_parse_state r' = LW_PARSESTATE_PAYLOAD /\
     rsp_data_size r' = 3 /\
     rsp_data r' !! 1%nat = Some 0xC0 /\
     rsp_data r' !! 2%nat = Some 0xFF).
Proof.
  apply (C7_flags2_length_check true (decoder_after true [0xAA; 0xC0]) 0xC0 0xFF).
  - vm_compute. reflexivity.
  - vm_compute. reflexivity.
  - vm_compute. reflexivity.
  - unfold is_byte. lia.
  - unfold is_byte. lia.
Defined.

(** ** The managed request/response loop *)

Lemma feed_success_done LW r b r' :
  lw_feed_response LW r b = Some (LW_RESULT_SUCCESS, r') ->
  rsp_parse_state r' = LW_PARSESTATE_DONE.
Proof.
  unfold lw_feed_response. intros H.
  destruct (decide (rsp_parse_state r = LW_PARSESTATE_DONE)) as [Hd | Hd].
  - simpl in H. repeat case_match; simplify_option_eq; auto.
  - destruct (rsp_parse_state r) eqn:Hst; try congruence;
      repeat case_match; simplify_option_eq; auto.
Qed.

Lemma count_sends_app l1 l2 :
  count_sends (l1 ++ l2) = (count_sends l1 + count_sends l2)%nat.
Proof. unfold count_sends. rewrite filter_app, length_app. reflexivity. Qed.

Section ManagedFacts.

Context {U : Type}.
Variable LW : bool.

Implicit Types d : lw_callback_device U.

(** The loop body, case by case. *)
Lemma wait_iteration_eq d command_id timeout_ms timeout_time tl d1 br byte d2 :
  time_left d timeout_ms timeout_time = (tl, d1) ->
  call_serial_receive d1 1 tl = (br, byte, d2) ->
  wait_iteration LW d command_id timeout_ms timeout_time =
    if decide (br = -1) then Some (Some LW_RESULT_ERROR, d2)
    else if decide (br > 0) then
      '(res, r) ← lw_feed_response LW (response d2) byte;
      if decide (res = LW_RESULT_SUCCESS) then
        if decide (command_id = LW_ANY_COMMAND \/ rsp_command_id r = command_id)
        then Some (Some LW_RESULT_SUCCESS, set_response d2 r)
        else Some (None, set_response d2 r)
      else Some (None, set_response d2 r)
    else if decide (timeout_ms = 0) then Some (Some LW_RESULT_AGAIN, d2)
    else if decide (tl = 0) then Some (Some LW_RESULT_TIMEOUT, d2)
    else Some (None, d2).
Proof.
  intros Htl Hrecv. unfold wait_iteration. rewrite Htl, Hrecv. reflexivity.
Qed.

(** What a pass can return, and what it leaves untouched. *)
Lemma wait_iteration_result d command_id timeout_ms timeout_time res d' :
  wait_iteration LW d command_id timeout_ms timeout_time = Some (Some res, d') ->
  (res = LW_RESULT_SUCCESS /\
   rsp_parse_state (response d') = LW_PARSESTATE_DONE /\
   (command_id = LW_ANY_COMMAND \/ rsp_command_id (response d') = command_id))
  \/ res = LW_RESULT_ERROR
  \/ (res = LW_RESULT_AGAIN /\ timeout_ms = 0)
  \/ (res = LW_RESULT_TIMEOUT /\ timeout_ms <> 0).
Proof.
  destruct (time_left d timeout_ms timeout_time) as [tl d1] eqn:Htl.
  destruct (call_serial_receive d1 1 tl) as [[br byte] d2] eqn:Hrecv.
  rewrite (wait_iteration_eq _ _ _ _ _ _ _ _ _ Htl Hrecv).
  intros Hout.
  destruct (decide (br = -1)); [inversion Hout; subst; auto |].
  destruct (decide (br > 0)).
  - destruct (lw_feed_response LW (response d2) byte) as [[res0 r] |] eqn:Hfeed;
      cbn [mbind option_bind] in Hout; [| discriminate].
    destruct (decide (res0 = LW_RESULT_SUCCESS)); [| discriminate].
    destruct (decide (command_id = LW_ANY_COMMAND \/ rsp_command_id r = command_id));
      [| discriminate].
    inversion Hout; subst. left.
    split; [reflexivity |]. cbn [response set_response].
    split; [eapply feed_success_done; exact Hfeed | assumption].
  - destruct (decide (timeout_ms = 0)); [inversion Hout; subst; auto |].
    destruct (decide (tl = 0)); [| discriminate].
    inversion Hout; subst. auto.
Qed.

Lemma time_left_frame d timeout_ms timeout_time tl d1 :
  time_left d timeout_ms timeout_time = (tl, d1) ->
  count_sends (calls d1) = count_sends (calls d) /\ request d1 = request d.
Proof.
  unfold time_left, call_get_time_ms. intros Heq.
  destruct (decide (timeout_ms <> 0)).
  - destruct (get_time_ms d (user_data d)) as [now u].
    inversion Heq; subst. cbn [calls request after_call].
    rewrite count_sends_app. change (count_sends [EvGetTime now]) with 0%nat.
    split; [lia | reflexivity].
  - inversion Heq; subst. auto.
Qed.

Lemma receive_frame d size timeout_ms br byte d2 :
  call_serial_receive d size timeout_ms = (br, byte, d2) ->
  count_sends (calls d2) = count_sends (calls d) /\ request d2 = request d.
Proof.
  unfold call_serial_receive.
  destruct (serial_receive d (user_data d) size timeout_ms) as [[br0 byte0] u].
  intros H. inversion H; subst. cbn [calls request after_call].
  rewrite count_sends_app.
  change (count_sends [EvReceive timeout_ms br byte]) with 0%nat.
  split; [lia | reflexivity].
Qed.

Lemma wait_iteration_frame d command_id timeout_ms timeout_time out d' :
  wait_iteration LW d command_id timeout_ms timeout_time = Some (out, d') ->
  count_sends (calls d') = count_sends (calls d) /\ request d' = request d.
Proof.
  destruct (time_left d timeout_ms timeout_time) as [tl d1] eqn:Htl.
  destruct (call_serial_receive d1 1 tl) as [[br byte] d2] eqn:Hrecv.
  rewrite (wait_iteration_eq _ _ _ _ _ _ _ _ _ Htl Hrecv).
  destruct (time_left_frame _ _ _ _ _ Htl) as [Hc1 Hq1].
  destruct (receive_frame _ _ _ _ _ _ Hrecv) as [Hc2 Hq2].
  assert (Hkeep : count_sends (calls d2) = count_sends (calls d)
                  /\ request d2 = request d) by (split; congruence).
  intros Hout.
  destruct (decide (br = -1)); [inversion Hout; subst; exact Hkeep |].
  destruct (decide (br > 0)).
  - destruct (lw_feed_response LW (response d2) byte) as [[res0 r] |];
      cbn [mbind option_bind] in Hout; [| discriminate].
    destruct (decide (res0 = LW_RESULT_SUCCESS));
      [destruct (decide (command_id = LW_ANY_COMMAND
                         \/ rsp_command_id r = command_id)) |];
      inversion Hout; subst; exact Hkeep.
  - destruct (decide (timeout_ms = 0)); [inversion Hout; subst; exact Hkeep |].
    destruct (decide (tl = 0)); inversion Hout; subst; exact Hkeep.
Qed.

Lemma wait_loop_result fuel : forall d command_id timeout_ms timeout_time res d',
  wait_loop LW fuel d command_id timeout_ms timeout_time = Some (res, d') ->
  ((res = LW_RESULT_SUCCESS /\
    rsp_parse_state (response d') = LW_PARSESTATE_DONE /\
    (command_id = LW_ANY_COMMAND \/ rsp_command_id (response d') = command_id))
   \/ res = LW_RESULT_ERROR
   \/ (res = LW_RESULT_AGAIN /\ timeout_ms = 0)
   \/ (res = LW_RESULT_TIMEOUT /\ timeout_ms <> 0))
  /\ count_sends (calls d') = count_sends (calls d)
  /\ request d' = request d.
Proof.
  induction fuel as [| fuel IH];
    intros d command_id timeout_ms timeout_time res d' H;
    cbn [wait_loop] in H; [discriminate |].
  destruct (wait_iteration LW d command_id timeout_ms timeout_time)
    as [[[res0 |] d1] |] eqn:Hit; [| | discriminate].
  - inversion H; subst.
    split; [eapply wait_iteration_result; exact Hit |].
    eapply wait_iteration_frame; exact Hit.
  - destruct (IH _ _ _ _ _ _ H) as (Hres & Hc & Hq).
    destruct (wait_iteration_frame _ _ _ _ _ _ Hit) as [Hc1 Hq1].
    split; [exact Hres |]. split; congruence.
Qed.

Lemma wait_deadline_frame d timeout_ms timeout_time d0 :
  wait_deadline d timeout_ms = (timeout_time, d0) ->
  count_sends (calls d0) = count_sends (calls d) /\ request d0 = request d.
Proof.
  unfold wait_deadline, call_get_time_ms. intros Heq.
  destruct (decide (timeout_ms <> 0)).
  - destruct (get_time_ms d (user_data d)) as [now u].
    inversion Heq; subst. cbn [calls request after_call].
    rewrite count_sends_app. change (count_sends [EvGetTime now]) with 0%nat.
    split; [lia | reflexivity].
  - inversion Heq; subst. auto.
Qed.

Lemma wait_result fuel d command_id timeout_ms res d' :
  lw_wait_for_next_response LW fuel d command_id timeout_ms = Some (res, d') ->
  ((res = LW_RESULT_SUCCESS /\
    rsp_parse_state (response d') = LW_PARSESTATE_DONE /\
    (command_id = LW_ANY_COMMAND \/ rsp_command_id (response d') = command_id))
   \/ res = LW_RESULT_ERROR
   \/ (res = LW_RESULT_AGAIN /\ timeout_ms = 0)
   \/ (res = LW_RESULT_TIMEOUT /\ timeout_ms <> 0))
  /\ count_sends (calls d') = count_sends (calls d)
  /\ request d' = request d.
Proof.
  unfold lw_wait_for_next_response.
  destruct (wait_deadline d timeout_ms) as [timeout_time d0] eqn:Hdl.
  intros H. destruct (wait_loop_result _ _ _ _ _ _ _ H) as (Hres & Hc & Hq).
  destruct (wait_deadline_frame _ _ _ _ Hdl) as [Hc0 Hq0].
  split; [exact Hres |]. split; congruence.
Qed.

(** The callbacks a non-blocking call makes: receives with timeout 0 only,
    each bringing a byte except possibly the last, which decides the
    result. *)
Lemma wait_loop_non_blocking_trace command_id fuel : forall d res d',
  wait_loop LW fuel d command_id 0 0 = Some (res, d') ->
  exists evs br b,
    calls d' = calls d ++ evs ++ [EvReceive 0 br b] /\
    forallb poll_got_byte evs = true /\
    ((br = -1 /\ res = LW_RESULT_ERROR)
     \/ (br > 0 /\ res = LW_RESULT_SUCCESS)
     \/ (br <> -1 /\ br <= 0 /\ res = LW_RESULT_AGAIN)).
Proof.
  induction fuel as [| fuel IH]; intros d res d' H; cbn [wait_loop] in H;
    [discriminate |].
  destruct (call_serial_receive d 1 0) as [[br0 b0] d2] eqn:Hrecv.
  assert (Hcalls : calls d2 = calls d ++ [EvReceive 0 br0 b0]).
  { unfold call_serial_receive in Hrecv.
    destruct (serial_receive d (user_data d) 1 0) as [[br1 b1] u].
    inversion Hrecv; subst. reflexivity. }
  rewrite (wait_iteration_eq d command_id 0 0 0 d br0 b0 d2 eq_refl Hrecv) in H.
  destruct (decide (br0 = -1)) as [Hm1 | Hm1].
  { inversion H; subst res d'. exists [], br0, b0. rewrite Hcalls. auto. }
  destruct (decide (br0 > 0)) as [Hpos | Hpos].
  - destruct (lw_feed_response LW (response d2) b0) as [[res0 r] |];
      cbn [mbind option_bind] in H; [| discriminate].
    assert (Hnext : wait_loop LW fuel (set_response d2 r) command_id 0 0
                      = Some (res, d') ->
            exists evs br b,
              calls d' = calls d ++ evs ++ [EvReceive 0 br b] /\
              forallb poll_got_byte evs = true /\
              ((br = -1 /\ res = LW_RESULT_ERROR)
               \/ (br > 0 /\ res = LW_RESULT_SUCCESS)
               \/ (br <> -1 /\ br <= 0 /\ res = LW_RESULT_AGAIN))).
    { intros Hloop. destruct (IH _ _ _ Hloop) as (evs & br & b & Hc & Hall & Hlast).
      exists (EvReceive 0 br0 b0 :: evs), br, b. split; [| split; [| exact Hlast]].
      - rewrite Hc. cbn [calls set_response]. rewrite Hcalls, <- app_assoc.
        reflexivity.
      - cbn [forallb poll_got_byte]. rewrite Hall.
        replace (0 <? br0) with true by (symmetry; apply Z.ltb_lt; lia).
        reflexivity. }
    destruct (decide (res0 = LW_RESULT_SUCCESS)); [| exact (Hnext H)].
    destruct (decide (command_id = LW_ANY_COMMAND \/ rsp_command_id r = command_id));
      [| exact (Hnext H)].
    inversion H; subst res d'. exists [], br0, b0.
    cbn [calls set_response]. rewrite Hcalls.
    split; [reflexivity |]. split; [reflexivity |]. right. left. auto.
  - rewrite decide_True in H by reflexivity. inversion H; subst res d'.
    exists [], br0, b0. rewrite Hcalls. split; [reflexivity |].
    split; [reflexivity |]. right. right. repeat split; [assumption | lia].
Qed.

End ManagedFacts.

Section ManagedClaims.

Context {U : Type}.
Variable LW : bool.

Implicit Types d : lw_callback_device U.

Lemma wait_non_blocking_unfold fuel d command_id :
  lw_wait_for_next_response LW fuel d command_id 0 =
    wait_loop LW fuel d command_id 0 0.
Proof. reflexivity. Qed.

Lemma failed_attempt_step fuel d d' :
  failed_attempt LW fuel d = Some d' ->
  (forall m, send_attempts LW (S m) fuel d = send_attempts LW m fuel d') /\
  count_sends (calls d') = S (count_sends (calls d)) /\
  request d' = request d.
Proof.
  unfold failed_attempt. cbn [send_attempts].
  destruct (call_serial_send d (req_data (request d)) (req_data_size (request d)))
    as [sent d1] eqn:Hsend.
  assert (Hframe : count_sends (calls d1) = S (count_sends (calls d))
                   /\ request d1 = request d).
  { unfold call_serial_send in Hsend.
    destruct (serial_send d (user_data d) (req_data (request d))
                (req_data_size (request d))) as [sent0 u].
    inversion Hsend; subst. cbn [calls request after_call].
    rewrite count_sends_app.
    change (count_sends [EvSend (req_data_size (request d)) sent]) with 1%nat.
    split; [lia | reflexivity]. }
  destruct Hframe as [Hc1 Hq1].
  destruct (decide (sent = 0)); [discriminate |].
  destruct (lw_wait_for_next_response LW fuel d1 (req_command_id (request d1))
              LW_RESPONSE_TIMEOUT_MS) as [[result d2] |] eqn:Hwait;
    [| discriminate].
  destruct (wait_result LW _ _ _ _ _ _ Hwait) as (_ & Hc2 & Hq2).
  destruct (decide (result = LW_RESULT_SUCCESS \/ result = LW_RESULT_ERROR))
    as [Hv | Hv]; [discriminate |].
  intros H. inversion H; subst. split; [| split; congruence].
  intros m. rewrite decide_False by tauto. rewrite decide_False by tauto.
  reflexivity.
Qed.

Lemma failed_attempts_steps n : forall fuel d dn,
  failed_attempts LW n fuel d = Some dn ->
  (forall m, send_attempts LW (n + m) fuel d = send_attempts LW m fuel dn) /\
  count_sends (calls dn) = (count_sends (calls d) + n)%nat /\
  request dn = request d.
Proof.
  induction n as [| n IH]; intros fuel d dn H; cbn [failed_attempts] in H.
  - inversion H; subst. split; [reflexivity |]. split; [lia | reflexivity].
  - destruct (failed_attempt LW fuel d) as [d1 |] eqn:Hone;
      cbn [mbind option_bind] in H; [| discriminate].
    destruct (failed_attempt_step _ _ _ Hone) as (Hs1 & Hc1 & Hq1).
    destruct (IH _ _ _ H) as (Hs & Hc & Hq).
    split; [| split; [lia | congruence]].
    intros m. change (S n + m)%nat with (S (n + m)). rewrite Hs1. apply Hs.
Qed.

(** C8: non-blocking mode.  With [timeout_ms = 0] the call asks the
    transport for one byte with timeout 0 and never reads the clock; a
    receive of 0 bytes makes it return [AGAIN] at once, a receive of -1
    makes it return [ERROR] at once, and a received byte is fed to the
    decoder, after which the call returns [SUCCESS] if the decoder
    completed a packet whose command id is the expected one (or
    [LW_ANY_COMMAND] was asked for) and otherwise goes on, in the same
    call, with the next receive.  [SUCCESS] is returned in no other
    case, and the callbacks of a call that returns are receives with
    timeout 0, each of which brought a byte except possibly the last. *)
Theorem C8_non_blocking_wait d (command_id : Z) (fuel : nat)
    (bytes_read byte : Z) (d2 : lw_callback_device U) :
  call_serial_receive d 1 0 = (bytes_read, byte, d2) ->
  (bytes_read = 0 ->
   lw_wait_for_next_response LW (S fuel) d command_id 0
     = Some (LW_RESULT_AGAIN, d2)) /\
  (bytes_read = -1 ->
   lw_wait_for_next_response LW (S fuel) d command_id 0
     = Some (LW_RESULT_ERROR, d2)) /\
  (bytes_read > 0 -> forall res r,
     lw_feed_response LW (response d2) byte = Some (res, r) ->
     lw_wait_for_next_response LW (S fuel) d command_id 0 =
       if decide (res = LW_RESULT_SUCCESS /\
                  (command_id = LW_ANY_COMMAND \/ rsp_command_id r = command_id))
       then Some (LW_RESULT_SUCCESS, set_response d2 r)
       else lw_wait_for_next_response LW fuel (set_response d2 r) command_id 0) /\
  (forall n d',
     lw_wait_for_next_response LW n d command_id 0 = Some (LW_RESULT_SUCCESS, d') ->
     rsp_parse_state (response d') = LW_PARSESTATE_DONE /\
     (command_id = LW_ANY_COMMAND \/ rsp_command_id (response d') = command_id)) /\
  (forall n res d',
     lw_wait_for_next_response LW n d command_id 0 = Some (res, d') ->
     exists evs br b,
       calls d' = calls d ++ evs ++ [EvReceive 0 br b] /\
       forallb poll_got_byte evs = true /\
       ((br = -1 /\ res = LW_RESULT_ERROR)
        \/ (br > 0 /\ res = LW_RESULT_SUCCESS)
        \/ (br <> -1 /\ br <= 0 /\ res = LW_RESULT_AGAIN))).
Proof.
  intros Hrecv.
  assert (Hit : wait_iteration LW d command_id 0 0 = _)
    by (apply (wait_iteration_eq LW d command_id 0 0 0 d bytes_read byte d2
                 eq_refl Hrecv)).
  split; [| split; [| split; [| split]]].
  - intros H0. rewrite wait_non_blocking_unfold. cbn [wait_loop].
    rewrite Hit. rewrite decide_False by lia. rewrite decide_False by lia.
    reflexivity.
  - intros H1. rewrite wait_non_blocking_unfold. cbn [wait_loop].
    rewrite Hit. rewrite decide_True by lia. reflexivity.
  - intros Hpos res r Hfeed. rewrite !wait_non_blocking_unfold.
    cbn [wait_loop]. rewrite Hit.
    rewrite decide_False by lia. rewrite decide_True by lia.
    rewrite Hfeed. cbn [mbind option_bind].
    destruct (decide (res = LW_RESULT_SUCCESS)) as [Hs | Hs];
      [destruct (decide (command_id = LW_ANY_COMMAND
                         \/ rsp_command_id r = command_id)) as [Hm | Hm] |].
    + rewrite decide_True by tauto. reflexivity.
    + rewrite decide_False by tauto. reflexivity.
    + rewrite decide_False by tauto. reflexivity.
  - intros n d' Hwait.
    destruct (wait_result LW _ _ _ _ _ _ Hwait)
      as ([(_ & Hdone & Hm) | [Hbad | [[Hbad _] | [Hbad _]]]] & _);
      [exact (conj Hdone Hm) | discriminate ..].
  - intros n res d' Hwait. rewrite wait_non_blocking_unfold in Hwait.
    apply (wait_loop_non_blocking_trace LW command_id n d res d' Hwait).
Qed.

(** C4 (as amended): blocking mode.  With [timeout_ms > 0] the call reads
    the clock once at entry and fixes the deadline [now + timeout_ms]
    (32-bit addition); a pass whose clock reading has reached the deadline
    asks the transport with timeout 0 and returns [TIMEOUT] when that
    receive brings no byte (and is not -1), and [ERROR] when it is -1; a
    byte that does arrive on such a pass is still fed to the decoder, after
    which the call returns [SUCCESS] if the decoder completed a packet
    whose command id is the expected one (or [LW_ANY_COMMAND] was asked
    for) and otherwise goes on with the next pass, against the same
    deadline; and whatever the transport and the clock do, the call
    returns [SUCCESS], [ERROR] or [TIMEOUT], never [AGAIN]. *)
Theorem C4_blocking_wait d (command_id timeout_ms : Z) :
  0 < timeout_ms ->
  (forall fuel,
     lw_wait_for_next_response LW fuel d command_id timeout_ms =
       wait_loop LW fuel (snd (call_get_time_ms d)) command_id timeout_ms
                 (u32 (fst (call_get_time_ms d) + timeout_ms))) /\
  (forall fuel d1 deadline now dA br byte dB,
     call_get_time_ms d1 = (now, dA) -> deadline <= now ->
     call_serial_receive dA 1 0 = (br, byte, dB) -> br <> -1 -> br <= 0 ->
     wait_loop LW (S fuel) d1 command_id timeout_ms deadline
       = Some (LW_RESULT_TIMEOUT, dB)) /\
  (forall fuel d1 deadline now dA br byte dB,
     call_get_time_ms d1 = (now, dA) -> deadline <= now ->
     call_serial_receive dA 1 0 = (br, byte, dB) -> br = -1 ->
     wait_loop LW (S fuel) d1 command_id timeout_ms deadline
       = Some (LW_RESULT_ERROR, dB)) /\
  (forall fuel d1 deadline now dA br byte dB res r,
     call_get_time_ms d1 = (now, dA) -> deadline <= now ->
     call_serial_receive dA 1 0 = (br, byte, dB) -> br > 0 ->
     lw_feed_response LW (response dB) byte = Some (res, r) ->
     wait_loop LW (S fuel) d1 command_id timeout_ms deadline =
       if decide (res = LW_RESULT_SUCCESS /\
                  (command_id = LW_ANY_COMMAND \/ rsp_command_id r = command_id))
       then Some (LW_RESULT_SUCCESS, set_response dB r)
       else wait_loop LW fuel (set_response dB r) command_id timeout_ms deadline) /\
  (forall fuel res d',
     lw_wait_for_next_response LW fuel d command_id timeout_ms = Some (res, d') ->
     res = LW_RESULT_SUCCESS \/ res = LW_RESULT_ERROR \/ res = LW_RESULT_TIMEOUT).
Proof.
  intros Hpos.
  assert (Hpast : forall d1 deadline now dA,
            call_get_time_ms d1 = (now, dA) -> deadline <= now ->
            time_left d1 timeout_ms deadline = (0, dA)).
  { intros d1 deadline now dA Hclock Hle. unfold time_left.
    rewrite decide_True by lia. rewrite Hclock.
    rewrite decide_False by lia. reflexivity. }
  split; [| split; [| split; [| split]]].
  - intros fuel. unfold lw_wait_for_next_response, wait_deadline.
    rewrite decide_True by lia.
    destruct (call_get_time_ms d) as [now d0]. reflexivity.
  - intros fuel d1 deadline now dA br byte dB Hclock Hlate Hrecv Hne Hle.
    cbn [wait_loop].
    assert (Htl : time_left d1 timeout_ms deadline = (0, dA)).
    { unfold time_left. rewrite decide_True by lia. rewrite Hclock.
      rewrite decide_False by lia. reflexivity. }
    rewrite (wait_iteration_eq LW d1 command_id timeout_ms deadline 0 dA
               br byte dB Htl Hrecv).
    rewrite decide_False by exact Hne. rewrite decide_False by lia.
    rewrite decide_False by lia. rewrite decide_True by reflexivity.
    reflexivity.
  - intros fuel d1 deadline now dA br byte dB Hclock Hle Hrecv Hbr.
    cbn [wait_loop].
    rewrite (wait_iteration_eq LW d1 command_id timeout_ms deadline 0 dA
               br byte dB (Hpast _ _ _ _ Hclock Hle) Hrecv).
    rewrite decide_True by exact Hbr. reflexivity.
  - intros fuel d1 deadline now dA br byte dB res r Hclock Hle Hrecv Hbr Hfeed.
    cbn [wait_loop].
    rewrite (wait_iteration_eq LW d1 command_id timeout_ms deadline 0 dA
               br byte dB (Hpast _ _ _ _ Hclock Hle) Hrecv).
    rewrite decide_False by lia. rewrite decide_True by exact Hbr.
    rewrite Hfeed. cbn [mbind option_bind].
    destruct (decide (res = LW_RESULT_SUCCESS)) as [Hs | Hs];
      [destruct (decide (command_id = LW_ANY_COMMAND
                         \/ rsp_command_id r = command_id)) as [Hm | Hm] |].
    + rewrite decide_True by tauto. reflexivity.
    + rewrite decide_False by tauto. reflexivity.
    + rewrite decide_False by tauto. reflexivity.
  - intros fuel res d' H.
    destruct (wait_result LW _ _ _ _ _ _ H)
      as ([(Hs & _) | [He | [[_ H0] | [Ht _]]]] & _); auto. lia.
Qed.

(** C9 (as amended): the retry loop.  When each of the four turns sends
    with a nonzero count reported and its await (for the request's command
    id, with [LW_RESPONSE_TIMEOUT_MS]) returns neither [SUCCESS] nor
    [ERROR], the call returns [EXCEEDED_RETRIES] having sent exactly four
    times; and when, after any number of such turns below four, a send
    reports 0 bytes, the call returns [ERROR] right after that send. *)
Theorem C9_retry_loop (fuel : nat) d :
  (forall d4,
     failed_attempts LW (Z.to_nat LW_REQUEST_RETRIES) fuel d = Some d4 ->
     lw_send_request_get_response LW fuel d
       = Some (LW_RESULT_EXCEEDED_RETRIES, d4) /\
     count_sends (calls d4) = (count_sends (calls d) + 4)%nat) /\
  (forall k dk sent dk',
     (k < Z.to_nat LW_REQUEST_RETRIES)%nat ->
     failed_attempts LW k fuel d = Some dk ->
     call_serial_send dk (req_data (request dk)) (req_data_size (request dk))
       = (sent, dk') ->
     sent = 0 ->
     lw_send_request_get_response LW fuel d = Some (LW_RESULT_ERROR, dk') /\
     calls dk' = calls dk ++ [EvSend (req_data_size (request d)) 0] /\
     count_sends (calls dk') = (count_sends (calls d) + k + 1)%nat).
Proof.
  change (Z.to_nat LW_REQUEST_RETRIES) with 4%nat. split.
  - intros d4 Hfail.
    destruct (failed_attempts_steps 4 fuel d d4 Hfail) as (Hs & Hc & _).
    split; [| exact Hc]. unfold lw_send_request_get_response.
    change (Z.to_nat LW_REQUEST_RETRIES) with (4 + 0)%nat.
    rewrite Hs. reflexivity.
  - intros k dk sent dk' Hk Hfail Hsend Hzero.
    destruct (failed_attempts_steps k fuel d dk Hfail) as (Hs & Hc & Hq).
    assert (Hcalls : calls dk' = calls dk ++ [EvSend (req_data_size (request d)) 0]).
    { unfold call_serial_send in Hsend.
      destruct (serial_send dk (user_data dk) (req_data (request dk))
                  (req_data_size (request dk))) as [sent0 u].
      inversion Hsend; subst. cbn [calls after_call]. rewrite Hq. reflexivity. }
    split; [| split; [exact Hcalls |]].
    + unfold lw_send_request_get_response.
      change (Z.to_nat LW_REQUEST_RETRIES) with 4%nat.
      replace 4%nat with (k + S (3 - k))%nat by lia.
      rewrite Hs. cbn [send_attempts]. rewrite Hsend.
      rewrite decide_True by exact Hzero. reflexivity.
    + rewrite Hcalls, count_sends_app.
      change (count_sends [EvSend (req_data_size (request d)) 0]) with 1%nat.
      lia.
Qed.

End ManagedClaims.

Lemma C8_non_blocking_wait_witness :
  lw_wait_for_next_response false 1 (scripted_device false 600 0 [] 5) 5 0 =
    Some (LW_RESULT_AGAIN,
          snd (call_serial_receive (scripted_device false 600 0 [] 5) 1 0)).
Proof.
  destruct (C8_non_blocking_wait false (scripted_device false 600 0 [] 5) 5 0%nat
              0 0 (snd (call_serial_receive (scripted_device false 600 0 [] 5) 1 0))
              eq_refl) as (Hidle & _).
  apply Hidle. reflexivity.
Defined.

Lemma C4_blocking_wait_witness :
  let d := scripted_device false 1000 0 [] 5 in
  let d1 := snd (call_get_time_ms d) in
  let dA := snd (call_get_time_ms d1) in
  let dB := snd (call_serial_receive dA 1 0) in
  lw_wait_for_next_response false 1 d 5 1000 = Some (LW_RESULT_TIMEOUT, dB).
Proof.
  intros d d1 dA dB.
  destruct (C4_blocking_wait false d 5 1000 ltac:(lia)) as (Hentry & Hpass & _).
  rewrite Hentry.
  apply (Hpass 0%nat d1 (u32 (fst (call_get_time_ms d) + 1000)) 1000 dA 0 0 dB).
  - reflexivity.
  - vm_compute. discriminate.
  - reflexivity.
  - lia.
  - lia.
Defined.

(** C4 (as stated) fails: the clock is past the deadline on every pass (the
    deadline is 1000, the first reading inside the loop is 5000, and every
    receive is made with timeout 0), yet the call goes on receiving and
    returns [SUCCESS] rather than [TIMEOUT]. *)
Lemma C4_counterexample :
  let d := scripted_device false 5000 0 [0xAA; 0x40; 0x00; 0x05; 0xD5; 0xCF] 5 in
  fst (wait_deadline d 1000) = 1000 /\
  fst (call_get_time_ms (snd (wait_deadline d 1000))) = 5000 /\
  match lw_wait_for_next_response false 6 d 5 1000 with
  | Some (res, d') =>
      res = LW_RESULT_SUCCESS /\
      calls d' =
        [EvGetTime 0;
         EvGetTime 5000; EvReceive 0 1 0xAA;
         EvGetTime 10000; EvReceive 0 1 0x40;
         EvGetTime 15000; EvReceive 0 1 0x00;
         EvGetTime 20000; EvReceive 0 1 0x05;
         EvGetTime 25000; EvReceive 0 1 0xD5;
         EvGetTime 30000; EvReceive 0 1 0xCF]
  | None => False
  end.
Proof. vm_compute. repeat split; reflexivity. Qed.

Lemma C9_retry_loop_witness :
  exists d4,
    lw_send_request_get_response false 2 (scripted_device false 600 0 [] 5)
      = Some (LW_RESULT_EXCEEDED_RETRIES, d4) /\
    count_sends (calls d4)
      = (count_sends (calls (scripted_device false 600 0 [] 5)) + 4)%nat.
Proof.
  destruct (C9_retry_loop false 2 (scripted_device false 600 0 [] 5)) as [Hfour _].
  assert (Hsome :
    match failed_attempts false (Z.to_nat LW_REQUEST_RETRIES) 2
            (scripted_device false 600 0 [] 5) with
    | Some _ => true
    | None => false
    end = true)
    by (vm_compute; reflexivity).
  destruct (failed_attempts false (Z.to_nat LW_REQUEST_RETRIES) 2
              (scripted_device false 600 0 [] 5)) as [d4 |] eqn:Hfail.
  - exists d4. apply Hfour. reflexivity.
  - discriminate Hsome.
Defined.

(** C9 (as stated) fails: the send reports 6 bytes, no byte is ever received
    (so the decoder completes nothing), and the call returns [ERROR] after
    one send, because the receive reports -1. *)
Lemma C9_counterexample :
  match lw_send_request_get_response false 10
          (scripted_device false 600 (-1) [] 5) with
  | Some (res, d') =>
      res = LW_RESULT_ERROR /\
      res <> LW_RESULT_EXCEEDED_RETRIES /\
      calls d' = [EvSend 6 6; EvGetTime 0; EvGetTime 600; EvReceive 400 (-1) 0] /\
      count_sends (calls d') = 1%nat
  | None => False
  end.
Proof. vm_compute. repeat split; try reflexivity. discriminate. Qed.

(** * Properties of the rest of the API *)

(** ** Resynchronisation *)

Lemma feed_noise LW noise : forall r,
  wf_response LW r -> rsp_parse_state r = LW_PARSESTATE_START ->
  Forall (fun b => b <> LW_PACKET_START_BYTE) noise ->
  feed_all LW r noise = Some (repeat LW_RESULT_AGAIN (length noise), r).
Proof.
  induction noise as [| b noise IH]; intros r Hwf Hst Hall.
  - reflexivity.
  - inversion Hall as [| ? ? Hb Hrest]; subst.
    cbn [feed_all length repeat]. rewrite feed_start_step by assumption.
    rewrite decide_False by exact Hb. cbn [mbind option_bind].
    rewrite IH by assumption. reflexivity.
Qed.

(** X1: bytes that are not the start byte are skipped.  Any run of bytes
    other than [0xAA] in front of a packet answers [AGAIN] and leaves the
    decoder where it was, so the packet behind it decodes as if the noise
    had not been there. *)
Theorem decoder_skips_noise (LW : bool) (r0 : lw_response) (noise : list Z)
    (command_id write : Z) (payload : list Z) :
  wf_response LW r0 ->
  Forall (fun b => b <> LW_PACKET_START_BYTE) noise ->
  1 <= Z.of_nat (length payload) + 1 <= LW_PACKET_RECV_SIZE LW - 5 ->
  let packet :=
    lw_create_packet command_id write payload (Z.of_nat (length payload)) in
  exists r',
    feed_all LW (lw_init_response r0) (noise ++ packet) =
      Some (repeat LW_RESULT_AGAIN (length noise + (length packet - 1))
              ++ [LW_RESULT_SUCCESS], r') /\
    rsp_parse_state r' = LW_PARSESTATE_DONE /\
    rsp_command_id r' = command_id /\
    lw_parse_packet_data (rsp_data r') (Z.of_nat (length payload)) 0 = payload.
Proof.
  intros Hwf Hnoise Hsize packet.
  destruct (decode_created_packet LW (lw_init_response r0) command_id write
              payload Hwf (or_introl eq_refl) ltac:(lia))
    as (r' & Hfeed & _ & Hdone & Hid & _ & _ & _ & _ & Hdata).
  exists r'. split; [| repeat split; assumption].
  rewrite feed_all_app.
  rewrite (feed_noise LW noise (lw_init_response r0) Hwf eq_refl Hnoise).
  cbn [mbind option_bind]. fold packet in Hfeed. rewrite Hfeed.
  cbn [mbind option_bind]. rewrite repeat_app, <- app_assoc. reflexivity.
Qed.

Lemma decoder_skips_noise_witness :
  exists r',
    feed_all false (lw_init_response (zero_response false))
             ([0x00; 0x55; 0xFF] ++ lw_create_packet 44 0 [1; 2] 2) =
      Some (repeat LW_RESULT_AGAIN (3 + (8 - 1)) ++ [LW_RESULT_SUCCESS], r') /\
    rsp_parse_state r' = LW_PARSESTATE_DONE /\
    rsp_command_id r' = 44 /\
    lw_parse_packet_data (rsp_data r') 2 0 = [1; 2].
Proof.
  apply (decoder_skips_noise false (zero_response false) [0x00; 0x55; 0xFF]
           44 0 [1; 2]).
  - vm_compute. reflexivity.
  - repeat constructor; discriminate.
  - vm_compute. split; discriminate.
Defined.

(** X2: a corrupted frame costs only itself.  After a structurally complete
    frame whose trailing bytes are not its checksum, a valid packet fed
    right behind it is decoded: every byte of both answers [AGAIN] except
    the last byte of the valid packet, which answers [SUCCESS]. *)
Theorem decoder_recovers_after_bad_frame (LW : bool) (r0 : lw_response)
    (lo hi cmd : Z) (payload : list Z) (c0 c1 : Z)
    (command_id write : Z) (payload2 : list Z) :
  wf_response LW r0 ->
  declared_payload_size lo hi = 1 + Z.of_nat (length payload) ->
  1 + Z.of_nat (length payload) <= LW_PACKET_RECV_SIZE LW - 5 ->
  let pre := [LW_PACKET_START_BYTE; lo; hi; cmd] ++ payload in
  u16 (Z.lor c0 (Z.shiftl c1 8)) <> lw_create_crc pre (Z.of_nat (length pre)) ->
  1 <= Z.of_nat (length payload2) + 1 <= LW_PACKET_RECV_SIZE LW - 5 ->
  let packet :=
    lw_create_packet command_id write payload2 (Z.of_nat (length payload2)) in
  exists r',
    feed_all LW (lw_init_response r0) ((pre ++ [c0; c1]) ++ packet) =
      Some (repeat LW_RESULT_AGAIN (length pre + 2 + (length packet - 1))
              ++ [LW_RESULT_SUCCESS], r') /\
    rsp_parse_state r' = LW_PARSESTATE_DONE /\
    rsp_command_id r' = command_id /\
    lw_parse_packet_data (rsp_data r') (Z.of_nat (length payload2)) 0 = payload2.
Proof.
  intros Hwf Hdecl Hsize pre Hbad Hsize2 packet.
  destruct (feed_frame LW (lw_init_response r0) lo hi cmd payload c0 c1
              Hwf eq_refl Hdecl Hsize) as (buf & Hlen & _ & Hfeed).
  fold pre in Hfeed.
  unfold lw_create_crc in Hbad. rewrite take_all_length in Hbad.
  rewrite bool_decide_eq_false_2 in Hfeed by exact Hbad.
  match type of Hfeed with _ = Some (_, ?rr) => set (r1 := rr) in * end.
  assert (Hwf1 : wf_response LW r1).
  { unfold wf_response, r1. cbn [rsp_data]. rewrite Hlen. exact Hwf. }
  destruct (decode_created_packet LW r1 command_id write payload2 Hwf1
              (or_introl eq_refl) ltac:(lia))
    as (r' & Hfeed2 & _ & Hdone & Hid & _ & _ & _ & _ & Hdata).
  exists r'. split; [| repeat split; assumption].
  rewrite feed_all_app, Hfeed. cbn [mbind option_bind].
  fold packet in Hfeed2. rewrite Hfeed2. cbn [mbind option_bind].
  do 2 f_equal.
  replace (length pre + 2 + (length packet - 1))%nat
    with ((length pre + 1) + 1 + (length packet - 1))%nat by lia.
  rewrite !repeat_app. cbn [repeat]. rewrite <- !app_assoc. reflexivity.
Qed.

Lemma decoder_recovers_after_bad_frame_witness :
  exists r',
    feed_all false (lw_init_response (zero_response false))
             (([LW_PACKET_START_BYTE; 0x40; 0x00; 0x05] ++ [] ++ [0xD5; 0xCE])
              ++ lw_create_packet 44 0 [1; 2] 2) =
      Some (repeat LW_RESULT_AGAIN (4 + 2 + (8 - 1)) ++ [LW_RESULT_SUCCESS], r') /\
    rsp_parse_state r' = LW_PARSESTATE_DONE /\
    rsp_command_id r' = 44 /\
    lw_parse_packet_data (rsp_data r') 2 0 = [1; 2].
Proof.
  apply (decoder_recovers_after_bad_frame false (zero_response false)
           0x40 0x00 0x05 [] 0xD5 0xCE 44 0 [1; 2]).
  - vm_compute. reflexivity.
  - vm_compute. reflexivity.
  - vm_compute. discriminate.
  - vm_compute. discriminate.
  - vm_compute. split; discriminate.
Defined.

(** ** What an accepted packet looks like *)

(** The byte that completes a frame, with the checksum test spelled out on
    the response before the call. *)
Lemma feed_completing LW r b (m : nat) :
  decoder_inv LW r ->
  rsp_parse_state r = LW_PARSESTATE_PAYLOAD ->
  rsp_data_size r = Z.of_nat (S m) ->
  rsp_data_size r + 1 = rsp_payload_size r + 5 ->
  exists c0 id,
    rsp_data r !! m = Some c0 /\ rsp_data r !! 3%nat = Some id /\
    lw_feed_response LW r b =
      if decide (u16 (Z.lor c0 (Z.shiftl b 8))
                 = lw_create_crc (rsp_data r) (Z.of_nat m))
      then Some (LW_RESULT_SUCCESS,
                 {| rsp_data := <[S m := b]> (rsp_data r);
                    rsp_data_size := Z.of_nat (S (S m));
                    rsp_payload_size := rsp_payload_size r;
                    rsp_parse_state := LW_PARSESTATE_DONE;
                    rsp_command_id := id |})
      else Some (LW_RESULT_AGAIN,
                 {| rsp_data := <[S m := b]> (rsp_data r);
                    rsp_data_size := Z.of_nat (S (S m));
                    rsp_payload_size := rsp_payload_size r;
                    rsp_parse_state := LW_PARSESTATE_START;
                    rsp_command_id := rsp_command_id r |}).
Proof.
  intros [Hwf Hpay] Hst Hds Hfull. pose proof (recv_size_bounds LW) as Hb.
  destruct (Hpay Hst) as [Hrange Hps].
  assert (Hlen : Z.of_nat (length (rsp_data r)) = LW_PACKET_RECV_SIZE LW)
    by exact Hwf.
  destruct (lookup_lt_is_Some_2 (rsp_data r) m ltac:(lia)) as [c0 Hc0].
  destruct (lookup_lt_is_Some_2 (rsp_data r) 3 ltac:(lia)) as [id Hid].
  exists c0, id. split; [exact Hc0 |]. split; [exact Hid |].
  remember (take m (rsp_data r)) as pre eqn:Epre.
  assert (Hlenpre : length pre = m) by (rewrite Epre; apply length_take_le; lia).
  pose proof (feed_last LW r pre c0 b Hwf Hst) as Hlast.
  rewrite Hlenpre in Hlast.
  specialize (Hlast Hds ltac:(lia) ltac:(lia)
                ltac:(rewrite Epre; apply take_S_r; exact Hc0)).
  cbv zeta in Hlast. rewrite list_lookup_insert_ne, Hid in Hlast by lia.
  rewrite Hlast. unfold lw_create_crc. rewrite Nat2Z.id, <- Epre. reflexivity.
Qed.

Lemma header_inv_feed LW r b res r' :
  decoder_inv LW r -> header_inv LW r ->
  lw_feed_response LW r b = Some (res, r') ->
  header_inv LW r' /\ (res = LW_RESULT_SUCCESS -> verified_packet LW r').
Proof.
  intros Hinv Hhdr Hfeed. pose proof (recv_size_bounds LW) as Hb.
  pose proof Hinv as [Hwf Hpay].
  assert (Hlen : Z.of_nat (length (rsp_data r)) = LW_PACKET_RECV_SIZE LW)
    by exact Hwf.
  assert (Hstart : forall r1 out,
            wf_response LW r1 -> rsp_parse_state r1 = LW_PARSESTATE_START ->
            lw_feed_response LW r1 b = Some out ->
            header_inv LW (snd out) /\ fst out = LW_RESULT_AGAIN).
  { intros r1 out Hwf1 Hst1 Hf. rewrite feed_start_step in Hf by assumption.
    inversion Hf; subst out. cbn [fst snd]. split; [| reflexivity].
    destruct (decide (b = LW_PACKET_START_BYTE)).
    - unfold header_inv. cbn [rsp_parse_state rsp_data].
      apply list_lookup_insert_eq.
      unfold wf_response in Hwf1. lia.
    - unfold header_inv. rewrite Hst1. exact I. }
  unfold header_inv in Hhdr.
  destruct (rsp_parse_state r) eqn:Hst.
  - destruct (Hstart r (res, r') Hwf Hst Hfeed) as [H1 H2]. cbn in H1, H2.
    split; [exact H1 | intros Hs; subst res; discriminate].
  - rewrite feed_flags1_step in Hfeed by assumption.
    inversion Hfeed; subst. split; [| discriminate].
    unfold header_inv. cbn [rsp_parse_state rsp_data].
    rewrite list_lookup_insert_ne by lia. exact Hhdr.
  - destruct (lookup_lt_is_Some_2 (rsp_data r) 1 ltac:(lia)) as [lo Hlo].
    rewrite (feed_flags2_step LW r b lo) in Hfeed by assumption.
    inversion Hfeed; subst. split; [| discriminate].
    unfold header_inv. cbn [rsp_parse_state rsp_data rsp_payload_size].
    case_decide; [exact I |]. split.
    + rewrite list_lookup_insert_ne by lia. exact Hhdr.
    + exists lo, b. split; [rewrite list_lookup_insert_ne by lia; exact Hlo |].
      split; [apply list_lookup_insert_eq; lia | reflexivity].
  - destruct (Hpay eq_refl) as [Hrange Hps].
    destruct Hhdr as (H0 & lo & hi & H1 & H2 & Hdecl).
    set (k := Z.to_nat (rsp_data_size r)).
    assert (Hk : rsp_data_size r = Z.of_nat k) by (unfold k; lia).
    destruct (Z.eq_dec (rsp_data_size r + 1) (rsp_payload_size r + 5))
      as [Hfull | Hpart].
    + destruct k as [| m] eqn:Ek; [lia |].
      destruct (feed_completing LW r b m Hinv Hst Hk Hfull)
        as (c0 & id & Hc0 & Hid & Hlast).
      rewrite Hlast in Hfeed.
      destruct (decide (u16 (Z.lor c0 (Z.shiftl b 8))
                        = lw_create_crc (rsp_data r) (Z.of_nat m))) as [Hok | Hbad];
        inversion Hfeed; subst res r'.
      * assert (Hv : verified_packet LW
                  {| rsp_data := <[S m := b]> (rsp_data r);
                     rsp_data_size := Z.of_nat (S (S m));
                     rsp_payload_size := rsp_payload_size r;
                     rsp_parse_state := LW_PARSESTATE_DONE;
                     rsp_command_id := id |}).
        { unfold verified_packet.
          cbn [rsp_data rsp_data_size rsp_payload_size rsp_command_id].
          split; [rewrite list_lookup_insert_ne by lia; exact H0 |].
          split.
          { exists lo, hi. rewrite !list_lookup_insert_ne by lia. auto. }
          split; [lia |]. split; [lia |].
          split; [rewrite list_lookup_insert_ne by lia; exact Hid |].
          exists c0, b.
          replace (Z.of_nat (S (S m)) - 2) with (Z.of_nat m) by lia.
          replace (Z.of_nat (S (S m)) - 1) with (Z.of_nat (S m)) by lia.
          rewrite !array_get_nat.
          split; [rewrite list_lookup_insert_ne by lia; exact Hc0 |].
          split; [apply list_lookup_insert_eq; lia |].
          rewrite Hok. unfold lw_create_crc. rewrite Nat2Z.id.
          rewrite take_insert_ge by lia. reflexivity. }
        split; [exact Hv | intros _; exact Hv].
      * split; [exact I | discriminate].
    + rewrite (feed_payload_step LW r b k) in Hfeed by (try assumption; lia).
      inversion Hfeed; subst. split; [| discriminate].
      unfold header_inv. cbn [rsp_parse_state rsp_data rsp_payload_size].
      split; [rewrite list_lookup_insert_ne by lia; exact H0 |].
      exists lo, hi. rewrite !list_lookup_insert_ne by lia. auto.
  - rewrite feed_done_reinit in Hfeed by assumption.
    destruct (Hstart (lw_init_response r) (res, r') Hwf eq_refl Hfeed) as [H1 H2].
    cbn in H1, H2. split; [exact H1 | intros Hs; subst res; discriminate].
Qed.

Lemma reachable_header_inv LW r : reachable LW r -> header_inv LW r.
Proof.
  induction 1 as [r0 Hwf | r r' b res Hr IH Hfeed].
  - exact I.
  - apply (header_inv_feed LW r b res r' (reachable_inv LW r Hr) IH Hfeed).
Qed.

(** X3: an accepted packet is a checked packet.  In every decoder state
    reachable from [lw_init_response], whenever the state is [DONE] (and so
    whenever a call has just answered [SUCCESS]) the buffer starts with
    [0xAA], its flag bytes declare the recorded payload size, [data_size] is
    that size plus 5, the recorded command id is byte 3, and the last two
    bytes are the checksum of the bytes before them. *)
Theorem accepted_packet_is_verified (LW : bool) (r : lw_response) :
  reachable LW r ->
  (rsp_parse_state r = LW_PARSESTATE_DONE -> verified_packet LW r) /\
  (forall b r',
     lw_feed_response LW r b = Some (LW_RESULT_SUCCESS, r') ->
     verified_packet LW r').
Proof.
  intros Hr. split.
  - intros Hdone. pose proof (reachable_header_inv LW r Hr) as Hh.
    unfold header_inv in Hh. rewrite Hdone in Hh. exact Hh.
  - intros b r' Hfeed.
    destruct (header_inv_feed LW r b LW_RESULT_SUCCESS r'
                (reachable_inv LW r Hr) (reachable_header_inv LW r Hr) Hfeed)
      as [_ Hv].
    apply Hv. reflexivity.
Qed.

Lemma accepted_packet_is_verified_witness :
  let r := decoder_after false [0xAA; 0x40; 0x00; 0x05; 0xD5; 0xCF] in
  (rsp_parse_state r = LW_PARSESTATE_DONE -> verified_packet false r) /\
  (forall b r',
     lw_feed_response false r b = Some (LW_RESULT_SUCCESS, r') ->
     verified_packet false r').
Proof.
  apply (accepted_packet_is_verified false
           (decoder_after false [0xAA; 0x40; 0x00; 0x05; 0xD5; 0xCF])).
  apply decoder_after_reachable.
Defined.

(** ** The checksum loses nothing *)

Lemma u16_bits x i :
  0 <= i -> Z.testbit (u16 x) i = if decide (i < 16) then Z.testbit x i else false.
Proof.
  intros Hi. unfold u16. case_decide.
  - apply Z.mod_pow2_bits_low. lia.
  - apply Z.mod_pow2_bits_high. lia.
Qed.

Lemma holds_from_spec p count : forall k,
  holds_from p count k = true ->
  forall j, k <= j < k + Z.of_nat count -> p j = true.
Proof.
  induction count as [| count IH]; intros k H j Hj; [lia |].
  cbn [holds_from] in H. apply andb_true_iff in H as [Hk Hrest].
  destruct (Z.eq_dec j k) as [-> | Hne]; [exact Hk |].
  apply (IH (k + 1) Hrest). lia.
Qed.

(** The byte enters a step only through the high half of the state. *)
Lemma crc_update_absorb c b :
  0 <= c < 65536 -> is_byte b ->
  crc_update c b = crc_update (Z.lxor c (Z.shiftl b 8)) 0.
Proof.
  intros Hc Hb. unfold is_byte in Hb.
  assert (Hhi : 0 <= Z.shiftr c 8 < 2 ^ 8) by (apply shiftr_bound; simpl; lia).
  assert (Hx : 0 <= Z.lxor (Z.shiftr c 8) b < 2 ^ 8)
    by (apply lxor_bound; simpl in *; lia).
  assert (E1 : u16 (Z.lxor (u16 (Z.shiftr (Z.lxor c (Z.shiftl b 8)) 8)) 0)
               = u16 (Z.lxor (u16 (Z.shiftr c 8)) b)).
  { rewrite Z.lxor_0_r, Z.shiftr_lxor, Z.shiftr_shiftl_l by lia.
    replace (8 - 8) with 0 by lia. rewrite Z.shiftl_0_r.
    rewrite (u16_small (Z.shiftr c 8)) by (simpl in Hhi; lia).
    rewrite !(u16_small (Z.lxor (Z.shiftr c 8) b)) by (simpl in Hx; lia).
    reflexivity. }
  assert (E2 : u16 (Z.shiftl (Z.lxor c (Z.shiftl b 8)) 8) = u16 (Z.shiftl c 8)).
  { apply Z.bits_inj'. intros i Hi. rewrite !u16_bits by lia.
    case_decide; [| reflexivity].
    rewrite Z.shiftl_lxor, Z.lxor_spec, Z.shiftl_shiftl by lia.
    rewrite (Z.shiftl_spec_low b) by lia. apply xorb_false_r. }
  unfold crc_update. rewrite E1, E2. reflexivity.
Qed.

Lemma absorb_range c b :
  0 <= c < 65536 -> is_byte b -> 0 <= Z.lxor c (Z.shiftl b 8) < 65536.
Proof.
  intros Hc Hb. unfold is_byte in Hb. change 65536 with (2 ^ 16).
  apply lxor_bound; [lia | simpl; lia |].
  pose proof (shiftl_bound b 8 8) as H. simpl in H |- *. lia.
Qed.

Lemma crc_step_back_correct c :
  0 <= c < 65536 -> crc_step_back (crc_update c 0) = c.
Proof.
  intros Hc.
  assert (Hall : holds_from (fun k => crc_step_back (crc_update k 0) =? k)
                            (Z.to_nat 65536) 0 = true)
    by (vm_compute; reflexivity).
  apply Z.eqb_eq.
  apply (holds_from_spec _ _ 0 Hall c). lia.
Qed.

(** A step is one-to-one in the state and in the byte. *)
Lemma crc_update_inj c1 b1 c2 b2 :
  0 <= c1 < 65536 -> 0 <= c2 < 65536 -> is_byte b1 -> is_byte b2 ->
  crc_update c1 b1 = crc_update c2 b2 ->
  Z.lxor c1 (Z.shiftl b1 8) = Z.lxor c2 (Z.shiftl b2 8).
Proof.
  intros Hc1 Hc2 Hb1 Hb2 Heq.
  rewrite (crc_update_absorb c1 b1), (crc_update_absorb c2 b2) in Heq by assumption.
  rewrite <- (crc_step_back_correct (Z.lxor c1 (Z.shiftl b1 8)))
    by (apply absorb_range; assumption).
  rewrite <- (crc_step_back_correct (Z.lxor c2 (Z.shiftl b2 8)))
    by (apply absorb_range; assumption).
  rewrite Heq. reflexivity.
Qed.

Lemma crc_update_inj_state c1 c2 b :
  0 <= c1 < 65536 -> 0 <= c2 < 65536 -> is_byte b ->
  crc_update c1 b = crc_update c2 b -> c1 = c2.
Proof.
  intros Hc1 Hc2 Hb Heq.
  pose proof (crc_update_inj c1 b c2 b Hc1 Hc2 Hb Hb Heq) as H.
  apply (f_equal (fun x => Z.lxor x (Z.shiftl b 8))) in H.
  rewrite !Z.lxor_assoc, Z.lxor_nilpotent, !Z.lxor_0_r in H. exact H.
Qed.

Lemma crc_update_inj_byte c b1 b2 :
  0 <= c < 65536 -> is_byte b1 -> is_byte b2 ->
  crc_update c b1 = crc_update c b2 -> b1 = b2.
Proof.
  intros Hc Hb1 Hb2 Heq.
  pose proof (crc_update_inj c b1 c b2 Hc Hc Hb1 Hb2 Heq) as H.
  apply (f_equal (Z.lxor c)) in H.
  rewrite <- !Z.lxor_assoc, Z.lxor_nilpotent, !Z.lxor_0_l in H.
  apply (f_equal (fun x => Z.shiftr x 8)) in H.
  rewrite !Z.shiftr_shiftl_l in H by lia.
  replace (8 - 8) with 0 in H by lia. rewrite !Z.shiftl_0_r in H. exact H.
Qed.

Lemma crc_fold_inj_state bytes : forall c1 c2,
  0 <= c1 < 65536 -> 0 <= c2 < 65536 -> Forall is_byte bytes ->
  fold_left crc_update bytes c1 = fold_left crc_update bytes c2 -> c1 = c2.
Proof.
  induction bytes as [| b bytes IH]; intros c1 c2 Hc1 Hc2 Hall Heq.
  - exact Heq.
  - inversion Hall as [| ? ? Hb Hrest]; subst. cbn [fold_left] in Heq.
    apply (crc_update_inj_state c1 c2 b Hc1 Hc2 Hb).
    apply (IH _ _ (crc_update_range c1 b) (crc_update_range c2 b) Hrest Heq).
Qed.

Lemma crc_single_byte_change (before after : list Z) (b1 b2 : Z) :
  Forall is_byte before -> Forall is_byte after ->
  is_byte b1 -> is_byte b2 -> b1 <> b2 ->
  lw_create_crc (before ++ b1 :: after)
                (Z.of_nat (length (before ++ b1 :: after)))
  <> lw_create_crc (before ++ b2 :: after)
                   (Z.of_nat (length (before ++ b2 :: after))).
Proof.
  intros Hbefore Hafter Hb1 Hb2 Hne. unfold lw_create_crc.
  rewrite !take_all_length, !fold_left_app. cbn [fold_left].
  set (c := fold_left crc_update before 0).
  assert (Hc : 0 <= c < 65536) by (apply crc_fold_range; lia).
  intros Heq. apply Hne.
  apply (crc_update_inj_byte c b1 b2 Hc Hb1 Hb2).
  apply (crc_fold_inj_state after _ _ (crc_update_range c b1)
           (crc_update_range c b2) Hafter Heq).
Qed.

(** X4: the checksum sees every single-byte change.  Two byte sequences of
    the same length that differ in exactly one position never have the same
    [lw_create_crc]. *)
Theorem crc_detects_single_byte_change (before after : list Z) (b1 b2 : Z) :
  Forall is_byte before -> Forall is_byte after ->
  is_byte b1 -> is_byte b2 -> b1 <> b2 ->
  lw_create_crc (before ++ b1 :: after)
                (Z.of_nat (length (before ++ b1 :: after)))
  <> lw_create_crc (before ++ b2 :: after)
                   (Z.of_nat (length (before ++ b2 :: after))).
Proof. apply crc_single_byte_change. Qed.

Lemma crc_detects_single_byte_change_witness :
  lw_create_crc ([0xAA; 0x40] ++ 0x00 :: [0x05]) 4
  <> lw_create_crc ([0xAA; 0x40] ++ 0x01 :: [0x05]) 4.
Proof.
  apply (crc_detects_single_byte_change [0xAA; 0x40] [0x05] 0x00 0x01).
  - repeat constructor; unfold is_byte; lia.
  - repeat constructor; unfold is_byte; lia.
  - unfold is_byte; lia.
  - unfold is_byte; lia.
  - discriminate.
Defined.

Lemma lw_create_packet_bytes command_id write payload data_size :
  is_byte command_id -> Forall is_byte payload ->
  Forall is_byte (lw_create_packet command_id write payload data_size).
Proof.
  intros Hcmd Hpay. unfold lw_create_packet.
  assert (Hu8 : forall x, is_byte (u8 x)) by (intros x; apply u8_range).
  assert (Hstart : is_byte LW_PACKET_START_BYTE)
    by (unfold is_byte, LW_PACKET_START_BYTE; lia).
  apply Forall_app. split.
  - apply Forall_app. split.
    + apply List.Forall_cons; [exact Hstart |]. apply List.Forall_cons; [apply Hu8 |].
      apply List.Forall_cons; [apply Hu8 |]. apply List.Forall_cons; [exact Hcmd |].
      apply List.Forall_nil.
    + apply Forall_take. exact Hpay.
  - apply List.Forall_cons; [apply Hu8 |]. apply List.Forall_cons; [apply Hu8 |].
    apply List.Forall_nil.
Qed.

(** X5: a packet with one wrong byte is never accepted.  Take a packet made
    by [lw_create_packet] and replace its command id or one payload byte by
    a different byte: fed to an initialised decoder, every byte answers
    [AGAIN] and the decoder ends in [START]. *)
Theorem decoder_rejects_corrupted_byte (LW : bool) (r0 : lw_response)
    (command_id write : Z) (payload : list Z) (i : nat) (b : Z) :
  wf_response LW r0 ->
  is_byte command_id -> Forall is_byte payload -> is_byte b ->
  1 <= Z.of_nat (length payload) + 1 <= LW_PACKET_RECV_SIZE LW - 5 ->
  let packet :=
    lw_create_packet command_id write payload (Z.of_nat (length payload)) in
  (3 <= i < 4 + length payload)%nat ->
  packet !! i <> Some b ->
  exists r',
    feed_all LW (lw_init_response r0) (<[i := b]> packet) =
      Some (repeat LW_RESULT_AGAIN (length packet), r') /\
    rsp_parse_state r' = LW_PARSESTATE_START.
Proof.
  intros Hwf Hcmd Hpay Hb Hsize packet Hi Hdiff.
  pose proof (recv_size_bounds LW) as Hrecv.
  pose proof (lw_create_packet_bytes command_id write payload
                (Z.of_nat (length payload)) Hcmd Hpay) as Hbytes.
  fold packet in Hbytes.
  destruct (lw_create_packet_frame command_id write payload ltac:(lia))
    as (lo & hi & c0 & c1 & Hpkt & Hdecl & Hcrc & _ & _).
  cbv zeta in Hpkt, Hcrc. fold packet in Hpkt.
  set (pre := [LW_PACKET_START_BYTE; lo; hi; command_id] ++ payload) in *.
  assert (Hlenpre : length pre = (4 + length payload)%nat)
    by (unfold pre; rewrite length_app; reflexivity).
  assert (Hprebytes : Forall is_byte pre).
  { rewrite Hpkt in Hbytes. apply Forall_app in Hbytes. tauto. }
  destruct (lookup_lt_is_Some_2 pre i ltac:(lia)) as [b1 Hb1].
  assert (Hne : b1 <> b).
  { intros ->. apply Hdiff. rewrite Hpkt. apply lookup_app_l_Some. exact Hb1. }
  assert (Hb1byte : is_byte b1)
    by (eapply Forall_lookup_1; [exact Hprebytes | exact Hb1]).
  assert (Hcrcne : fold_left crc_update pre 0
                   <> fold_left crc_update (<[i := b]> pre) 0).
  { pose proof (crc_single_byte_change (take i pre) (drop (S i) pre) b1 b
                  ltac:(apply Forall_take; exact Hprebytes)
                  ltac:(apply Forall_drop; exact Hprebytes)
                  Hb1byte Hb Hne) as Hd.
    unfold lw_create_crc in Hd. rewrite !take_all_length in Hd.
    rewrite (take_drop_middle pre i b1 Hb1) in Hd.
    rewrite <- (insert_take_drop pre i b) in Hd by lia. exact Hd. }
  assert (Hshape : exists cmd' payload',
            <[i := b]> pre = [LW_PACKET_START_BYTE; lo; hi; cmd'] ++ payload'
            /\ length payload' = length payload).
  { unfold pre. destruct i as [| [| [| j]]]; try lia. cbn.
    destruct j as [| j'].
    - exists b, payload. auto.
    - exists command_id, (<[j' := b]> payload). cbn.
      rewrite length_insert. auto. }
  destruct Hshape as (cmd' & payload' & Hpre' & Hlen').
  assert (Hpkt' : <[i := b]> packet
                  = ([LW_PACKET_START_BYTE; lo; hi; cmd'] ++ payload') ++ [c0; c1]).
  { rewrite Hpkt, insert_app_l by lia. rewrite Hpre'. reflexivity. }
  destruct (feed_frame LW (lw_init_response r0) lo hi cmd' payload' c0 c1
              Hwf eq_refl ltac:(rewrite Hlen'; exact Hdecl)
              ltac:(rewrite Hlen'; lia)) as (buf & _ & _ & Hfeed).
  rewrite <- Hpre' in Hfeed.
  rewrite bool_decide_eq_false_2 in Hfeed by (rewrite Hcrc; exact Hcrcne).
  rewrite Hpre' in Hfeed at 1. rewrite <- Hpkt' in Hfeed.
  match type of Hfeed with _ = Some (_, ?rr) => exists rr end.
  split; [| reflexivity]. rewrite Hfeed. do 2 f_equal.
  rewrite length_insert, Hlenpre, Hpkt, length_app, Hlenpre. cbn [length].
  replace (4 + length payload + 2)%nat with (4 + length payload + 1 + 1)%nat by lia.
  rewrite (repeat_app _ (4 + length payload + 1) 1). reflexivity.
Qed.

Lemma decoder_rejects_corrupted_byte_witness :
  exists r',
    feed_all false (lw_init_response (zero_response false))
             (<[5%nat := 3]> (lw_create_packet 44 0 [1; 2] 2)) =
      Some (repeat LW_RESULT_AGAIN (length (lw_create_packet 44 0 [1; 2] 2)), r') /\
    rsp_parse_state r' = LW_PARSESTATE_START.
Proof.
  apply (decoder_rejects_corrupted_byte false (zero_response false) 44 0 [1; 2]
           5%nat 3).
  - vm_compute. reflexivity.
  - unfold is_byte. lia.
  - apply List.Forall_cons; [unfold is_byte; lia |].
    apply List.Forall_cons; [unfold is_byte; lia | apply List.Forall_nil].
  - unfold is_byte. lia.
  - vm_compute. split; discriminate.
  - cbn. lia.
  - vm_compute. discriminate.
Defined.

(** ** Typed values on the wire *)

Lemma le_bytes_length n : forall v, length (le_bytes n v) = n.
Proof. induction n as [| n IH]; intros v; cbn; [| rewrite IH]; reflexivity. Qed.

Lemma le_value_le_bytes n : forall v,
  le_value (le_bytes n v) = v mod 2 ^ (8 * Z.of_nat n).
Proof.
  induction n as [| n IH]; intros v.
  - cbn. rewrite Z.mod_1_r. reflexivity.
  - cbn [le_bytes le_value]. rewrite IH. unfold u8. change 256 with (2 ^ 8).
    apply Z.bits_inj'. intros i Hi. rewrite Z.lor_spec.
    destruct (decide (i < 8)) as [Hlo | Hhi].
    + rewrite Z.mod_pow2_bits_low by lia.
      rewrite Z.shiftl_spec_low by lia.
      rewrite (Z.mod_pow2_bits_low v (8 * Z.of_nat (S n))) by lia.
      apply orb_false_r.
    + rewrite (Z.mod_pow2_bits_high v 8) by lia.
      rewrite Z.shiftl_spec by lia. cbn [orb].
      destruct (decide (i < 8 * Z.of_nat (S n))) as [Hin | Hout].
      * rewrite !Z.mod_pow2_bits_low by lia.
        rewrite Z.shiftr_spec by lia. f_equal. lia.
      * rewrite !Z.mod_pow2_bits_high by lia. reflexivity.
Qed.

Lemma le_value_unsigned n v :
  0 <= v < 2 ^ (8 * Z.of_nat n) -> le_value (le_bytes n v) = v.
Proof. intros H. rewrite le_value_le_bytes. apply Z.mod_small. exact H. Qed.

Lemma le_value_signed n v :
  (0 < n)%nat ->
  - 2 ^ (8 * Z.of_nat n - 1) <= v < 2 ^ (8 * Z.of_nat n - 1) ->
  to_signed (8 * Z.of_nat n) (le_value (le_bytes n v)) = v.
Proof.
  intros Hn Hv. rewrite le_value_le_bytes. unfold to_signed.
  set (w := 8 * Z.of_nat n) in *.
  assert (Hpow : 2 ^ w = 2 * 2 ^ (w - 1)).
  { rewrite <- Z.pow_succ_r by lia. f_equal. lia. }
  assert (Hpos : 0 < 2 ^ (w - 1)) by (apply Z.pow_pos_nonneg; lia).
  destruct (decide (0 <= v)) as [Hnn | Hneg].
  - rewrite Z.mod_small by lia. rewrite decide_True by lia. reflexivity.
  - assert (Hm : v mod 2 ^ w = v + 2 ^ w).
    { symmetry. apply (Z.mod_unique v (2 ^ w) (-1)); lia. }
    rewrite Hm. rewrite decide_False by lia. lia.
Qed.

(** X6: the three fields [lw_expand_firmware_version] extracts are bytes,
    and together they are the low 24 bits of the version word: major in bits
    16 to 23, minor in bits 8 to 15, patch in bits 0 to 7.  The top byte of
    the word takes no part. *)
Theorem firmware_version_fields (version : Z) :
  let fv := lw_expand_firmware_version version in
  0 <= major fv < 256 /\ 0 <= minor fv < 256 /\ 0 <= patch fv < 256 /\
  major fv * 65536 + minor fv * 256 + patch fv = version mod 2 ^ 24 /\
  lw_expand_firmware_version (version mod 2 ^ 24) = fv.
Proof.
  cbv zeta. unfold lw_expand_firmware_version. cbn [major minor patch].
  change 0xFF with (Z.ones 8). rewrite !Z.land_ones by lia.
  rewrite !Z.shiftr_div_pow2 by lia.
  change (2 ^ 24) with 16777216. change (2 ^ 16) with 65536.
  change (2 ^ 8) with 256. change (2 ^ 0) with 1.
  assert (H16 : (version mod 16777216 / 65536) mod 256 = (version / 65536) mod 256).
  { Z.div_mod_to_equations. lia. }
  assert (H8 : (version mod 16777216 / 256) mod 256 = (version / 256) mod 256).
  { Z.div_mod_to_equations. lia. }
  assert (H0 : (version mod 16777216 / 1) mod 256 = (version / 1) mod 256).
  { Z.div_mod_to_equations. lia. }
  rewrite H16, H8, H0.
  repeat match goal with |- _ /\ _ => split end; try reflexivity;
    Z.div_mod_to_equations; lia.
Qed.

Lemma lw_create_packet_length command_id write (payload : list Z) :
  Z.of_nat (length payload) <= 1024 ->
  length (lw_create_packet command_id write payload (Z.of_nat (length payload)))
    = (6 + length payload)%nat.
Proof.
  intros Hn. unfold lw_create_packet. cbv zeta.
  rewrite !length_app. cbn [length]. rewrite Nat2Z.id, firstn_all. lia.
Qed.

(** A request written from a payload, sent, and decoded: the decoder
    completes on the last byte and the payload is found at offset 0. *)
Lemma write_round_trip LW r request command_id (payload : list Z) :
  wf_response LW r ->
  rsp_parse_state r = LW_PARSESTATE_START
    \/ rsp_parse_state r = LW_PARSESTATE_DONE ->
  1 + Z.of_nat (length payload) <= LW_PACKET_RECV_SIZE LW - 5 ->
  let n := Z.of_nat (length payload) in
  let q := request_store request command_id
             (lw_create_packet command_id 1 payload n) (u32 (6 + n)) in
  exists r',
    feed_all LW r (sent_bytes q) =
      Some (repeat LW_RESULT_AGAIN (5 + length payload) ++ [LW_RESULT_SUCCESS], r')
    /\ sent_bytes q = lw_create_packet command_id 1 payload n
    /\ req_command_id q = command_id
    /\ rsp_parse_state r' = LW_PARSESTATE_DONE
    /\ rsp_command_id r' = command_id
    /\ wf_response LW r'
    /\ parse_bytes r' n 0 = Some payload.
Proof.
  intros Hwf Hst Hsize n q. pose proof (recv_size_bounds LW) as Hb.
  destruct (decode_created_packet LW r command_id 1 payload Hwf Hst Hsize)
    as (r' & Hfeed & Hlen & Hdone & Hid & _ & _ & _ & Hwf' & Hparse).
  fold n in Hfeed, Hlen, Hparse.
  assert (Hsent : sent_bytes q = lw_create_packet command_id 1 payload n).
  { unfold sent_bytes, q, request_store, lw_init_request.
    cbn [req_data req_data_size].
    rewrite u32_small by (unfold n; lia).
    replace (Z.to_nat (6 + n))
      with (length (lw_create_packet command_id 1 payload n))
      by (rewrite Hlen; unfold n; lia).
    apply take_app_length. }
  exists r'. rewrite Hsent.
  split; [| split; [reflexivity | split; [reflexivity |
          split; [exact Hdone | split; [exact Hid | split; [exact Hwf' |]]]]]].
  - rewrite Hfeed, Hlen. repeat f_equal; lia.
  - unfold parse_bytes. rewrite decide_True; [rewrite Hparse; reflexivity |].
    red in Hwf'. rewrite Hwf'. change (u32 (4 + 0)) with 4. unfold n. lia.
Qed.

Section TypedRoundTrip.

Variable LW : bool.
Variables (r : lw_response) (request : lw_request) (command_id : Z).
Hypothesis Hwf : wf_response LW r.
Hypothesis Hst :
  rsp_parse_state r = LW_PARSESTATE_START
    \/ rsp_parse_state r = LW_PARSESTATE_DONE.

Lemma write_le_round_trip (k : nat) (v : Z) :
  (k <= 4)%nat ->
  let q := request_store request command_id
             (lw_create_packet command_id 1 (le_bytes k v) (Z.of_nat k))
             (u32 (6 + Z.of_nat k)) in
  exists r',
    feed_all LW r (sent_bytes q) =
      Some (repeat LW_RESULT_AGAIN (5 + k) ++ [LW_RESULT_SUCCESS], r')
    /\ rsp_command_id r' = command_id
    /\ parse_bytes r' (Z.of_nat k) 0 = Some (le_bytes k v).
Proof.
  intros Hk. pose proof (recv_size_bounds LW) as Hb.
  pose proof (write_round_trip LW r request command_id (le_bytes k v) Hwf Hst) as H.
  rewrite le_bytes_length in H. specialize (H ltac:(lia)). cbv zeta in H.
  destruct H as (r' & Hfeed & _ & _ & _ & Hid & _ & Hparse).
  exists r'. auto.
Qed.

End TypedRoundTrip.

(** X7: an unsigned value written by [lw_create_request_write_uint8],
    [_uint16] or [_uint32], sent, and fed to a decoder that is at its start
    (or has just completed a packet) is accepted on the last byte with the
    command id of the request, and [lw_parse_response_uint8], [_uint16] or
    [_uint32] at offset 0 returns the value written. *)
Theorem unsigned_write_round_trip (LW : bool) r request (command_id value : Z) :
  wf_response LW r ->
  rsp_parse_state r = LW_PARSESTATE_START
    \/ rsp_parse_state r = LW_PARSESTATE_DONE ->
  (0 <= value < 2 ^ 8 ->
   exists r',
     feed_all LW r (sent_bytes (lw_create_request_write_uint8 request command_id value))
       = Some (repeat LW_RESULT_AGAIN 6 ++ [LW_RESULT_SUCCESS], r')
     /\ rsp_command_id r' = command_id
     /\ lw_parse_response_uint8 r' 0 = Some value) /\
  (0 <= value < 2 ^ 16 ->
   exists r',
     feed_all LW r (sent_bytes (lw_create_request_write_uint16 request command_id value))
       = Some (repeat LW_RESULT_AGAIN 7 ++ [LW_RESULT_SUCCESS], r')
     /\ rsp_command_id r' = command_id
     /\ lw_parse_response_uint16 r' 0 = Some value) /\
  (0 <= value < 2 ^ 32 ->
   exists r',
     feed_all LW r (sent_bytes (lw_create_request_write_uint32 request command_id value))
       = Some (repeat LW_RESULT_AGAIN 9 ++ [LW_RESULT_SUCCESS], r')
     /\ rsp_command_id r' = command_id
     /\ lw_parse_response_uint32 r' 0 = Some value).
Proof.
  intros Hwf Hst. split; [| split]; intros Hv.
  - destruct (write_le_round_trip LW r request command_id Hwf Hst 1 value ltac:(lia))
      as (r' & Hfeed & Hid & Hparse).
    exists r'. split; [exact Hfeed | split; [exact Hid |]].
    unfold lw_parse_response_uint8. change 1 with (Z.of_nat 1). rewrite Hparse.
    cbn [mbind option_bind]. rewrite le_value_unsigned by exact Hv. reflexivity.
  - destruct (write_le_round_trip LW r request command_id Hwf Hst 2 value ltac:(lia))
      as (r' & Hfeed & Hid & Hparse).
    exists r'. split; [exact Hfeed | split; [exact Hid |]].
    unfold lw_parse_response_uint16. change 2 with (Z.of_nat 2). rewrite Hparse.
    cbn [mbind option_bind]. rewrite le_value_unsigned by exact Hv. reflexivity.
  - destruct (write_le_round_trip LW r request command_id Hwf Hst 4 value ltac:(lia))
      as (r' & Hfeed & Hid & Hparse).
    exists r'. split; [exact Hfeed | split; [exact Hid |]].
    unfold lw_parse_response_uint32. change 4 with (Z.of_nat 4). rewrite Hparse.
    cbn [mbind option_bind]. rewrite le_value_unsigned by exact Hv. reflexivity.
Qed.

Lemma unsigned_write_round_trip_witness :
  exists r',
    feed_all false (lw_init_response (zero_response false))
      (sent_bytes (lw_create_request_write_uint32
                     (mk_request (repeat 0 160%nat) 0 0) 74 305419896))
      = Some (repeat LW_RESULT_AGAIN 9 ++ [LW_RESULT_SUCCESS], r')
    /\ rsp_command_id r' = 74
    /\ lw_parse_response_uint32 r' 0 = Some 305419896.
Proof.
  destruct (unsigned_write_round_trip false (lw_init_response (zero_response false))
              (mk_request (repeat 0 160%nat) 0 0) 74 305419896
              (zero_response_wf false) (or_introl eq_refl)) as (_ & _ & H32).
  apply H32. lia.
Defined.

(** X8: a signed value written by [lw_create_request_write_int8], [_int16]
    or [_int32] comes back from [lw_parse_response_int8], [_int16] or
    [_int32] after the same journey, negative values included. *)
Theorem signed_write_round_trip (LW : bool) r request (command_id value : Z) :
  wf_response LW r ->
  rsp_parse_state r = LW_PARSESTATE_START
    \/ rsp_parse_state r = LW_PARSESTATE_DONE ->
  (- 2 ^ 7 <= value < 2 ^ 7 ->
   exists r',
     feed_all LW r (sent_bytes (lw_create_request_write_int8 request command_id value))
       = Some (repeat LW_RESULT_AGAIN 6 ++ [LW_RESULT_SUCCESS], r')
     /\ rsp_command_id r' = command_id
     /\ lw_parse_response_int8 r' 0 = Some value) /\
  (- 2 ^ 15 <= value < 2 ^ 15 ->
   exists r',
     feed_all LW r (sent_bytes (lw_create_request_write_int16 request command_id value))
       = Some (repeat LW_RESULT_AGAIN 7 ++ [LW_RESULT_SUCCESS], r')
     /\ rsp_command_id r' = command_id
     /\ lw_parse_response_int16 r' 0 = Some value) /\
  (- 2 ^ 31 <= value < 2 ^ 31 ->
   exists r',
     feed_all LW r (sent_bytes (lw_create_request_write_int32 request command_id value))
       = Some (repeat LW_RESULT_AGAIN 9 ++ [LW_RESULT_SUCCESS], r')
     /\ rsp_command_id r' = command_id
     /\ lw_parse_response_int32 r' 0 = Some value).
Proof.
  intros Hwf Hst. split; [| split]; intros Hv.
  - destruct (write_le_round_trip LW r request command_id Hwf Hst 1 value ltac:(lia))
      as (r' & Hfeed & Hid & Hparse).
    exists r'. split; [exact Hfeed | split; [exact Hid |]].
    unfold lw_parse_response_int8. change 1 with (Z.of_nat 1). rewrite Hparse.
    cbn [mbind option_bind]. f_equal.
    apply (le_value_signed 1 value); [lia | exact Hv].
  - destruct (write_le_round_trip LW r request command_id Hwf Hst 2 value ltac:(lia))
      as (r' & Hfeed & Hid & Hparse).
    exists r'. split; [exact Hfeed | split; [exact Hid |]].
    unfold lw_parse_response_int16. change 2 with (Z.of_nat 2). rewrite Hparse.
    cbn [mbind option_bind]. f_equal.
    apply (le_value_signed 2 value); [lia | exact Hv].
  - destruct (write_le_round_trip LW r request command_id Hwf Hst 4 value ltac:(lia))
      as (r' & Hfeed & Hid & Hparse).
    exists r'. split; [exact Hfeed | split; [exact Hid |]].
    unfold lw_parse_response_int32. change 4 with (Z.of_nat 4). rewrite Hparse.
    cbn [mbind option_bind]. f_equal.
    apply (le_value_signed 4 value); [lia | exact Hv].
Qed.

Lemma signed_write_round_trip_witness :
  exists r',
    feed_all false (lw_init_response (zero_response false))
      (sent_bytes (lw_create_request_write_int16
                     (mk_request (repeat 0 160%nat) 0 0) 114 (-1234)))
      = Some (repeat LW_RESULT_AGAIN 7 ++ [LW_RESULT_SUCCESS], r')
    /\ rsp_command_id r' = 114
    /\ lw_parse_response_int16 r' 0 = Some (-1234).
Proof.
  destruct (signed_write_round_trip false (lw_init_response (zero_response false))
              (mk_request (repeat 0 160%nat) 0 0) 114 (-1234)
              (zero_response_wf false) (or_introl eq_refl)) as (_ & H16 & _).
  apply H16. lia.
Defined.

(** X9: a block of bytes written by [lw_create_request_write_data] into a
    160-byte request buffer fits when it has at most 154 bytes; sent and fed
    to a decoder whose buffer can take it, it is accepted, and
    [lw_parse_response_data] returns the block.  The same holds of the 16
    bytes [lw_create_request_write_string] sends and
    [lw_parse_response_string] reads. *)
Theorem data_write_round_trip (LW : bool) r request command_id (data : list Z) :
  Z.of_nat (length (req_data request)) = LW_PACKET_SEND_SIZE ->
  wf_response LW r ->
  rsp_parse_state r = LW_PARSESTATE_START
    \/ rsp_parse_state r = LW_PARSESTATE_DONE ->
  let n := Z.of_nat (length data) in
  n <= 154 ->
  1 + n <= LW_PACKET_RECV_SIZE LW - 5 ->
  (exists q r',
     lw_create_request_write_data request command_id data n = Some q
     /\ Z.of_nat (length (req_data q)) = LW_PACKET_SEND_SIZE
     /\ req_data_size q = 6 + n
     /\ feed_all LW r (sent_bytes q) =
          Some (repeat LW_RESULT_AGAIN (5 + length data) ++ [LW_RESULT_SUCCESS], r')
     /\ rsp_command_id r' = command_id
     /\ lw_parse_response_data r' n 0 = Some data) /\
  (n = 16 ->
   exists q r',
     lw_create_request_write_string request command_id data = Some q
     /\ feed_all LW r (sent_bytes q) =
          Some (repeat LW_RESULT_AGAIN 21 ++ [LW_RESULT_SUCCESS], r')
     /\ rsp_command_id r' = command_id
     /\ lw_parse_response_string r' 0 = Some data).
Proof.
  intros Hbuf Hwf Hst n Hfit Hrecv. unfold LW_PACKET_SEND_SIZE in Hbuf.
  destruct (write_round_trip LW r request command_id data Hwf Hst Hrecv)
    as (r' & Hfeed & Hsent & _ & _ & Hid & _ & Hparse).
  fold n in Hfeed, Hsent, Hparse.
  assert (Hq : lw_create_request_write_data request command_id data n =
               Some (request_store request command_id
                       (lw_create_packet command_id 1 data n) (u32 (6 + n)))).
  { unfold lw_create_request_write_data. rewrite decide_True; [reflexivity |].
    unfold n. lia. }
  split.
  - eexists. exists r'. split; [exact Hq |].
    split; [| split; [| split; [exact Hfeed | split; [exact Hid | exact Hparse]]]].
    + unfold request_store, lw_init_request, LW_PACKET_SEND_SIZE.
      cbn [req_data]. rewrite length_app, length_drop.
      unfold n. rewrite lw_create_packet_length by lia. lia.
    + unfold request_store, lw_init_request. cbn [req_data_size].
      apply u32_small. unfold n. lia.
  - intros H16. eexists. exists r'. unfold lw_create_request_write_string.
    rewrite <- H16. split; [exact Hq |].
    split; [| split; [exact Hid |]].
    + rewrite Hfeed. repeat f_equal. unfold n in H16. lia.
    + unfold lw_parse_response_string. rewrite <- H16. exact Hparse.
Qed.

Lemma data_write_round_trip_witness :
  exists q r',
    lw_create_request_write_data (mk_request (repeat 0 160%nat) 0 0) 9
      [1; 2; 3; 4; 5] 5 = Some q
    /\ Z.of_nat (length (req_data q)) = LW_PACKET_SEND_SIZE
    /\ req_data_size q = 6 + 5
    /\ feed_all false (lw_init_response (zero_response false)) (sent_bytes q) =
         Some (repeat LW_RESULT_AGAIN 10 ++ [LW_RESULT_SUCCESS], r')
    /\ rsp_command_id r' = 9
    /\ lw_parse_response_data r' 5 0 = Some [1; 2; 3; 4; 5].
Proof.
  destruct (data_write_round_trip false (lw_init_response (zero_response false))
              (mk_request (repeat 0 160%nat) 0 0) 9 [1; 2; 3; 4; 5]
              eq_refl (zero_response_wf false) (or_introl eq_refl)
              ltac:(cbn; lia) ltac:(cbn; lia)) as [H _].
  exact H.
Defined.

(** ** The command catalog *)

Section Catalog.

Variable LW : bool.
Variables (r : lw_response) (request : lw_request).
Hypothesis Hwf : wf_response LW r.
Hypothesis Hst :
  rsp_parse_state r = LW_PARSESTATE_START
    \/ rsp_parse_state r = LW_PARSESTATE_DONE.

Lemma uint32_decodes command_id v :
  0 <= v < 2 ^ 32 ->
  exists r',
    feed_all LW r (sent_bytes (lw_create_request_write_uint32 request command_id v))
      = Some (repeat LW_RESULT_AGAIN 9 ++ [LW_RESULT_SUCCESS], r')
    /\ rsp_command_id r' = command_id
    /\ lw_parse_response_uint32 r' 0 = Some v.
Proof.
  intros Hv.
  destruct (write_le_round_trip LW r request command_id Hwf Hst 4 v ltac:(lia))
    as (r' & Hfeed & Hid & Hparse).
  exists r'. split; [exact Hfeed | split; [exact Hid |]].
  unfold lw_parse_response_uint32. change 4 with (Z.of_nat 4). rewrite Hparse.
  cbn [mbind option_bind]. rewrite le_value_unsigned by exact Hv. reflexivity.
Qed.

Lemma uint16_decodes command_id v :
  0 <= v < 2 ^ 16 ->
  exists r',
    feed_all LW r (sent_bytes (lw_create_request_write_uint16 request command_id v))
      = Some (repeat LW_RESULT_AGAIN 7 ++ [LW_RESULT_SUCCESS], r')
    /\ rsp_command_id r' = command_id
    /\ lw_parse_response_uint16 r' 0 = Some v.
Proof.
  intros Hv.
  destruct (write_le_round_trip LW r request command_id Hwf Hst 2 v ltac:(lia))
    as (r' & Hfeed & Hid & Hparse).
  exists r'. split; [exact Hfeed | split; [exact Hid |]].
  unfold lw_parse_response_uint16. change 2 with (Z.of_nat 2). rewrite Hparse.
  cbn [mbind option_bind]. rewrite le_value_unsigned by exact Hv. reflexivity.
Qed.

Lemma uint8_decodes command_id v :
  0 <= v < 2 ^ 8 ->
  exists r',
    feed_all LW r (sent_bytes (lw_create_request_write_uint8 request command_id v))
      = Some (repeat LW_RESULT_AGAIN 6 ++ [LW_RESULT_SUCCESS], r')
    /\ rsp_command_id r' = command_id
    /\ lw_parse_response_uint8 r' 0 = Some v.
Proof.
  intros Hv.
  destruct (write_le_round_trip LW r request command_id Hwf Hst 1 v ltac:(lia))
    as (r' & Hfeed & Hid & Hparse).
  exists r'. split; [exact Hfeed | split; [exact Hid |]].
  unfold lw_parse_response_uint8. change 1 with (Z.of_nat 1). rewrite Hparse.
  cbn [mbind option_bind]. rewrite le_value_unsigned by exact Hv. reflexivity.
Qed.

Lemma int32_decodes command_id v :
  - 2 ^ 31 <= v < 2 ^ 31 ->
  exists r',
    feed_all LW r (sent_bytes (lw_create_request_write_int32 request command_id v))
      = Some (repeat LW_RESULT_AGAIN 9 ++ [LW_RESULT_SUCCESS], r')
    /\ rsp_command_id r' = command_id
    /\ lw_parse_response_int32 r' 0 = Some v.
Proof.
  intros Hv.
  destruct (write_le_round_trip LW r request command_id Hwf Hst 4 v ltac:(lia))
    as (r' & Hfeed & Hid & Hparse).
  exists r'. split; [exact Hfeed | split; [exact Hid |]].
  unfold lw_parse_response_int32. change 4 with (Z.of_nat 4). rewrite Hparse.
  cbn [mbind option_bind]. f_equal.
  apply (le_value_signed 4 v); [lia | exact Hv].
Qed.

End Catalog.

(** A generator of the catalog that checks a condition and then writes a
    [uint32_t]. *)
Ltac catalog_uint32 LW r request Hwf Hst cmd v :=
  let r' := fresh "r'" in
  let Hfeed := fresh "Hfeed" in
  let Hid := fresh "Hid" in
  let Hparse := fresh "Hparse" in
  destruct (uint32_decodes LW r request Hwf Hst cmd v ltac:(lia))
    as (r' & Hfeed & Hid & Hparse);
  exists r'; cbn [fst snd];
  split; [reflexivity |];
  split; [reflexivity |];
  split; [exact Hfeed |];
  rewrite decide_False by (rewrite Hid; intros Hne; apply Hne; reflexivity);
  rewrite Hparse; reflexivity.

(** X10: the six catalog parameters that are sent as a 32-bit count
    (update rate 1..50, lost-signal counter 1..250, GPIO alarm confirm
    count 0..1000, median filter size 3..32, smoothing factor 1..99,
    rolling average size 2..32).  A value outside the range is answered
    [INVALID_PARAMETER] and the request is left as it was; a value inside
    is written under the parameter's command id, and what the generator
    sends is what the matching response parser reads back. *)
Theorem ranged_parameter_round_trip (LW : bool) r request create parse
    (cmd lo hi value out : Z) :
  (create, parse, cmd, lo, hi) ∈ ranged_parameters ->
  wf_response LW r ->
  rsp_parse_state r = LW_PARSESTATE_START
    \/ rsp_parse_state r = LW_PARSESTATE_DONE ->
  0 <= value < 2 ^ 32 ->
  (~ lo <= value <= hi ->
   create request value = (LW_RESULT_INVALID_PARAMETER, request)) /\
  (lo <= value <= hi ->
   exists r',
     fst (create request value) = LW_RESULT_SUCCESS
     /\ req_command_id (snd (create request value)) = cmd
     /\ feed_all LW r (sent_bytes (snd (create request value)))
          = Some (repeat LW_RESULT_AGAIN 9 ++ [LW_RESULT_SUCCESS], r')
     /\ parse r' out = Some (LW_RESULT_SUCCESS, value)).
Proof.
  intros Hin Hwf Hst Hv. unfold ranged_parameters in Hin.
  repeat (apply elem_of_cons in Hin as [Hin | Hin];
          [injection Hin as -> -> -> -> -> |]);
    [.. | apply elem_of_nil in Hin; contradiction].
  - unfold lw_grf250_create_request_write_update_rate,
      lw_grf250_parse_response_update_rate. split; intros Hr.
    + rewrite decide_True by lia. reflexivity.
    + rewrite decide_False by lia.
      catalog_uint32 LW r request Hwf Hst LW_GRF250_COMMAND_UPDATE_RATE value.
  - unfold lw_grf250_create_request_write_lost_signal_counter,
      lw_grf250_parse_response_lost_signal_counter. split; intros Hr.
    + rewrite decide_True by lia. reflexivity.
    + rewrite decide_False by lia.
      catalog_uint32 LW r request Hwf Hst LW_GRF250_COMMAND_LOST_SIGNAL_COUNTER value.
  - unfold lw_grf250_create_request_write_gpio_alarm_confirm_count,
      lw_grf250_parse_response_gpio_alarm_confirm_count. split; intros Hr.
    + rewrite decide_True by lia. reflexivity.
    + rewrite decide_False by lia.
      catalog_uint32 LW r request Hwf Hst
        LW_GRF250_COMMAND_GPIO_ALARM_CONFIRM_COUNT value.
  - unfold lw_grf250_create_request_write_median_filter_size,
      lw_grf250_parse_response_median_filter_size. split; intros Hr.
    + rewrite decide_True by lia. reflexivity.
    + rewrite decide_False by lia.
      catalog_uint32 LW r request Hwf Hst LW_GRF250_COMMAND_MEDIAN_FILTER_SIZE value.
  - unfold lw_grf250_create_request_write_smooth_filter_factor,
      lw_grf250_parse_response_smooth_filter_factor. split; intros Hr.
    + rewrite decide_True by lia. reflexivity.
    + rewrite decide_False by lia.
      catalog_uint32 LW r request Hwf Hst LW_GRF250_COMMAND_SMOOTH_FILTER_FACTOR value.
  - unfold lw_grf250_create_request_write_rolling_average_size,
      lw_grf250_parse_response_rolling_average_size. split; intros Hr.
    + rewrite decide_True by lia. reflexivity.
    + rewrite decide_False by lia.
      catalog_uint32 LW r request Hwf Hst LW_GRF250_COMMAND_ROLLING_AVERAGE_SIZE value.
Qed.

Lemma ranged_parameter_round_trip_witness :
  lw_grf250_create_request_write_update_rate (mk_request (repeat 0 160%nat) 0 0) 51
    = (LW_RESULT_INVALID_PARAMETER, mk_request (repeat 0 160%nat) 0 0).
Proof.
  destruct (ranged_parameter_round_trip false (lw_init_response (zero_response false))
              (mk_request (repeat 0 160%nat) 0 0)
              lw_grf250_create_request_write_update_rate
              lw_grf250_parse_response_update_rate
              LW_GRF250_COMMAND_UPDATE_RATE 1 50 51 0
              ltac:(apply list_elem_of_here)
              (zero_response_wf false) (or_introl eq_refl) ltac:(lia)) as [H _].
  apply H. lia.
Defined.

Ltac catalog_scaled LW r request Hwf Hst cmd v :=
  let r' := fresh "r'" in
  let Hfeed := fresh "Hfeed" in
  let Hid := fresh "Hid" in
  let Hparse := fresh "Hparse" in
  destruct (uint32_decodes LW r request Hwf Hst cmd (v / 10)
              ltac:(Z.div_mod_to_equations; lia))
    as (r' & Hfeed & Hid & Hparse);
  exists r'; cbn [fst snd];
  split; [reflexivity |];
  split; [reflexivity |];
  split; [exact Hfeed |];
  split; [| Z.div_mod_to_equations; lia];
  rewrite decide_False by (rewrite Hid; intros Hne; apply Hne; reflexivity);
  rewrite Hparse; cbn [mbind option_bind];
  rewrite u32_small by (Z.div_mod_to_equations; lia);
  do 2 f_equal; lia.

(** X11: the two alarm distances (at most 30000 cm) and the alarm
    hysteresis (at most 3000 cm) are sent divided by 10 and multiplied by 10
    when read, so the value read back is the value written rounded down to
    a multiple of 10 cm: never more than it, and less than 10 cm below.  A
    larger value is answered [INVALID_PARAMETER] and the request is left as
    it was. *)
Theorem scaled_parameter_round_trip (LW : bool) r request create parse
    (cmd top value out : Z) :
  (create, parse, cmd, top) ∈ scaled_parameters ->
  wf_response LW r ->
  rsp_parse_state r = LW_PARSESTATE_START
    \/ rsp_parse_state r = LW_PARSESTATE_DONE ->
  0 <= value < 2 ^ 32 ->
  (top < value ->
   create request value = (LW_RESULT_INVALID_PARAMETER, request)) /\
  (value <= top ->
   exists r',
     fst (create request value) = LW_RESULT_SUCCESS
     /\ req_command_id (snd (create request value)) = cmd
     /\ feed_all LW r (sent_bytes (snd (create request value)))
          = Some (repeat LW_RESULT_AGAIN 9 ++ [LW_RESULT_SUCCESS], r')
     /\ parse r' out = Some (LW_RESULT_SUCCESS, 10 * (value / 10))
     /\ value - 9 <= 10 * (value / 10) <= value).
Proof.
  intros Hin Hwf Hst Hv. unfold scaled_parameters in Hin.
  repeat (apply elem_of_cons in Hin as [Hin | Hin];
          [injection Hin as -> -> -> -> |]);
    [.. | apply elem_of_nil in Hin; contradiction].
  - unfold lw_grf250_create_request_write_alarm_a_distance,
      lw_grf250_parse_response_alarm_a_distance. split; intros Hr.
    + rewrite decide_True by lia. reflexivity.
    + rewrite decide_False by lia.
      catalog_scaled LW r request Hwf Hst LW_GRF250_COMMAND_ALARM_A_DISTANCE value.
  - unfold lw_grf250_create_request_write_alarm_b_distance,
      lw_grf250_parse_response_alarm_b_distance. split; intros Hr.
    + rewrite decide_True by lia. reflexivity.
    + rewrite decide_False by lia.
      catalog_scaled LW r request Hwf Hst LW_GRF250_COMMAND_ALARM_B_DISTANCE value.
  - unfold lw_grf250_create_request_write_alarm_hysteresis,
      lw_grf250_parse_response_alarm_hysteresis. split; intros Hr.
    + rewrite decide_True by lia. reflexivity.
    + rewrite decide_False by lia.
      catalog_scaled LW r request Hwf Hst LW_GRF250_COMMAND_ALARM_HYSTERESIS value.
Qed.

Lemma scaled_parameter_round_trip_witness :
  exists r',
    fst (lw_grf250_create_request_write_alarm_a_distance
           (mk_request (repeat 0 160%nat) 0 0) 1234) = LW_RESULT_SUCCESS
    /\ req_command_id
         (snd (lw_grf250_create_request_write_alarm_a_distance
                 (mk_request (repeat 0 160%nat) 0 0) 1234))
       = LW_GRF250_COMMAND_ALARM_A_DISTANCE
    /\ feed_all false (lw_init_response (zero_response false))
         (sent_bytes
            (snd (lw_grf250_create_request_write_alarm_a_distance
                    (mk_request (repeat 0 160%nat) 0 0) 1234)))
       = Some (repeat LW_RESULT_AGAIN 9 ++ [LW_RESULT_SUCCESS], r')
    /\ lw_grf250_parse_response_alarm_a_distance r' 0
       = Some (LW_RESULT_SUCCESS, 10 * (1234 / 10))
    /\ 1234 - 9 <= 10 * (1234 / 10) <= 1234.
Proof.
  destruct (scaled_parameter_round_trip false (lw_init_response (zero_response false))
              (mk_request (repeat 0 160%nat) 0 0)
              lw_grf250_create_request_write_alarm_a_distance
              lw_grf250_parse_response_alarm_a_distance
              LW_GRF250_COMMAND_ALARM_A_DISTANCE 30000 1234 0
              ltac:(apply list_elem_of_here)
              (zero_response_wf false) (or_introl eq_refl) ltac:(lia)) as [_ H].
  apply H. lia.
Defined.

(** X12: the zero offset is accepted between -1000 and 1000 cm, sent
    divided by 10 with the quotient truncated toward zero, and multiplied by
    10 when read: the value read back is the value written rounded toward
    zero to a multiple of 10 cm (so -15 reads back as -10 and 15 as 10), and
    the multiplication stays inside [int32_t].  A value outside the range
    is answered [INVALID_PARAMETER] and the request is left as it was. *)
Theorem zero_offset_round_trip (LW : bool) r request (offset_cm out : Z) :
  wf_response LW r ->
  rsp_parse_state r = LW_PARSESTATE_START
    \/ rsp_parse_state r = LW_PARSESTATE_DONE ->
  (offset_cm < -1000 \/ 1000 < offset_cm ->
   lw_grf250_create_request_write_zero_offset request offset_cm
     = (LW_RESULT_INVALID_PARAMETER, request)) /\
  (-1000 <= offset_cm <= 1000 ->
   exists q r',
     lw_grf250_create_request_write_zero_offset request offset_cm
       = (LW_RESULT_SUCCESS, q)
     /\ req_command_id q = LW_GRF250_COMMAND_ZERO_OFFSET
     /\ feed_all LW r (sent_bytes q)
          = Some (repeat LW_RESULT_AGAIN 9 ++ [LW_RESULT_SUCCESS], r')
     /\ lw_grf250_parse_response_zero_offset r' out
          = Some (LW_RESULT_SUCCESS, 10 * Z.quot offset_cm 10)
     /\ Z.abs (10 * Z.quot offset_cm 10) <= Z.abs offset_cm
     /\ Z.abs (offset_cm - 10 * Z.quot offset_cm 10) < 10).
Proof.
  intros Hwf Hst. unfold lw_grf250_create_request_write_zero_offset. split.
  - intros Hout. rewrite decide_True by lia. reflexivity.
  - intros Hin. rewrite decide_False by lia.
    pose proof (Z.quot_rem offset_cm 10 ltac:(lia)) as Hqr.
    assert (Hrem : Z.abs (Z.rem offset_cm 10) < 10)
      by (pose proof (Z.rem_bound_abs offset_cm 10 ltac:(lia)); lia).
    assert (Hsign : 0 <= Z.rem offset_cm 10 * offset_cm)
      by (apply Z.rem_sign_mul; lia).
    assert (Hq : -100 <= Z.quot offset_cm 10 <= 100) by nia.
    destruct (int32_decodes LW r request Hwf Hst LW_GRF250_COMMAND_ZERO_OFFSET
                (Z.quot offset_cm 10) ltac:(lia))
      as (r' & Hfeed & Hid & Hparse).
    eexists. exists r'. split; [reflexivity |].
    split; [reflexivity |]. split; [exact Hfeed |].
    split; [| split; nia].
    unfold lw_grf250_parse_response_zero_offset.
    rewrite decide_False by (rewrite Hid; intros Hne; apply Hne; reflexivity).
    rewrite Hparse. cbn [mbind option_bind]. unfold int32_checked.
    rewrite decide_True by lia. cbn [mbind option_bind]. do 2 f_equal. lia.
Qed.

Lemma zero_offset_round_trip_witness :
  exists q r',
    lw_grf250_create_request_write_zero_offset
      (mk_request (repeat 0 160%nat) 0 0) (-15) = (LW_RESULT_SUCCESS, q)
    /\ req_command_id q = LW_GRF250_COMMAND_ZERO_OFFSET
    /\ feed_all false (lw_init_response (zero_response false)) (sent_bytes q)
         = Some (repeat LW_RESULT_AGAIN 9 ++ [LW_RESULT_SUCCESS], r')
    /\ lw_grf250_parse_response_zero_offset r' 0
         = Some (LW_RESULT_SUCCESS, 10 * Z.quot (-15) 10)
    /\ Z.abs (10 * Z.quot (-15) 10) <= Z.abs (-15)
    /\ Z.abs (-15 - 10 * Z.quot (-15) 10) < 10.
Proof.
  destruct (zero_offset_round_trip false (lw_init_response (zero_response false))
              (mk_request (repeat 0 160%nat) 0 0) (-15) 0
              (zero_response_wf false) (or_introl eq_refl)) as [_ H].
  apply H. lia.
Defined.

Ltac catalog_enum LW r request Hwf Hst cmd k v :=
  let r' := fresh "r'" in
  let Hfeed := fresh "Hfeed" in
  let Hid := fresh "Hid" in
  let Hparse := fresh "Hparse" in
  destruct (write_le_round_trip LW r request cmd Hwf Hst k v ltac:(lia))
    as (r' & Hfeed & Hid & Hparse);
  exists r'; cbn [fst snd];
  split; [reflexivity |];
  split; [reflexivity |];
  split; [exact Hfeed |];
  split; [exact Hparse |];
  apply le_value_unsigned;
  let p := eval vm_compute in (2 ^ (8 * Z.of_nat k)) in
  change (2 ^ (8 * Z.of_nat k)) with p; lia.

Ltac unfold_enumerators :=
  unfold LW_GRF250_STREAM_NONE, LW_GRF250_STREAM_DISTANCE, LW_GRF250_STREAM_MULTI,
    LW_GRF250_DISABLED, LW_GRF250_ENABLED, LW_GRF250_FIRST_RETURN,
    LW_GRF250_LAST_RETURN, LW_GRF250_GPIO_MODE_NO_OUTPUT,
    LW_GRF250_GPIO_MODE_ALARM_A, LW_GRF250_GPIO_MODE_ALARM_B,
    LW_GRF250_BAUD_9600, LW_GRF250_BAUD_921600 in *.

(** X13: the ten catalog parameters of an enumeration type (stream, the
    six on/off switches, alarm return mode, GPIO mode, baud rate).  A value
    that is not one of the enumerators is answered [INVALID_PARAMETER] and
    the request is left as it was; in particular a value such as 256, whose
    low byte would be a valid enumerator, is not cut down and sent.  An
    enumerator is written under the parameter's command id, in one byte (in
    four for the stream), and arrives at the decoder unchanged. *)
Theorem enumerated_parameter_validation (LW : bool) r request create
    (cmd : Z) (allowed : list Z) (width : nat) (value : Z) :
  (create, cmd, allowed, width) ∈ enumerated_parameters ->
  wf_response LW r ->
  rsp_parse_state r = LW_PARSESTATE_START
    \/ rsp_parse_state r = LW_PARSESTATE_DONE ->
  (value ∉ allowed ->
   create request value = (LW_RESULT_INVALID_PARAMETER, request)) /\
  (value ∈ allowed ->
   exists r',
     fst (create request value) = LW_RESULT_SUCCESS
     /\ req_command_id (snd (create request value)) = cmd
     /\ feed_all LW r (sent_bytes (snd (create request value)))
          = Some (repeat LW_RESULT_AGAIN (5 + width) ++ [LW_RESULT_SUCCESS], r')
     /\ parse_bytes r' (Z.of_nat width) 0 = Some (le_bytes width value)
     /\ le_value (le_bytes width value) = value).
Proof.
  intros Hin Hwf Hst. unfold enumerated_parameters in Hin.
  repeat (apply elem_of_cons in Hin as [Hin | Hin];
          [injection Hin as -> -> -> -> |]);
    [.. | apply elem_of_nil in Hin; contradiction];
    (split; intros Hv;
     [ rewrite !elem_of_cons, elem_of_nil in Hv | 
       rewrite !elem_of_cons, elem_of_nil in Hv ]).
  - unfold lw_grf250_create_request_write_stream. unfold_enumerators.
    rewrite decide_True by lia. reflexivity.
  - unfold lw_grf250_create_request_write_stream. unfold_enumerators.
    rewrite decide_False by lia. rewrite u32_small by lia.
    catalog_enum LW r request Hwf Hst LW_GRF250_COMMAND_STREAM 4%nat value.
  - unfold lw_grf250_create_request_write_laser_firing. unfold_enumerators.
    rewrite decide_True by lia. reflexivity.
  - unfold lw_grf250_create_request_write_laser_firing. unfold_enumerators.
    rewrite decide_False by lia. rewrite u8_small by lia.
    catalog_enum LW r request Hwf Hst LW_GRF250_COMMAND_LASER_FIRING 1%nat value.
  - unfold lw_grf250_create_request_write_auto_exposure. unfold_enumerators.
    rewrite decide_True by lia. reflexivity.
  - unfold lw_grf250_create_request_write_auto_exposure. unfold_enumerators.
    rewrite decide_False by lia. rewrite u8_small by lia.
    catalog_enum LW r request Hwf Hst LW_GRF250_COMMAND_AUTO_EXPOSURE 1%nat value.
  - unfold lw_grf250_create_request_write_alarm_return_mode. unfold_enumerators.
    rewrite decide_True by lia. reflexivity.
  - unfold lw_grf250_create_request_write_alarm_return_mode. unfold_enumerators.
    rewrite decide_False by lia. rewrite u8_small by lia.
    catalog_enum LW r request Hwf Hst LW_GRF250_COMMAND_ALARM_RETURN_MODE 1%nat value.
  - unfold lw_grf250_create_request_write_gpio_mode. unfold_enumerators.
    rewrite decide_True by lia. reflexivity.
  - unfold lw_grf250_create_request_write_gpio_mode. unfold_enumerators.
    rewrite decide_False by lia. rewrite u8_small by lia.
    catalog_enum LW r request Hwf Hst LW_GRF250_COMMAND_GPIO_MODE 1%nat value.
  - unfold lw_grf250_create_request_write_median_filter_enable. unfold_enumerators.
    rewrite decide_True by lia. reflexivity.
  - unfold lw_grf250_create_request_write_median_filter_enable. unfold_enumerators.
    rewrite decide_False by lia. rewrite u8_small by lia.
    catalog_enum LW r request Hwf Hst LW_GRF250_COMMAND_MEDIAN_FILTER_ENABLE
      1%nat value.
  - unfold lw_grf250_create_request_write_smooth_filter_enable. unfold_enumerators.
    rewrite decide_True by lia. reflexivity.
  - unfold lw_grf250_create_request_write_smooth_filter_enable. unfold_enumerators.
    rewrite decide_False by lia. rewrite u8_small by lia.
    catalog_enum LW r request Hwf Hst LW_GRF250_COMMAND_SMOOTH_FILTER_ENABLE
      1%nat value.
  - unfold lw_grf250_create_request_write_baud_rate. unfold_enumerators.
    rewrite decide_True by lia. reflexivity.
  - unfold lw_grf250_create_request_write_baud_rate. unfold_enumerators.
    rewrite decide_False by lia. rewrite u8_small by lia.
    catalog_enum LW r request Hwf Hst LW_GRF250_COMMAND_BAUD_RATE 1%nat value.
  - unfold lw_grf250_create_request_write_rolling_average_enable.
    unfold_enumerators. rewrite decide_True by lia. reflexivity.
  - unfold lw_grf250_create_request_write_rolling_average_enable.
    unfold_enumerators. rewrite decide_False by lia. rewrite u8_small by lia.
    catalog_enum LW r request Hwf Hst LW_GRF250_COMMAND_ROLLING_AVERAGE_ENABLE
      1%nat value.
  - unfold lw_grf250_create_request_write_led_state. unfold_enumerators.
    rewrite decide_True by lia. reflexivity.
  - unfold lw_grf250_create_request_write_led_state. unfold_enumerators.
    rewrite decide_False by lia. rewrite u8_small by lia.
    catalog_enum LW r request Hwf Hst LW_GRF250_COMMAND_LED_STATE 1%nat value.
Qed.

Lemma enumerated_parameter_validation_witness :
  lw_grf250_create_request_write_laser_firing
    (mk_request (repeat 0 160%nat) 0 0) 256
    = (LW_RESULT_INVALID_PARAMETER, mk_request (repeat 0 160%nat) 0 0).
Proof.
  destruct (enumerated_parameter_validation false
              (lw_init_response (zero_response false))
              (mk_request (repeat 0 160%nat) 0 0)
              lw_grf250_create_request_write_laser_firing
              LW_GRF250_COMMAND_LASER_FIRING
              [LW_GRF250_DISABLED; LW_GRF250_ENABLED] 1%nat 256
              ltac:(apply list_elem_of_further, list_elem_of_here)
              (zero_response_wf false) (or_introl eq_refl)) as [H _].
  apply H. rewrite !elem_of_cons, elem_of_nil. unfold_enumerators. lia.
Defined.

(** ** The managed exchange *)

Section ManagedExchange.

Context {U : Type}.
Variable LW : bool.

Lemma send_frame (d : lw_callback_device U) buffer size sent d1 :
  call_serial_send d buffer size = (sent, d1) ->
  count_sends (calls d1) = S (count_sends (calls d))
  /\ request d1 = request d /\ response d1 = response d.
Proof.
  unfold call_serial_send.
  destruct (serial_send d (user_data d) buffer size) as [sent0 u].
  intros Heq. inversion Heq; subst. cbn [calls request response after_call].
  rewrite count_sends_app. change (count_sends [EvSend size sent]) with 1%nat.
  split; [lia | split; reflexivity].
Qed.

(** What the retry loop can answer after [n] turns at most. *)
Lemma send_attempts_result (fuel : nat) (n : nat) :
  forall (d : lw_callback_device U) res d',
  send_attempts LW n fuel d = Some (res, d') ->
  request d' = request d /\
  (count_sends (calls d') <= count_sends (calls d) + n)%nat /\
  ((res = LW_RESULT_SUCCESS
    /\ (count_sends (calls d) < count_sends (calls d'))%nat
    /\ rsp_parse_state (response d') = LW_PARSESTATE_DONE
    /\ (req_command_id (request d) = LW_ANY_COMMAND
        \/ rsp_command_id (response d') = req_command_id (request d)))
   \/ (res = LW_RESULT_ERROR
       /\ (count_sends (calls d) < count_sends (calls d'))%nat)
   \/ (res = LW_RESULT_EXCEEDED_RETRIES
       /\ count_sends (calls d') = (count_sends (calls d) + n)%nat)).
Proof.
  induction n as [| n IH]; intros d res d' H.
  - cbn [send_attempts] in H. inversion H; subst.
    split; [reflexivity |]. split; [lia |]. right. right. split; [reflexivity | lia].
  - cbn [send_attempts] in H.
    destruct (call_serial_send d (req_data (request d))
                (req_data_size (request d))) as [sent d1] eqn:Hsend.
    destruct (send_frame _ _ _ _ _ Hsend) as (Hc1 & Hq1 & _).
    destruct (decide (sent = 0)) as [Hz | Hnz].
    + inversion H; subst. split; [exact Hq1 |]. split; [lia |].
      right. left. split; [reflexivity | lia].
    + destruct (lw_wait_for_next_response LW fuel d1
                  (req_command_id (request d1)) LW_RESPONSE_TIMEOUT_MS)
        as [[result d2] |] eqn:Hwait; [| discriminate].
      destruct (wait_result LW _ _ _ _ _ _ Hwait) as (Hres & Hc2 & Hq2).
      destruct (decide (result = LW_RESULT_SUCCESS)) as [Hs | Hns].
      * inversion H; subst.
        split; [congruence |]. split; [lia |]. left.
        destruct Hres as [(_ & Hdone & Hid) | [He | [[Ha _] | [Ht _]]]];
          try discriminate.
        split; [reflexivity |]. split; [lia |]. split; [exact Hdone |].
        rewrite <- Hq1. exact Hid.
      * destruct (decide (result = LW_RESULT_ERROR)) as [He | Hne].
        -- inversion H; subst. split; [congruence |]. split; [lia |].
           right. left. split; [reflexivity | lia].
        -- destruct (IH d2 res d' H) as (Hq & Hle & Hcases).
           split; [congruence |]. split; [lia |].
           rewrite Hq2, Hq1 in Hcases.
           destruct Hcases as [(-> & Hlt & Hdone & Hid)
                              | [(-> & Hlt) | (-> & Heq)]].
           ++ left. split; [reflexivity |]. split; [lia |]. split; assumption.
           ++ right. left. split; [reflexivity | lia].
           ++ right. right. split; [reflexivity | lia].
Qed.

Lemma exchange_result (fuel : nat) (d : lw_callback_device U) res d' :
  lw_send_request_get_response LW fuel d = Some (res, d') ->
  request d' = request d /\
  (count_sends (calls d) + 1 <= count_sends (calls d')
     <= count_sends (calls d) + 4)%nat /\
  ((res = LW_RESULT_SUCCESS
    /\ rsp_parse_state (response d') = LW_PARSESTATE_DONE
    /\ (req_command_id (request d) = LW_ANY_COMMAND
        \/ rsp_command_id (response d') = req_command_id (request d)))
   \/ res = LW_RESULT_ERROR
   \/ (res = LW_RESULT_EXCEEDED_RETRIES
       /\ count_sends (calls d') = (count_sends (calls d) + 4)%nat)).
Proof.
  unfold lw_send_request_get_response.
  change (Z.to_nat LW_REQUEST_RETRIES) with 4%nat. intros H.
  destruct (send_attempts_result fuel 4 d res d' H) as (Hq & Hle & Hcases).
  split; [exact Hq |].
  destruct Hcases as [(-> & Hlt & Hdone & Hid) | [(-> & Hlt) | (-> & Heq)]].
  - split; [lia |]. left. auto.
  - split; [lia |]. right. left. reflexivity.
  - split; [lia |]. right. right. auto.
Qed.

(** X14: whenever [lw_send_request_get_response] returns, it returns
    [SUCCESS], [ERROR] or [EXCEEDED_RETRIES] and nothing else; it has sent
    the request at least once and at most four times (exactly four times
    for [EXCEEDED_RETRIES]); it has not touched the request; and on
    [SUCCESS] the response holds a completed packet whose command id is the
    request's (unless the request's id is 255, which matches any). *)
Theorem send_request_outcome (fuel : nat) (d : lw_callback_device U) res d' :
  lw_send_request_get_response LW fuel d = Some (res, d') ->
  request d' = request d /\
  (count_sends (calls d) + 1 <= count_sends (calls d')
     <= count_sends (calls d) + 4)%nat /\
  ((res = LW_RESULT_SUCCESS
    /\ rsp_parse_state (response d') = LW_PARSESTATE_DONE
    /\ (req_command_id (request d) = LW_ANY_COMMAND
        \/ rsp_command_id (response d') = req_command_id (request d)))
   \/ res = LW_RESULT_ERROR
   \/ (res = LW_RESULT_EXCEEDED_RETRIES
       /\ count_sends (calls d') = (count_sends (calls d) + 4)%nat)).
Proof. apply exchange_result. Qed.

End ManagedExchange.

Lemma send_request_outcome_witness :
  exists d',
    lw_send_request_get_response false 6
      (scripted_device false 600 0 [0xAA; 0x40; 0x00; 0x05; 0xD5; 0xCF] 5)
      = Some (LW_RESULT_SUCCESS, d')
    /\ rsp_parse_state (response d') = LW_PARSESTATE_DONE
    /\ rsp_command_id (response d') = 5.
Proof.
  destruct (lw_send_request_get_response false 6
              (scripted_device false 600 0 [0xAA; 0x40; 0x00; 0x05; 0xD5; 0xCF] 5))
    as [[res d'] |] eqn:Hrun.
  - destruct (send_request_outcome false 6 _ res d' Hrun) as (_ & _ & Hcases).
    assert (Hres : res = LW_RESULT_SUCCESS).
    { assert (Hf : match lw_send_request_get_response false 6
                     (scripted_device false 600 0
                        [0xAA; 0x40; 0x00; 0x05; 0xD5; 0xCF] 5) with
                   | Some (x, _) => Some x
                   | None => None
                   end = Some LW_RESULT_SUCCESS) by (vm_compute; reflexivity).
      rewrite Hrun in Hf. inversion Hf. reflexivity. }
    subst res. exists d'. split; [reflexivity |].
    destruct Hcases as [(_ & Hdone & Hid) | [He | [He _]]];
      [| discriminate He | discriminate He].
    split; [exact Hdone |].
    destruct Hid as [Hany | Hid]; [vm_compute in Hany; discriminate Hany |].
    rewrite Hid. reflexivity.
  - assert (Hf : match lw_send_request_get_response false 6
                     (scripted_device false 600 0
                        [0xAA; 0x40; 0x00; 0x05; 0xD5; 0xCF] 5) with
                 | Some _ => true
                 | None => false
                 end = true) by (vm_compute; reflexivity).
    rewrite Hrun in Hf. discriminate Hf.
Defined.

(** ** Managed catalog commands *)

Section ManagedCatalogFacts.

Context {U : Type}.
Variable LW : bool.

Lemma set_request_same (d : lw_callback_device U) : set_request d (request d) = d.
Proof. destruct d. reflexivity. Qed.

(** X15: whenever the managed getter [lw_grf250_get_update_rate] returns,
    it returns [SUCCESS], [ERROR] or [EXCEEDED_RETRIES]: the parser's
    [INCORRECT_COMMAND_ID] cannot come out of it, because the exchange
    only succeeds on a response to the update-rate command.  The request
    was sent one to four times; the caller's variable is written on
    [SUCCESS] only, with the 32-bit value at the start of the response's
    payload. *)
Theorem get_update_rate_outcome (fuel : nat) (d : lw_callback_device U)
    (rate : Z) res d' rate' :
  lw_grf250_get_update_rate LW fuel d rate = Some (res, d', rate') ->
  (res = LW_RESULT_SUCCESS \/ res = LW_RESULT_ERROR
   \/ res = LW_RESULT_EXCEEDED_RETRIES) /\
  (count_sends (calls d) + 1 <= count_sends (calls d')
     <= count_sends (calls d) + 4)%nat /\
  request d' = lw_create_request_read (request d) LW_GRF250_COMMAND_UPDATE_RATE /\
  (res <> LW_RESULT_SUCCESS -> rate' = rate) /\
  (res = LW_RESULT_SUCCESS ->
   rsp_command_id (response d') = LW_GRF250_COMMAND_UPDATE_RATE
   /\ lw_parse_response_uint32 (response d') 0 = Some rate').
Proof.
  unfold lw_grf250_get_update_rate, lw_grf250_create_request_read_update_rate.
  rewrite decide_False by (intros Hne; apply Hne; reflexivity).
  set (d0 := set_request d
               (lw_create_request_read (request d) LW_GRF250_COMMAND_UPDATE_RATE)).
  destruct (lw_send_request_get_response LW fuel d0) as [[result d1] |] eqn:Hrun;
    [| discriminate].
  cbn [mbind option_bind].
  destruct (exchange_result LW fuel d0 result d1 Hrun) as (Hq & Hsends & Hcases).
  change (calls d0) with (calls d) in Hsends.
  change (request d0)
    with (lw_create_request_read (request d) LW_GRF250_COMMAND_UPDATE_RATE)
    in Hq, Hcases.
  destruct (decide (result <> LW_RESULT_SUCCESS)) as [Hns | Hs].
  - intros H. inversion H; subst.
    split; [destruct Hcases as [(-> & _) | [-> | (-> & _)]]; auto |].
    split; [exact Hsends |]. split; [exact Hq |].
    split; [reflexivity | intros Hyes; contradiction].
  - assert (Hres : result = LW_RESULT_SUCCESS)
      by (destruct (decide (result = LW_RESULT_SUCCESS)); [assumption | contradiction]).
    subst result.
    destruct Hcases as [(_ & Hdone & Hid) | [He | [He _]]]; try discriminate.
    destruct Hid as [Hany | Hid]; [vm_compute in Hany; discriminate |].
    change (req_command_id
              (lw_create_request_read (request d) LW_GRF250_COMMAND_UPDATE_RATE))
      with LW_GRF250_COMMAND_UPDATE_RATE in Hid.
    unfold lw_grf250_parse_response_update_rate.
    rewrite decide_False by (rewrite Hid; intros Hne; apply Hne; reflexivity).
    destruct (lw_parse_response_uint32 (response d1) 0) as [v |] eqn:Hparse;
      [| discriminate].
    cbn [mbind option_bind]. intros H. inversion H; subst.
    split; [auto |]. split; [exact Hsends |]. split; [exact Hq |].
    split; [intros Hne; contradiction | intros _; split; [exact Hid | exact Hparse]].
Qed.

(** X16: the managed setter [lw_grf250_set_update_rate].  For a rate
    outside 1..50 the call returns [INVALID_PARAMETER] and nothing has
    happened: no callback was called and the device is as it was.  For a
    rate inside the range the call is the exchange run on the device whose
    request is the update-rate write of that rate.  And whenever the call
    returns, it returned [INVALID_PARAMETER] exactly when the rate is
    outside the range; otherwise the request was sent one to four times and
    the answer is [SUCCESS], [ERROR] or [EXCEEDED_RETRIES]. *)
Theorem set_update_rate_outcome (fuel : nat) (d : lw_callback_device U)
    (rate : Z) :
  (~ 1 <= rate <= 50 ->
   lw_grf250_set_update_rate LW fuel d rate
     = Some (LW_RESULT_INVALID_PARAMETER, d)) /\
  (1 <= rate <= 50 ->
   lw_grf250_set_update_rate LW fuel d rate
     = lw_send_request_get_response LW fuel
         (set_request d
            (lw_create_request_write_uint32 (request d)
               LW_GRF250_COMMAND_UPDATE_RATE rate))) /\
  (forall res d',
     lw_grf250_set_update_rate LW fuel d rate = Some (res, d') ->
     (res = LW_RESULT_INVALID_PARAMETER <-> ~ 1 <= rate <= 50) /\
     (res = LW_RESULT_INVALID_PARAMETER -> d' = d) /\
     (res <> LW_RESULT_INVALID_PARAMETER ->
      (res = LW_RESULT_SUCCESS \/ res = LW_RESULT_ERROR
       \/ res = LW_RESULT_EXCEEDED_RETRIES)
      /\ (count_sends (calls d) + 1 <= count_sends (calls d')
            <= count_sends (calls d) + 4)%nat
      /\ request d' =
           lw_create_request_write_uint32 (request d) LW_GRF250_COMMAND_UPDATE_RATE
             rate)).
Proof.
  assert (Hbad : ~ 1 <= rate <= 50 ->
            lw_grf250_set_update_rate LW fuel d rate
              = Some (LW_RESULT_INVALID_PARAMETER, d)).
  { intros Hout.
    unfold lw_grf250_set_update_rate, lw_grf250_create_request_write_update_rate.
    rewrite decide_True by lia. rewrite decide_True by discriminate.
    rewrite set_request_same. reflexivity. }
  assert (Hgood : 1 <= rate <= 50 ->
            lw_grf250_set_update_rate LW fuel d rate
              = lw_send_request_get_response LW fuel
                  (set_request d
                     (lw_create_request_write_uint32 (request d)
                        LW_GRF250_COMMAND_UPDATE_RATE rate))).
  { intros Hin.
    unfold lw_grf250_set_update_rate, lw_grf250_create_request_write_update_rate.
    rewrite decide_False by lia.
    rewrite decide_False by (intros Hne; apply Hne; reflexivity). reflexivity. }
  split; [exact Hbad |]. split; [exact Hgood |].
  intros res d' Hrun.
  destruct (decide (1 <= rate <= 50)) as [Hin | Hout].
  - rewrite (Hgood Hin) in Hrun.
    set (d0 := set_request d
                 (lw_create_request_write_uint32 (request d)
                    LW_GRF250_COMMAND_UPDATE_RATE rate)) in Hrun.
    destruct (exchange_result LW fuel d0 res d' Hrun) as (Hq & Hsends & Hcases).
    change (calls d0) with (calls d) in Hsends.
    assert (Hres : res = LW_RESULT_SUCCESS \/ res = LW_RESULT_ERROR
                   \/ res = LW_RESULT_EXCEEDED_RETRIES)
      by (destruct Hcases as [(-> & _) | [-> | (-> & _)]]; auto).
    assert (Hni : res <> LW_RESULT_INVALID_PARAMETER)
      by (destruct Hres as [-> | [-> | ->]]; discriminate).
    split; [split; [intros Hinv; contradiction | intros Hno; contradiction] |].
    split; [intros Hinv; contradiction |].
    intros _. split; [exact Hres |]. split; [exact Hsends | exact Hq].
  - rewrite (Hbad Hout) in Hrun. injection Hrun as <- <-.
    split; [split; [intros _; exact Hout | reflexivity] |].
    split; [reflexivity | intros Hne; contradiction].
Qed.

End ManagedCatalogFacts.

Lemma get_update_rate_outcome_witness :
  exists d' rate',
    lw_grf250_get_update_rate false 10
      (scripted_device false 600 0 (lw_create_packet 74 0 [20; 0; 0; 0] 4) 0) 7
      = Some (LW_RESULT_SUCCESS, d', rate')
    /\ lw_parse_response_uint32 (response d') 0 = Some rate'.
Proof.
  destruct (lw_grf250_get_update_rate false 10
              (scripted_device false 600 0 (lw_create_packet 74 0 [20; 0; 0; 0] 4) 0) 7)
    as [[[res d'] rate'] |] eqn:Hrun.
  - destruct (get_update_rate_outcome false 10 _ 7 res d' rate' Hrun)
      as (_ & _ & _ & _ & Hok).
    assert (Hres : res = LW_RESULT_SUCCESS).
    { assert (Hf : match lw_grf250_get_update_rate false 10
                     (scripted_device false 600 0
                        (lw_create_packet 74 0 [20; 0; 0; 0] 4) 0) 7 with
                   | Some (x, _, _) => Some x
                   | None => None
                   end = Some LW_RESULT_SUCCESS) by (vm_compute; reflexivity).
      rewrite Hrun in Hf. inversion Hf. reflexivity. }
    subst res. exists d', rate'. split; [reflexivity |].
    apply Hok. reflexivity.
  - assert (Hf : match lw_grf250_get_update_rate false 10
                     (scripted_device false 600 0
                        (lw_create_packet 74 0 [20; 0; 0; 0] 4) 0) 7 with
                 | Some _ => true
                 | None => false
                 end = true) by (vm_compute; reflexivity).
    rewrite Hrun in Hf. discriminate Hf.
Defined.

Lemma set_update_rate_outcome_witness :
  lw_grf250_set_update_rate false 1 (scripted_device false 600 0 [] 0) 51
    = Some (LW_RESULT_INVALID_PARAMETER, scripted_device false 600 0 [] 0).
Proof.
  destruct (set_update_rate_outcome false 1 (scripted_device false 600 0 [] 0) 51)
    as [Hbad _].
  apply Hbad. lia.
Defined.

(** ** Exchanges on the scripted platform *)

Section Scripted.

Variable LW : bool.
Variables tick idle : Z.

Lemma count_sends_get_time l now :
  count_sends (l ++ [EvGetTime now]) = count_sends l.
Proof.
  rewrite count_sends_app. change (count_sends [EvGetTime now]) with 0%nat. lia.
Qed.

Lemma count_sends_receive l timeout_ms bytes_read byte :
  count_sends (l ++ [EvReceive timeout_ms bytes_read byte]) = count_sends l.
Proof.
  rewrite count_sends_app.
  change (count_sends [EvReceive timeout_ms bytes_read byte]) with 0%nat. lia.
Qed.

Lemma count_sends_send l size sent :
  count_sends (l ++ [EvSend size sent]) = S (count_sends l).
Proof.
  rewrite count_sends_app. change (count_sends [EvSend size sent]) with 1%nat. lia.
Qed.

Lemma scripted_device_platform incoming command_id :
  on_scripted_platform tick idle (scripted_device LW tick idle incoming command_id).
Proof. split; [| split]; reflexivity. Qed.

Lemma scripted_set_request d q :
  on_scripted_platform tick idle d -> on_scripted_platform tick idle (set_request d q).
Proof. intros H. exact H. Qed.

Lemma scripted_time_left d timeout_ms timeout_time :
  on_scripted_platform tick idle d ->
  exists tl d1,
    time_left d timeout_ms timeout_time = (tl, d1)
    /\ on_scripted_platform tick idle d1
    /\ snd (user_data d1) = snd (user_data d)
    /\ response d1 = response d
    /\ request d1 = request d
    /\ count_sends (calls d1) = count_sends (calls d).
Proof.
  intros (Hclock & Hsend & Hrecv). unfold time_left.
  destruct (decide (timeout_ms <> 0)).
  - unfold call_get_time_ms. rewrite Hclock. unfold scripted_clock.
    eexists. eexists. split; [reflexivity |].
    cbn [after_call user_data response request calls get_time_ms serial_send
         serial_receive snd].
    split; [split; [| split]; assumption |].
    split; [reflexivity |]. split; [reflexivity |]. split; [reflexivity |].
    apply count_sends_get_time.
  - exists 0, d. split; [reflexivity |].
    split; [split; [| split]; assumption |]. auto.
Qed.

Lemma scripted_receive_byte d b rest timeout_ms :
  on_scripted_platform tick idle d ->
  snd (user_data d) = b :: rest ->
  exists d2,
    call_serial_receive d 1 timeout_ms = (1, b, d2)
    /\ on_scripted_platform tick idle d2
    /\ snd (user_data d2) = rest
    /\ response d2 = response d
    /\ request d2 = request d
    /\ count_sends (calls d2) = count_sends (calls d).
Proof.
  intros (Hclock & Hsend & Hrecv) Hin. unfold call_serial_receive.
  rewrite Hrecv. unfold scripted_receive. rewrite Hin.
  eexists. split; [reflexivity |].
  cbn [after_call user_data response request calls get_time_ms serial_send
       serial_receive snd].
  split; [split; [| split]; assumption |].
  split; [reflexivity |]. split; [reflexivity |]. split; [reflexivity |].
  apply count_sends_receive.
Qed.

(** The bytes of a packet are waiting: the loop takes them one by one and
    returns on the last. *)
Lemma scripted_wait_loop command_id timeout_ms timeout_time rest r' :
  forall bytes fuel d,
  on_scripted_platform tick idle d ->
  snd (user_data d) = bytes ++ rest ->
  bytes <> [] ->
  (length bytes <= fuel)%nat ->
  feed_all LW (response d) bytes =
    Some (repeat LW_RESULT_AGAIN (length bytes - 1) ++ [LW_RESULT_SUCCESS], r') ->
  command_id = LW_ANY_COMMAND \/ rsp_command_id r' = command_id ->
  exists d',
    wait_loop LW fuel d command_id timeout_ms timeout_time
      = Some (LW_RESULT_SUCCESS, d')
    /\ on_scripted_platform tick idle d'
    /\ snd (user_data d') = rest
    /\ response d' = r'
    /\ request d' = request d
    /\ count_sends (calls d') = count_sends (calls d).
Proof.
  induction bytes as [| b bs IH]; intros fuel d Hplat Hin Hne Hfuel Hfeed Hid;
    [contradiction |].
  destruct fuel as [| fuel]; [cbn in Hfuel; lia |].
  cbn [length] in Hfuel.
  destruct (scripted_time_left d timeout_ms timeout_time Hplat)
    as (tl & d1 & Htl & Hplat1 & Hu1 & Hr1 & Hq1 & Hc1).
  destruct (scripted_receive_byte d1 b (bs ++ rest) tl Hplat1
              ltac:(rewrite Hu1; exact Hin))
    as (d2 & Hrecv & Hplat2 & Hu2 & Hr2 & Hq2 & Hc2).
  cbn [wait_loop].
  rewrite (wait_iteration_eq LW d command_id timeout_ms timeout_time tl d1 1 b d2
             Htl Hrecv).
  rewrite decide_False by lia. rewrite decide_True by lia.
  rewrite Hr2, Hr1.
  cbn [feed_all] in Hfeed.
  destruct (lw_feed_response LW (response d) b) as [[res r1] |] eqn:Hstep;
    [| discriminate].
  cbn [mbind option_bind] in Hfeed |- *.
  destruct (feed_all LW r1 bs) as [[results final] |] eqn:Hrest; [| discriminate].
  cbn [mbind option_bind] in Hfeed. inversion Hfeed as [[Hres Hfinal]].
  subst final. cbn [length] in Hres. rewrite Nat.sub_0_r in Hres.
  destruct bs as [| b' bs'].
  - cbn in Hres. inversion Hres as [[Hr Hrs]]. 
    cbn [feed_all] in Hrest. inversion Hrest; subst.
    rewrite decide_True by reflexivity. rewrite decide_True by exact Hid.
    eexists. split; [reflexivity |].
    cbn [set_response user_data response request calls get_time_ms serial_send
         serial_receive].
    split; [exact Hplat2 |]. split; [exact Hu2 |]. split; [reflexivity |].
    split; [congruence | congruence].
  - cbn [length repeat app] in Hres. inversion Hres as [[Hr Hrs]].
    rewrite decide_False by discriminate.
    destruct (IH fuel (set_response d2 r1)) as (d' & Hloop & Hp & Hu & Hr' & Hq & Hc).
    + exact Hplat2.
    + exact Hu2.
    + discriminate.
    + cbn [length] in *. lia.
    + cbn [set_response response]. rewrite Hrest.
      replace (length (b' :: bs') - 1)%nat with (length bs')
        by (cbn [length]; lia).
      congruence.
    + exact Hid.
    + exists d'. split; [exact Hloop |]. split; [exact Hp |]. split; [exact Hu |].
      split; [exact Hr' |]. cbn [set_response request calls] in Hq, Hc.
      split; congruence.
Qed.

(** One exchange whose reply is waiting: sent once, answered. *)
Lemma scripted_exchange rest r' bytes fuel d :
  on_scripted_platform tick idle d ->
  req_data_size (request d) <> 0 ->
  snd (user_data d) = bytes ++ rest ->
  bytes <> [] ->
  (length bytes <= fuel)%nat ->
  feed_all LW (response d) bytes =
    Some (repeat LW_RESULT_AGAIN (length bytes - 1) ++ [LW_RESULT_SUCCESS], r') ->
  rsp_command_id r' = req_command_id (request d) ->
  exists d',
    lw_send_request_get_response LW fuel d = Some (LW_RESULT_SUCCESS, d')
    /\ on_scripted_platform tick idle d'
    /\ snd (user_data d') = rest
    /\ response d' = r'
    /\ request d' = request d
    /\ count_sends (calls d') = S (count_sends (calls d)).
Proof.
  intros Hplat Hsize Hin Hne Hfuel Hfeed Hid.
  destruct Hplat as (Hclock & Hsend & Hrecv).
  unfold lw_send_request_get_response.
  change (Z.to_nat LW_REQUEST_RETRIES) with 4%nat. cbn [send_attempts].
  unfold call_serial_send. rewrite Hsend. unfold scripted_send.
  rewrite decide_False by exact Hsize.
  set (d1 := after_call d (user_data d)
               (EvSend (req_data_size (request d)) (req_data_size (request d)))).
  assert (Hplat1 : on_scripted_platform tick idle d1)
    by (split; [| split]; assumption).
  unfold lw_wait_for_next_response, wait_deadline.
  rewrite decide_True by (unfold LW_RESPONSE_TIMEOUT_MS; lia).
  unfold call_get_time_ms. destruct Hplat1 as (Hclock1 & _ & Hrecv1).
  rewrite Hclock1. unfold scripted_clock.
  set (d2 := after_call d1 _ _).
  destruct (scripted_wait_loop (req_command_id (request d1)) LW_RESPONSE_TIMEOUT_MS
              (u32 (u32 (fst (user_data d1)) + LW_RESPONSE_TIMEOUT_MS)) rest r'
              bytes fuel d2) as (d' & Hloop & Hp & Hu & Hr & Hq & Hc).
  - split; [| split]; assumption.
  - exact Hin.
  - exact Hne.
  - exact Hfuel.
  - exact Hfeed.
  - right. exact Hid.
  - rewrite Hloop. rewrite decide_True by reflexivity.
    exists d'. split; [reflexivity |]. split; [exact Hp |]. split; [exact Hu |].
    split; [exact Hr |]. split; [exact Hq |].
    rewrite Hc. unfold d2, d1. cbn [after_call calls].
    rewrite count_sends_get_time, count_sends_send. reflexivity.
Qed.

End Scripted.

Lemma sent_bytes_store request command_id (payload : list Z) :
  Z.of_nat (length payload) <= 1024 ->
  let n := Z.of_nat (length payload) in
  sent_bytes (request_store request command_id
                (lw_create_packet command_id 1 payload n) (u32 (6 + n)))
    = lw_create_packet command_id 1 payload n.
Proof.
  intros Hn n. unfold sent_bytes, request_store, lw_init_request.
  cbn [req_data req_data_size]. rewrite u32_small by (unfold n; lia).
  replace (Z.to_nat (6 + n))
    with (length (lw_create_packet command_id 1 payload n))
    by (unfold n; rewrite lw_create_packet_length by lia; lia).
  apply take_app_length.
Qed.

(** A reply packet arriving at a decoder: accepted on its last byte, its
    payload readable at offset 0. *)
Lemma decode_reply LW r command_id write (payload : list Z) :
  wf_response LW r ->
  rsp_parse_state r = LW_PARSESTATE_START
    \/ rsp_parse_state r = LW_PARSESTATE_DONE ->
  1 + Z.of_nat (length payload) <= LW_PACKET_RECV_SIZE LW - 5 ->
  let n := Z.of_nat (length payload) in
  let packet := lw_create_packet command_id write payload n in
  exists r',
    feed_all LW r packet =
      Some (repeat LW_RESULT_AGAIN (length packet - 1) ++ [LW_RESULT_SUCCESS], r')
    /\ length packet = (6 + length payload)%nat
    /\ rsp_parse_state r' = LW_PARSESTATE_DONE
    /\ rsp_command_id r' = command_id
    /\ wf_response LW r'
    /\ parse_bytes r' n 0 = Some payload.
Proof.
  intros Hwf Hst Hsize n packet. pose proof (recv_size_bounds LW) as Hb.
  destruct (decode_created_packet LW r command_id write payload Hwf Hst Hsize)
    as (r' & Hfeed & Hlen & Hdone & Hid & _ & _ & _ & Hwf' & Hparse).
  exists r'. split; [exact Hfeed |]. split; [exact Hlen |].
  split; [exact Hdone |]. split; [exact Hid |]. split; [exact Hwf' |].
  unfold parse_bytes. rewrite decide_True; [fold n in Hparse; rewrite Hparse; reflexivity |].
  red in Hwf'. rewrite Hwf'. change (u32 (4 + 0)) with 4. unfold n. lia.
Qed.

Section EndToEnd.

Variable LW : bool.
Variables tick idle : Z.

(** X17: the managed getter against a device that answers.  When the
    bytes waiting on the line are an update-rate packet carrying [rate],
    [lw_grf250_get_update_rate] sends its request once, consumes exactly
    that packet, and returns [SUCCESS] with [rate] in the caller's
    variable, whatever the clock does meanwhile. *)
Theorem get_update_rate_end_to_end (rate write out cmd0 : Z) (rest : list Z)
    (fuel : nat) :
  0 <= rate < 2 ^ 32 ->
  (10 <= fuel)%nat ->
  let reply :=
    lw_create_packet LW_GRF250_COMMAND_UPDATE_RATE write (le_bytes 4 rate) 4 in
  exists d',
    lw_grf250_get_update_rate LW fuel
      (scripted_device LW tick idle (reply ++ rest) cmd0) out
      = Some (LW_RESULT_SUCCESS, d', rate)
    /\ count_sends (calls d') = 1%nat
    /\ snd (user_data d') = rest.
Proof.
  intros Hrate Hfuel reply. pose proof (recv_size_bounds LW) as Hb.
  set (d := scripted_device LW tick idle (reply ++ rest) cmd0).
  unfold lw_grf250_get_update_rate, lw_grf250_create_request_read_update_rate.
  rewrite decide_False by (intros Hne; apply Hne; reflexivity).
  set (d0 := set_request d
               (lw_create_request_read (request d) LW_GRF250_COMMAND_UPDATE_RATE)).
  destruct (decode_reply LW (response d0) LW_GRF250_COMMAND_UPDATE_RATE write
              (le_bytes 4 rate) (zero_response_wf LW) (or_introl eq_refl)
              ltac:(cbn [length le_bytes]; lia))
    as (r' & Hfeed & Hlen & Hdone & Hid & Hwf' & Hparse).
  change (Z.of_nat (length (le_bytes 4 rate))) with 4 in Hfeed, Hlen, Hparse.
  fold reply in Hfeed, Hlen.
  destruct (scripted_exchange LW tick idle rest r' reply fuel d0) as
    (d' & Hrun & _ & Hu & Hr & _ & Hc).
  - apply scripted_device_platform.
  - vm_compute. discriminate.
  - reflexivity.
  - intros Hnil. rewrite Hnil in Hlen. discriminate Hlen.
  - rewrite Hlen. cbn [length le_bytes]. lia.
  - exact Hfeed.
  - rewrite Hid. reflexivity.
  - rewrite Hrun. cbn [mbind option_bind].
    rewrite decide_False by (intros Hne; apply Hne; reflexivity).
    rewrite Hr. unfold lw_grf250_parse_response_update_rate.
    rewrite decide_False by (rewrite Hid; intros Hne; apply Hne; reflexivity).
    unfold lw_parse_response_uint32. rewrite Hparse. cbn [mbind option_bind].
    rewrite (le_value_unsigned 4 rate) by exact Hrate.
    exists d'. split; [reflexivity |]. split; [| exact Hu].
    rewrite Hc. reflexivity.
Qed.

(** X18: reset and save-parameters against a device that answers.  Both
    first read the safety token and then write it back under their own
    command.  When the token reply and the acknowledgement are waiting on
    the line, the call returns [SUCCESS] after exactly two sends, and the
    second request sent is the write of precisely the token the device
    supplied. *)
Theorem token_commands_end_to_end (token w1 w2 cmd0 : Z) (ack rest : list Z)
    (fuel : nat) :
  0 <= token < 2 ^ 16 ->
  Z.of_nat (length ack) <= 58 ->
  (8 <= fuel)%nat -> (6 + length ack <= fuel)%nat ->
  let token_reply :=
    lw_create_packet LW_GRF250_COMMAND_TOKEN w1 (le_bytes 2 token) 2 in
  (let reply :=
     lw_create_packet LW_GRF250_COMMAND_RESET w2 ack (Z.of_nat (length ack)) in
   exists d',
     lw_grf250_reset LW fuel
       (scripted_device LW tick idle (token_reply ++ reply ++ rest) cmd0)
       = Some (LW_RESULT_SUCCESS, d')
     /\ sent_bytes (request d')
        = lw_create_packet LW_GRF250_COMMAND_RESET 1 (le_bytes 2 token) 2
     /\ count_sends (calls d') = 2%nat
     /\ snd (user_data d') = rest) /\
  (let reply :=
     lw_create_packet LW_GRF250_COMMAND_SAVE_PARAMETERS w2 ack
       (Z.of_nat (length ack)) in
   exists d',
     lw_grf250_save_parameters LW fuel
       (scripted_device LW tick idle (token_reply ++ reply ++ rest) cmd0)
       = Some (LW_RESULT_SUCCESS, d')
     /\ sent_bytes (request d')
        = lw_create_packet LW_GRF250_COMMAND_SAVE_PARAMETERS 1 (le_bytes 2 token) 2
     /\ count_sends (calls d') = 2%nat
     /\ snd (user_data d') = rest).
Proof.
  intros Htoken Hack Hfuel8 Hfuel token_reply.
  pose proof (recv_size_bounds LW) as Hb.
  assert (Hfirst : forall tail,
    exists d1 r1,
      lw_grf250_get_token LW fuel
        (scripted_device LW tick idle (token_reply ++ tail) cmd0) 0
        = Some (LW_RESULT_SUCCESS, d1, token)
      /\ on_scripted_platform tick idle d1
      /\ snd (user_data d1) = tail
      /\ response d1 = r1
      /\ wf_response LW r1
      /\ rsp_parse_state r1 = LW_PARSESTATE_DONE
      /\ count_sends (calls d1) = 1%nat).
  { intros tail.
    set (d := scripted_device LW tick idle (token_reply ++ tail) cmd0).
    unfold lw_grf250_get_token, lw_grf250_create_request_read_token.
    rewrite decide_False by (intros Hne; apply Hne; reflexivity).
    set (d0 := set_request d
                 (lw_create_request_read (request d) LW_GRF250_COMMAND_TOKEN)).
    destruct (decode_reply LW (response d0) LW_GRF250_COMMAND_TOKEN w1
                (le_bytes 2 token) (zero_response_wf LW) (or_introl eq_refl)
                ltac:(cbn [length le_bytes]; lia))
      as (r1 & Hfeed & Hlen & Hdone & Hid & Hwf1 & Hparse).
    change (Z.of_nat (length (le_bytes 2 token))) with 2 in Hfeed, Hlen, Hparse.
    fold token_reply in Hfeed, Hlen.
    destruct (scripted_exchange LW tick idle tail r1 token_reply fuel d0) as
      (d1 & Hrun & Hp & Hu & Hr & _ & Hc).
    - apply scripted_device_platform.
    - vm_compute. discriminate.
    - reflexivity.
    - intros Hnil. rewrite Hnil in Hlen. discriminate Hlen.
    - rewrite Hlen. cbn [length le_bytes]. lia.
    - exact Hfeed.
    - rewrite Hid. reflexivity.
    - rewrite Hrun. cbn [mbind option_bind].
      rewrite decide_False by (intros Hne; apply Hne; reflexivity).
      rewrite Hr. unfold lw_grf250_parse_response_token.
      rewrite decide_False by (rewrite Hid; intros Hne; apply Hne; reflexivity).
      unfold lw_parse_response_uint16. rewrite Hparse. cbn [mbind option_bind].
      rewrite (le_value_unsigned 2 token) by exact Htoken.
      exists d1, r1. split; [reflexivity |]. split; [exact Hp |].
      split; [exact Hu |]. split; [exact Hr |]. split; [exact Hwf1 |].
      split; [exact Hdone |]. rewrite Hc. reflexivity. }
  assert (Hsecond : forall command_id d1 r1,
    on_scripted_platform tick idle d1 ->
    snd (user_data d1)
      = lw_create_packet command_id w2 ack (Z.of_nat (length ack)) ++ rest ->
    response d1 = r1 -> wf_response LW r1 ->
    rsp_parse_state r1 = LW_PARSESTATE_DONE ->
    count_sends (calls d1) = 1%nat ->
    exists d',
      lw_send_request_get_response LW fuel
        (set_request d1
           (lw_create_request_write_uint16 (request d1) command_id token))
        = Some (LW_RESULT_SUCCESS, d')
      /\ sent_bytes (request d')
         = lw_create_packet command_id 1 (le_bytes 2 token) 2
      /\ count_sends (calls d') = 2%nat
      /\ snd (user_data d') = rest).
  { intros command_id d1 r1 Hp1 Hu1 Hr1 Hwf1 Hdone1 Hc1.
    destruct (decode_reply LW r1 command_id w2 ack Hwf1 (or_intror Hdone1)
                ltac:(lia))
      as (r2 & Hfeed & Hlen & _ & Hid & _ & _).
    set (q := lw_create_request_write_uint16 (request d1) command_id token).
    destruct (scripted_exchange LW tick idle rest r2
                (lw_create_packet command_id w2 ack (Z.of_nat (length ack)))
                fuel (set_request d1 q)) as (d' & Hrun & _ & Hu & _ & Hq & Hc).
    - exact Hp1.
    - cbn [set_request request]. unfold q, lw_create_request_write_uint16,
        request_store, lw_init_request. cbn [req_data_size].
      vm_compute. discriminate.
    - exact Hu1.
    - intros Hnil. rewrite Hnil in Hlen. discriminate Hlen.
    - rewrite Hlen. lia.
    - cbn [set_request response]. rewrite Hr1. exact Hfeed.
    - rewrite Hid. reflexivity.
    - exists d'. split; [exact Hrun |]. split; [| split; [| exact Hu]].
      + rewrite Hq. cbn [set_request request]. unfold q.
        apply (sent_bytes_store (request d1) command_id (le_bytes 2 token)).
        cbn [length le_bytes]. lia.
      + rewrite Hc. cbn [set_request calls]. rewrite Hc1. reflexivity. }
  split.
  - intros reply.
    destruct (Hfirst (reply ++ rest)) as (d1 & r1 & Hget & Hp1 & Hu1 & Hr1 & Hwf1
                                          & Hdone1 & Hc1).
    destruct (Hsecond LW_GRF250_COMMAND_RESET d1 r1 Hp1 Hu1 Hr1 Hwf1 Hdone1 Hc1)
      as (d' & Hrun & Hsent & Hc & Hu).
    exists d'. unfold lw_grf250_reset. rewrite Hget. cbn [mbind option_bind].
    rewrite decide_False by (intros Hne; apply Hne; reflexivity).
    unfold lw_grf250_set_reset, lw_grf250_create_request_write_reset.
    rewrite decide_False by (intros Hne; apply Hne; reflexivity).
    rewrite Hrun. cbn [mbind option_bind].
    rewrite decide_False by (intros Hne; apply Hne; reflexivity).
    auto.
  - intros reply.
    destruct (Hfirst (reply ++ rest)) as (d1 & r1 & Hget & Hp1 & Hu1 & Hr1 & Hwf1
                                          & Hdone1 & Hc1).
    destruct (Hsecond LW_GRF250_COMMAND_SAVE_PARAMETERS d1 r1 Hp1 Hu1 Hr1 Hwf1
                Hdone1 Hc1) as (d' & Hrun & Hsent & Hc & Hu).
    exists d'. unfold lw_grf250_save_parameters. rewrite Hget.
    cbn [mbind option_bind].
    rewrite decide_False by (intros Hne; apply Hne; reflexivity).
    unfold lw_grf250_set_save_parameters,
      lw_grf250_create_request_write_save_parameters.
    rewrite decide_False by (intros Hne; apply Hne; reflexivity).
    rewrite Hrun. cbn [mbind option_bind].
    rewrite decide_False by (intros Hne; apply Hne; reflexivity).
    auto.
Qed.

End EndToEnd.

Lemma get_update_rate_end_to_end_witness :
  exists d',
    lw_grf250_get_update_rate false 10
      (scripted_device false 600 0
         (lw_create_packet LW_GRF250_COMMAND_UPDATE_RATE 0 (le_bytes 4 20) 4
            ++ [0xAA]) 0) 7
      = Some (LW_RESULT_SUCCESS, d', 20)
    /\ count_sends (calls d') = 1%nat
    /\ snd (user_data d') = [0xAA].
Proof.
  apply (get_update_rate_end_to_end false 600 0 20 0 7 0 [0xAA] 10); lia.
Defined.

Lemma token_commands_end_to_end_witness :
  exists d',
    lw_grf250_reset false 8
      (scripted_device false 600 0
         (lw_create_packet LW_GRF250_COMMAND_TOKEN 0 (le_bytes 2 4660) 2
            ++ lw_create_packet LW_GRF250_COMMAND_RESET 1 [] 0 ++ []) 0)
      = Some (LW_RESULT_SUCCESS, d')
    /\ sent_bytes (request d')
       = lw_create_packet LW_GRF250_COMMAND_RESET 1 (le_bytes 2 4660) 2
    /\ count_sends (calls d') = 2%nat
    /\ snd (user_data d') = [].
Proof.
  destruct (token_commands_end_to_end false 600 0 4660 0 1 0 [] [] 8
              ltac:(lia) ltac:(cbn; lia) ltac:(lia) ltac:(cbn; lia)) as [H _].
  exact H.
Defined.

(** ** What a parser reads *)

(** X19: user data.  The generator takes exactly 16 bytes: any other size
    is answered [INVALID_PARAMETER] with the request left as it was.  The
    16 bytes written, sent and decoded come back from
    [lw_grf250_parse_response_user_data]; asked for fewer bytes, the parser
    overwrites just that many at the start of the caller's buffer, and asked
    for more than 16 it answers [INVALID_PARAMETER] whatever the response
    holds. *)
Theorem user_data_round_trip (LW : bool) r request (data out : list Z) :
  Z.of_nat (length (req_data request)) = LW_PACKET_SEND_SIZE ->
  wf_response LW r ->
  rsp_parse_state r = LW_PARSESTATE_START
    \/ rsp_parse_state r = LW_PARSESTATE_DONE ->
  length data = 16%nat ->
  length out = 16%nat ->
  (forall data_size, data_size <> 16 ->
     lw_grf250_create_request_write_user_data request data data_size
       = Some (LW_RESULT_INVALID_PARAMETER, request)) /\
  exists q r',
    lw_grf250_create_request_write_user_data request data 16
      = Some (LW_RESULT_SUCCESS, q)
    /\ req_command_id q = LW_GRF250_COMMAND_USER_DATA
    /\ feed_all LW r (sent_bytes q)
         = Some (repeat LW_RESULT_AGAIN 21 ++ [LW_RESULT_SUCCESS], r')
    /\ lw_grf250_parse_response_user_data r' out 16 = Some (LW_RESULT_SUCCESS, data)
    /\ (forall k, (k <= 16)%nat ->
          lw_grf250_parse_response_user_data r' out (Z.of_nat k)
            = Some (LW_RESULT_SUCCESS, take k data ++ drop k out))
    /\ (forall big any, 16 < big ->
          lw_grf250_parse_response_user_data any out big
            = Some (LW_RESULT_INVALID_PARAMETER, out)).
Proof.
  intros Hbuf Hwf Hst Hdata Hout. unfold LW_PACKET_SEND_SIZE in Hbuf.
  pose proof (recv_size_bounds LW) as Hb.
  split.
  { intros data_size Hne. unfold lw_grf250_create_request_write_user_data.
    rewrite decide_True by exact Hne. reflexivity. }
  destruct (write_round_trip LW r request LW_GRF250_COMMAND_USER_DATA data Hwf Hst
              ltac:(rewrite Hdata; lia))
    as (r' & Hfeed & _ & Hcmd & _ & Hid & Hwf' & Hparse).
  rewrite Hdata in Hfeed, Hcmd, Hparse. change (Z.of_nat 16) with 16 in *.
  assert (Hk : forall k, (k <= 16)%nat ->
            lw_grf250_parse_response_user_data r' out (Z.of_nat k)
              = Some (LW_RESULT_SUCCESS, take k data ++ drop k out)).
  { intros k Hle. unfold lw_grf250_parse_response_user_data.
    rewrite decide_False by lia.
    rewrite decide_False by (rewrite Hid; intros Hne; apply Hne; reflexivity).
    rewrite decide_True by lia.
    unfold lw_parse_response_data, parse_bytes in Hparse |- *.
    red in Hwf'.
    rewrite decide_True in Hparse by (rewrite Hwf'; change (u32 (4 + 0)) with 4; lia).
    rewrite decide_True by (rewrite Hwf'; change (u32 (4 + 0)) with 4; lia).
    cbn [mbind option_bind]. injection Hparse as Hslice.
    unfold lw_parse_packet_data, array_slice in Hslice |- *.
    rewrite Nat2Z.id. change (Z.to_nat 16) with 16%nat in Hslice.
    set (tail := drop (Z.to_nat (u32 (4 + 0))) (rsp_data r')) in *.
    assert (Htake : take k tail = take k data)
      by (rewrite <- Hslice, take_take; f_equal; lia).
    rewrite Htake, length_take, Hdata.
    replace (k `min` 16)%nat with k by lia. reflexivity. }
  eexists. exists r'.
  split.
  { unfold lw_grf250_create_request_write_user_data.
    rewrite decide_False by (intros Hne; apply Hne; reflexivity).
    unfold lw_create_request_write_data.
    rewrite decide_True by (rewrite Hdata; lia). reflexivity. }
  split; [exact Hcmd |]. split; [exact Hfeed |].
  split; [| split; [exact Hk |]].
  - change 16 with (Z.of_nat 16). rewrite (Hk 16%nat ltac:(lia)). do 2 f_equal.
    rewrite firstn_all2 by lia. rewrite drop_ge by lia. apply app_nil_r.
  - intros big any Hbig. unfold lw_grf250_parse_response_user_data.
    rewrite decide_True by lia. reflexivity.
Qed.

Lemma user_data_round_trip_witness :
  lw_grf250_create_request_write_user_data (mk_request (repeat 0 160%nat) 0 0)
    (repeat 7 16%nat) 15
    = Some (LW_RESULT_INVALID_PARAMETER, mk_request (repeat 0 160%nat) 0 0).
Proof.
  destruct (user_data_round_trip false (lw_init_response (zero_response false))
              (mk_request (repeat 0 160%nat) 0 0) (repeat 7 16%nat)
              (repeat 0 16%nat) eq_refl (zero_response_wf false)
              (or_introl eq_refl) eq_refl eq_refl) as [H _].
  apply H. lia.
Defined.

Ltac bind_step H :=
  match type of H with
  | mbind _ ?x = Some _ =>
      let E := fresh "E" in
      destruct x eqn:E; cbn [mbind option_bind] in H; [| discriminate H]
  | (if decide ?P then _ else _) = Some _ => destruct (decide P)
  end.

(** A call of the decoder stores at index [filled r] at most, and the
    count of filled positions grows by one at most. *)
Lemma feed_tail LW r b res r' (m : nat) :
  lw_feed_response LW r b = Some (res, r') ->
  filled r <= Z.of_nat m ->
  drop (S m) (rsp_data r') = drop (S m) (rsp_data r)
  /\ filled r' <= Z.of_nat (S m).
Proof.
  unfold lw_feed_response, filled. intros H Hm.
  destruct (rsp_parse_state r) eqn:Hst.
  - rewrite decide_False in H by discriminate. rewrite Hst in H.
    destruct (decide (b = LW_PACKET_START_BYTE)).
    + unfold array_set in H. destruct (decide _) in H; [| discriminate H].
      cbn [mbind option_bind] in H. injection H as _ <-.
      cbn [rsp_data rsp_parse_state]. split; [| lia].
      apply drop_insert_lt. cbn. lia.
    + injection H as _ <-. rewrite Hst. split; [reflexivity | lia].
  - rewrite decide_False in H by discriminate. rewrite Hst in H.
    unfold array_set in H. destruct (decide _) in H; [| discriminate H].
    cbn [mbind option_bind] in H. injection H as _ <-.
    cbn [rsp_data rsp_parse_state]. split; [| lia].
    apply drop_insert_lt. change (Z.to_nat 1) with 1%nat. lia.
  - rewrite decide_False in H by discriminate. rewrite Hst in H.
    unfold array_set in H. destruct (decide _) in H; [| discriminate H].
    cbn [mbind option_bind] in H.
    destruct (array_get _ 1) in H; [| discriminate H].
    cbn [mbind option_bind] in H.
    destruct (array_get _ 2) in H; [| discriminate H].
    cbn [mbind option_bind] in H. injection H as _ <-.
    cbn [rsp_data rsp_parse_state rsp_data_size]. split.
    + apply drop_insert_lt. change (Z.to_nat 2) with 2%nat. lia.
    + destruct (decide _); lia.
  - rewrite decide_False in H by discriminate. rewrite Hst in H.
    unfold array_set in H.
    destruct (decide (0 <= rsp_data_size r < Z.of_nat (length (rsp_data r))))
      as [Hin |] in H; [| discriminate H].
    cbn [mbind option_bind] in H.
    assert (Hnext : u32 (rsp_data_size r + 1) <= Z.of_nat (S m)).
    { unfold u32. pose proof (Z.mod_le (rsp_data_size r + 1) (2 ^ 32)
                                ltac:(lia) ltac:(lia)). lia. }
    assert (Hdrop : drop (S m) (<[Z.to_nat (rsp_data_size r) := b]> (rsp_data r))
                    = drop (S m) (rsp_data r))
      by (apply drop_insert_lt; lia).
    repeat bind_step H;
      injection H as _ <-; cbn [rsp_data rsp_parse_state rsp_data_size];
      (split; [exact Hdrop | first [exact Hnext | lia]]).
  - rewrite decide_True in H by reflexivity.
    cbn [lw_init_response rsp_parse_state rsp_data] in H.
    destruct (decide (b = LW_PACKET_START_BYTE)).
    + unfold array_set in H. destruct (decide _) in H; [| discriminate H].
      cbn [mbind option_bind] in H. injection H as _ <-.
      cbn [rsp_data rsp_parse_state]. split; [| lia].
      apply drop_insert_lt. cbn. lia.
    + injection H as _ <-. cbn [lw_init_response rsp_data rsp_parse_state].
      split; [reflexivity | lia].
Qed.

(** Bytes of the buffer behind the positions a run of calls can reach
    are what they were. *)
Lemma feed_all_tail LW bytes : forall r results r' (m : nat),
  feed_all LW r bytes = Some (results, r') ->
  filled r <= Z.of_nat m ->
  drop (m + length bytes) (rsp_data r') = drop (m + length bytes) (rsp_data r).
Proof.
  induction bytes as [| b bs IH]; intros r results r' m H Hm.
  - cbn in H. injection H as _ <-. reflexivity.
  - cbn [feed_all] in H.
    destruct (lw_feed_response LW r b) as [[res r1] |] eqn:Hstep; [| discriminate H].
    cbn [mbind option_bind] in H.
    destruct (feed_all LW r1 bs) as [[results1 final] |] eqn:Hrest; [| discriminate H].
    cbn [mbind option_bind] in H. injection H as _ <-.
    destruct (feed_tail LW r b res r1 m Hstep Hm) as [Hdrop Hfill].
    pose proof (IH r1 results1 final (S m) Hrest Hfill) as Htail.
    cbn [length]. replace (m + S (length bs))%nat with (S m + length bs)%nat by lia.
    rewrite Htail. rewrite <- !drop_drop. rewrite Hdrop. reflexivity.
Qed.

(** X20: the parsers never look at the payload length.  A reply to the
    update-rate command that carries no value at all (six bytes on the
    wire) is accepted by the decoder, and
    [lw_grf250_parse_response_update_rate] still answers [SUCCESS]: the
    number it hands back is made of the packet's two checksum bytes followed
    by the two bytes that earlier traffic left in the buffer at positions 6
    and 7. *)
Theorem short_reply_reads_stale_bytes (LW : bool) r (write out : Z) :
  wf_response LW r ->
  rsp_parse_state r = LW_PARSESTATE_START
    \/ rsp_parse_state r = LW_PARSESTATE_DONE ->
  let packet := lw_create_packet LW_GRF250_COMMAND_UPDATE_RATE write [] 0 in
  exists r',
    feed_all LW r packet
      = Some (repeat LW_RESULT_AGAIN 5 ++ [LW_RESULT_SUCCESS], r')
    /\ rsp_payload_size r' = 1
    /\ lw_grf250_parse_response_update_rate r' out
       = Some (LW_RESULT_SUCCESS,
               le_value (drop 4 packet ++ take 2 (drop 6 (rsp_data r)))).
Proof.
  intros Hwf Hst packet. pose proof (recv_size_bounds LW) as Hb.
  destruct (decode_created_packet LW r LW_GRF250_COMMAND_UPDATE_RATE write []
              Hwf Hst ltac:(cbn [length]; lia))
    as (r' & Hfeed & Hlen & _ & Hid & _ & Hps & Htake & Hwf' & _).
  cbn [length] in Hfeed, Hlen, Hps, Htake. change (Z.of_nat 0) with 0 in *.
  fold packet in Hfeed, Hlen, Htake. rewrite Hlen in Hfeed, Htake.
  exists r'. split; [exact Hfeed |]. split; [exact Hps |].
  assert (Htail : drop 6 (rsp_data r') = drop 6 (rsp_data r)).
  { pose proof (feed_all_tail LW packet r _ r' 0%nat Hfeed) as H.
    rewrite Hlen in H. apply H. unfold filled.
    destruct Hst as [-> | ->]; cbn; lia. }
  assert (Hbuf : rsp_data r' = packet ++ drop 6 (rsp_data r)).
  { rewrite <- (take_drop 6 (rsp_data r')). change (6 + 0)%nat with 6%nat in Htake.
    rewrite Htake, Htail. reflexivity. }
  unfold lw_grf250_parse_response_update_rate.
  rewrite decide_False by (rewrite Hid; intros Hne; apply Hne; reflexivity).
  unfold lw_parse_response_uint32, parse_bytes.
  rewrite decide_True
    by (red in Hwf'; rewrite Hwf'; change (u32 (4 + 0)) with 4; lia).
  cbn [mbind option_bind]. do 3 f_equal.
  unfold lw_parse_packet_data, array_slice.
  change (Z.to_nat (u32 (4 + 0))) with 4%nat. change (Z.to_nat 4) with 4%nat.
  rewrite Hbuf. rewrite drop_app_le by lia.
  rewrite take_app. rewrite length_drop, Hlen.
  rewrite (take_ge (drop 4 packet)) by (rewrite length_drop, Hlen; lia).
  reflexivity.
Qed.

Lemma short_reply_reads_stale_bytes_witness :
  exists r',
    feed_all false (decoder_after false (lw_create_packet 2 0 [1; 2; 3; 4] 4))
      (lw_create_packet LW_GRF250_COMMAND_UPDATE_RATE 0 [] 0)
      = Some (repeat LW_RESULT_AGAIN 5 ++ [LW_RESULT_SUCCESS], r')
    /\ rsp_payload_size r' = 1
    /\ lw_grf250_parse_response_update_rate r' 0
       = Some (LW_RESULT_SUCCESS,
               le_value (drop 4 (lw_create_packet LW_GRF250_COMMAND_UPDATE_RATE 0 [] 0)
                         ++ take 2 (drop 6 (rsp_data
                              (decoder_after false
                                 (lw_create_packet 2 0 [1; 2; 3; 4] 4)))))).
Proof.
  apply (short_reply_reads_stale_bytes false
           (decoder_after false (lw_create_packet 2 0 [1; 2; 3; 4] 4)) 0 0).
  - vm_compute. reflexivity.
  - right. vm_compute. reflexivity.
Defined.

(** ** Distance data *)

Lemma land_pow2 a k :
  0 <= k -> Z.land a (2 ^ k) = if Z.testbit a k then 2 ^ k else 0.
Proof.
  intros Hk. apply Z.bits_inj'. intros i Hi.
  rewrite Z.land_spec, Z.pow2_bits_eqb by lia.
  destruct (Z.eqb_spec k i) as [-> | Hne].
  - destruct (Z.testbit a i) eqn:Hbit.
    + rewrite Z.pow2_bits_true by lia. reflexivity.
    + rewrite Z.bits_0. reflexivity.
  - rewrite andb_false_r. destruct (Z.testbit a k).
    + rewrite Z.pow2_bits_false by lia. reflexivity.
    + rewrite Z.bits_0. reflexivity.
Qed.

Lemma fields_before_range config k : 0 <= fields_before config k <= Z.of_nat k.
Proof.
  induction k as [| k IH]; [cbn; lia |].
  cbn [fields_before]. destruct (Z.testbit config (Z.of_nat k)); lia.
Qed.

Lemma parse_field_step response config (k : nat) scale store dd off st' :
  parse_field response config (Z.shiftl 1 (Z.of_nat k)) scale store (dd, off)
    = Some st' ->
  off = 4 * fields_before config k ->
  (k <= 7)%nat ->
  snd st' = 4 * fields_before config (S k) /\
  exists v,
    fst st' = (if Z.testbit config (Z.of_nat k) then store v dd else dd) /\
    (Z.testbit config (Z.of_nat k) = true ->
     exists raw,
       lw_parse_response_int32 response off = Some raw
       /\ v = match scale with Some s => s | None => 1 end * raw).
Proof.
  intros H Hoff Hk. pose proof (fields_before_range config k) as Hr.
  unfold parse_field in H. rewrite Z.shiftl_1_l in H.
  rewrite land_pow2 in H by lia. cbn [fields_before].
  assert (Hpos : 0 < 2 ^ Z.of_nat k) by (apply Z.pow_pos_nonneg; lia).
  destruct (Z.testbit config (Z.of_nat k)).
  - rewrite decide_True in H by lia.
    destruct (lw_parse_response_int32 response off) as [raw |] eqn:Hraw;
      [| discriminate H].
    cbn [mbind option_bind] in H.
    assert (Hv : exists v,
              match scale with Some s => int32_checked (raw * s) | None => Some raw end
                = Some v
              /\ v = match scale with Some s => s | None => 1 end * raw).
    { destruct scale as [s |].
      - unfold int32_checked in H |- *. destruct (decide _) in H |- *.
        + eexists. split; [reflexivity | lia].
        + discriminate H.
      - exists raw. split; [reflexivity | lia]. }
    destruct Hv as (v & Hsome & Hval). rewrite Hsome in H.
    cbn [mbind option_bind] in H. injection H as <-. cbn [fst snd].
    split; [rewrite u32_small by lia; lia |].
    exists v. split; [reflexivity |]. intros _. exists raw. auto.
  - rewrite decide_False in H by lia. injection H as <-. cbn [fst snd].
    split; [lia |]. exists 0. split; [reflexivity | intros Hf; discriminate Hf].
Qed.

Lemma if_store_other (b : bool) (field : lw_grf250_distance_data -> Z)
    (store : Z -> lw_grf250_distance_data -> lw_grf250_distance_data) v d :
  (forall v d, field (store v d) = field d) ->
  field (if b then store v d else d) = field d.
Proof. intros H. destruct b; [apply H | reflexivity]. Qed.

Lemma if_store_same (b : bool) (field : lw_grf250_distance_data -> Z)
    (store : Z -> lw_grf250_distance_data -> lw_grf250_distance_data) v d :
  (forall v d, field (store v d) = v) ->
  field (if b then store v d else d) = if b then v else field d.
Proof. intros H. destruct b; [apply H | reflexivity]. Qed.

(** Follow a field back through the blocks that ran. *)
Ltac through_blocks F :=
  repeat match goal with
  | H : ?d = (if _ then _ else _) |- context [F ?d] =>
      rewrite H;
      first [ rewrite (if_store_other _ F) by (intros; reflexivity)
            | rewrite (if_store_same _ F) by (intros; reflexivity) ]
  end.

Ltac field_case F Hv Hoff :=
  through_blocks F;
  match goal with
  | |- if Z.testbit ?c ?k then _ else _ =>
      destruct (Z.testbit c k) eqn:Hbit; [| reflexivity];
      let raw := fresh "raw" in
      let Hraw := fresh "Hraw" in
      let Hval := fresh "Hval" in
      destruct (Hv eq_refl) as (raw & Hraw & Hval);
      exists raw; split;
        [first [exact Hraw | rewrite <- Hoff; exact Hraw] | exact Hval]
  end.

(** X21: where [lw_grf250_parse_response_distance_data] finds each field.
    The payload holds one 32-bit number for every bit set in [config], in
    bit order and with no gaps: the field of bit [k] is read at offset 4
    times the number of set bits below [k], the raw and filtered distances
    are multiplied by 100, and a field whose bit is clear keeps the value
    the caller's record had.  So the same payload read with a different
    [config] puts the numbers into different fields. *)
Theorem distance_data_layout response (config : Z) distance_data result :
  lw_grf250_parse_response_distance_data response config distance_data
    = Some (LW_RESULT_SUCCESS, result) ->
  forall (k : nat) (scale : Z) field,
    (k, scale, field) ∈ distance_fields ->
    if Z.testbit config (Z.of_nat k)
    then exists raw,
           lw_parse_response_int32 response (4 * fields_before config k) = Some raw
           /\ field result = scale * raw
    else field result = field distance_data.
Proof.
  unfold lw_grf250_parse_response_distance_data. intros H.
  destruct (decide _) in H; [discriminate H |].
  destruct (parse_field response config LW_GRF250_DISTANCE_CONFIG_FIRST_RETURN_RAW
              _ _ _) as [[d1 o1] |] eqn:H1; [| discriminate H].
  cbn [mbind option_bind] in H.
  destruct (parse_field response config
              LW_GRF250_DISTANCE_CONFIG_FIRST_RETURN_FILTERED _ _ _)
    as [[d2 o2] |] eqn:H2; [| discriminate H].
  cbn [mbind option_bind] in H.
  destruct (parse_field response config
              LW_GRF250_DISTANCE_CONFIG_FIRST_RETURN_STRENGTH _ _ _)
    as [[d3 o3] |] eqn:H3; [| discriminate H].
  cbn [mbind option_bind] in H.
  destruct (parse_field response config LW_GRF250_DISTANCE_CONFIG_LAST_RETURN_RAW
              _ _ _) as [[d4 o4] |] eqn:H4; [| discriminate H].
  cbn [mbind option_bind] in H.
  destruct (parse_field response config
              LW_GRF250_DISTANCE_CONFIG_LAST_RETURN_FILTERED _ _ _)
    as [[d5 o5] |] eqn:H5; [| discriminate H].
  cbn [mbind option_bind] in H.
  destruct (parse_field response config
              LW_GRF250_DISTANCE_CONFIG_LAST_RETURN_STRENGTH _ _ _)
    as [[d6 o6] |] eqn:H6; [| discriminate H].
  cbn [mbind option_bind] in H.
  destruct (parse_field response config LW_GRF250_DISTANCE_CONFIG_TEMPERATURE
              _ _ _) as [[d7 o7] |] eqn:H7; [| discriminate H].
  cbn [mbind option_bind] in H.
  destruct (parse_field response config LW_GRF250_DISTANCE_CONFIG_ALARM_STATUS
              _ _ _) as [[d8 o8] |] eqn:H8; [| discriminate H].
  cbn [mbind option_bind fst] in H. injection H as <-.
  destruct (parse_field_step response config 0 _ _ _ _ _ H1 eq_refl ltac:(lia))
    as (Ho1 & v1 & Hd1 & Hv1).
  cbn [fst snd] in Ho1, Hd1.
  destruct (parse_field_step response config 1 _ _ _ _ _ H2 Ho1 ltac:(lia))
    as (Ho2 & v2 & Hd2 & Hv2).
  cbn [fst snd] in Ho2, Hd2.
  destruct (parse_field_step response config 2 _ _ _ _ _ H3 Ho2 ltac:(lia))
    as (Ho3 & v3 & Hd3 & Hv3).
  cbn [fst snd] in Ho3, Hd3.
  destruct (parse_field_step response config 3 _ _ _ _ _ H4 Ho3 ltac:(lia))
    as (Ho4 & v4 & Hd4 & Hv4).
  cbn [fst snd] in Ho4, Hd4.
  destruct (parse_field_step response config 4 _ _ _ _ _ H5 Ho4 ltac:(lia))
    as (Ho5 & v5 & Hd5 & Hv5).
  cbn [fst snd] in Ho5, Hd5.
  destruct (parse_field_step response config 5 _ _ _ _ _ H6 Ho5 ltac:(lia))
    as (Ho6 & v6 & Hd6 & Hv6).
  cbn [fst snd] in Ho6, Hd6.
  destruct (parse_field_step response config 6 _ _ _ _ _ H7 Ho6 ltac:(lia))
    as (Ho7 & v7 & Hd7 & Hv7).
  cbn [fst snd] in Ho7, Hd7.
  destruct (parse_field_step response config 7 _ _ _ _ _ H8 Ho7 ltac:(lia))
    as (Ho8 & v8 & Hd8 & Hv8).
  cbn [fst snd] in Ho8, Hd8.
  clear H1 H2 H3 H4 H5 H6 H7 H8.
  intros k scale field Hin. unfold distance_fields in Hin.
  repeat (apply elem_of_cons in Hin as [Hin | Hin];
          [injection Hin as -> -> -> |]);
    [.. | apply elem_of_nil in Hin; contradiction].
  - field_case first_return_raw_mm Hv1 (eq_refl (4 * fields_before config 0)).
  - field_case first_return_filtered_mm Hv2 Ho1.
  - field_case first_return_strength Hv3 Ho2.
  - field_case last_return_raw_mm Hv4 Ho3.
  - field_case last_return_filtered_mm Hv5 Ho4.
  - field_case last_return_strength Hv6 Ho5.
  - field_case temperature Hv7 Ho6.
  - field_case alarm_status Hv8 Ho7.
Qed.

Lemma distance_data_layout_witness :
  let response :=
    decoder_after false
      (lw_create_packet 44 0 [12; 0; 0; 0; 253; 255; 255; 255] 8) in
  exists raw,
    lw_parse_response_int32 response (4 * fields_before 65 6) = Some raw
    /\ temperature (mk_distance_data 1200 0 0 0 0 0 (-3) 0) = 1 * raw.
Proof.
  intros response.
  exact (distance_data_layout response 65 (mk_distance_data 0 0 0 0 0 0 0 0)
           (mk_distance_data 1200 0 0 0 0 0 (-3) 0)
           ltac:(vm_compute; reflexivity) 6%nat 1 temperature
           ltac:(do 6 apply list_elem_of_further; apply list_elem_of_here)).
Defined.

(** ** Packets that are not the reply *)

Section ScriptedSkip.

Variable LW : bool.
Variables tick idle : Z.

(** A complete packet with another command id is waiting: the loop takes
    its bytes and goes on waiting. *)
Lemma scripted_wait_skip command_id timeout_ms timeout_time rest r1 :
  forall bytes d,
  on_scripted_platform tick idle d ->
  snd (user_data d) = bytes ++ rest ->
  bytes <> [] ->
  feed_all LW (response d) bytes =
    Some (repeat LW_RESULT_AGAIN (length bytes - 1) ++ [LW_RESULT_SUCCESS], r1) ->
  command_id <> LW_ANY_COMMAND ->
  rsp_command_id r1 <> command_id ->
  exists d1,
    on_scripted_platform tick idle d1
    /\ snd (user_data d1) = rest
    /\ response d1 = r1
    /\ request d1 = request d
    /\ count_sends (calls d1) = count_sends (calls d)
    /\ forall fuel,
         wait_loop LW (length bytes + fuel) d command_id timeout_ms timeout_time
           = wait_loop LW fuel d1 command_id timeout_ms timeout_time.
Proof.
  induction bytes as [| b bs IH]; intros d Hplat Hin Hne Hfeed Hany Hid;
    [contradiction |].
  destruct (scripted_time_left tick idle d timeout_ms timeout_time Hplat)
    as (tl & d1 & Htl & Hplat1 & Hu1 & Hr1 & Hq1 & Hc1).
  destruct (scripted_receive_byte tick idle d1 b (bs ++ rest) tl Hplat1
              ltac:(rewrite Hu1; exact Hin))
    as (d2 & Hrecv & Hplat2 & Hu2 & Hr2 & Hq2 & Hc2).
  cbn [feed_all] in Hfeed.
  destruct (lw_feed_response LW (response d) b) as [[res r'] |] eqn:Hstep;
    [| discriminate Hfeed].
  cbn [mbind option_bind] in Hfeed.
  destruct (feed_all LW r' bs) as [[results final] |] eqn:Hrest;
    [| discriminate Hfeed].
  cbn [mbind option_bind] in Hfeed. injection Hfeed as Hres Hfinal.
  subst final. cbn [length] in Hres. rewrite Nat.sub_0_r in Hres.
  assert (Hiter : forall out,
            (if decide (res = LW_RESULT_SUCCESS)
             then if decide (command_id = LW_ANY_COMMAND
                             \/ rsp_command_id r' = command_id)
                  then Some (Some LW_RESULT_SUCCESS, set_response d2 r')
                  else Some (None, set_response d2 r')
             else Some (None, set_response d2 r')) = out ->
            wait_iteration LW d command_id timeout_ms timeout_time = out).
  { intros out <-.
    rewrite (wait_iteration_eq LW d command_id timeout_ms timeout_time tl d1 1 b d2
               Htl Hrecv).
    rewrite decide_False by lia. rewrite decide_True by lia.
    rewrite Hr2, Hr1, Hstep. reflexivity. }
  destruct bs as [| b' bs'].
  - cbn in Hres. injection Hres as Hr Hrs.
    cbn [feed_all] in Hrest. assert (Hrr : r' = r1) by congruence.
    subst r1. subst res.
    exists (set_response d2 r').
    split; [exact Hplat2 |]. split; [exact Hu2 |]. split; [reflexivity |].
    cbn [set_response request calls].
    split; [congruence |]. split; [congruence |].
    intros fuel. cbn [length Nat.add wait_loop].
    rewrite (Hiter (Some (None, set_response d2 r'))); [reflexivity |].
    rewrite decide_True by reflexivity.
    rewrite decide_False by (intros [Ha | Hi]; contradiction). reflexivity.
  - cbn [length repeat app] in Hres. injection Hres as Hr Hrs. subst res.
    destruct (IH (set_response d2 r')) as (d3 & Hp & Hu & Hr' & Hq & Hc & Hloop).
    + exact Hplat2.
    + exact Hu2.
    + discriminate.
    + cbn [set_response response]. rewrite Hrest.
      replace (length (b' :: bs') - 1)%nat with (length bs')
        by (cbn [length]; lia).
      congruence.
    + exact Hany.
    + exact Hid.
    + exists d3. split; [exact Hp |]. split; [exact Hu |]. split; [exact Hr' |].
      cbn [set_response request calls] in Hq, Hc.
      split; [congruence |]. split; [congruence |].
      intros fuel. cbn [length Nat.add wait_loop].
      rewrite (Hiter (Some (None, set_response d2 r'))).
      * apply Hloop.
      * rewrite decide_False by discriminate. reflexivity.
Qed.

(** X22: a packet that is not the reply does not disturb the exchange.
    When a complete packet with another command id (a streamed measurement,
    say) is on the line ahead of the update-rate reply,
    [lw_grf250_get_update_rate] reads past it within the same attempt: the
    request is sent once, both packets are consumed, and the value of the
    reply is returned. *)
Theorem get_update_rate_skips_other_packet (rate other w1 w2 out cmd0 : Z)
    (noise rest : list Z) (fuel : nat) :
  0 <= rate < 2 ^ 32 ->
  other <> LW_GRF250_COMMAND_UPDATE_RATE ->
  Z.of_nat (length noise) <= 58 ->
  (16 + length noise <= fuel)%nat ->
  let stray := lw_create_packet other w1 noise (Z.of_nat (length noise)) in
  let reply :=
    lw_create_packet LW_GRF250_COMMAND_UPDATE_RATE w2 (le_bytes 4 rate) 4 in
  exists d',
    lw_grf250_get_update_rate LW fuel
      (scripted_device LW tick idle (stray ++ reply ++ rest) cmd0) out
      = Some (LW_RESULT_SUCCESS, d', rate)
    /\ count_sends (calls d') = 1%nat
    /\ snd (user_data d') = rest.
Proof.
  intros Hrate Hother Hnoise Hfuel stray reply.
  pose proof (recv_size_bounds LW) as Hb.
  set (d := scripted_device LW tick idle (stray ++ reply ++ rest) cmd0).
  unfold lw_grf250_get_update_rate, lw_grf250_create_request_read_update_rate.
  rewrite decide_False by (intros Hne; apply Hne; reflexivity).
  set (d0 := set_request d
               (lw_create_request_read (request d) LW_GRF250_COMMAND_UPDATE_RATE)).
  destruct (decode_reply LW (response d0) other w1 noise (zero_response_wf LW)
              (or_introl eq_refl) ltac:(lia))
    as (r1 & Hfeed1 & Hlen1 & Hdone1 & Hid1 & Hwf1 & _).
  fold stray in Hfeed1, Hlen1.
  destruct (decode_reply LW r1 LW_GRF250_COMMAND_UPDATE_RATE w2 (le_bytes 4 rate)
              Hwf1 (or_intror Hdone1) ltac:(cbn [length le_bytes]; lia))
    as (r2 & Hfeed2 & Hlen2 & _ & Hid2 & Hwf2 & Hparse).
  change (Z.of_nat (length (le_bytes 4 rate))) with 4 in Hfeed2, Hlen2, Hparse.
  fold reply in Hfeed2, Hlen2.
  unfold lw_send_request_get_response.
  change (Z.to_nat LW_REQUEST_RETRIES) with 4%nat. cbn [send_attempts].
  destruct (call_serial_send d0 (req_data (request d0)) (req_data_size (request d0)))
    as [sent dS] eqn:Hsend.
  assert (HdS : sent = 6 /\ on_scripted_platform tick idle dS
                /\ snd (user_data dS) = stray ++ reply ++ rest
                /\ response dS = response d0
                /\ request dS = request d0
                /\ count_sends (calls dS) = 1%nat).
  { unfold call_serial_send in Hsend. cbn in Hsend. injection Hsend as <- <-.
    split; [reflexivity |]. split; [split; [| split]; reflexivity |].
    split; [reflexivity |]. split; [reflexivity |]. split; reflexivity. }
  destruct HdS as (-> & HpS & HuS & HrS & HqS & HcS).
  rewrite decide_False by lia.
  unfold lw_wait_for_next_response, wait_deadline.
  rewrite decide_True by (unfold LW_RESPONSE_TIMEOUT_MS; lia).
  destruct (call_get_time_ms dS) as [now dT] eqn:Htime.
  assert (HdT : on_scripted_platform tick idle dT
                /\ snd (user_data dT) = stray ++ reply ++ rest
                /\ response dT = response d0
                /\ request dT = request d0
                /\ count_sends (calls dT) = 1%nat).
  { unfold call_get_time_ms in Htime. destruct HpS as (Hclock & Hsnd & Hrcv).
    rewrite Hclock in Htime. unfold scripted_clock in Htime.
    injection Htime as _ <-.
    cbn [after_call user_data response request calls get_time_ms serial_send
         serial_receive snd].
    split; [split; [| split]; assumption |].
    split; [exact HuS |]. split; [exact HrS |]. split; [exact HqS |].
    rewrite count_sends_get_time. exact HcS. }
  destruct HdT as (HpT & HuT & HrT & HqT & HcT).
  rewrite HqS.
  change (req_command_id (request d0)) with LW_GRF250_COMMAND_UPDATE_RATE.
  destruct (scripted_wait_skip LW_GRF250_COMMAND_UPDATE_RATE LW_RESPONSE_TIMEOUT_MS
              (u32 (now + LW_RESPONSE_TIMEOUT_MS)) (reply ++ rest) r1 stray dT)
    as (d1 & Hp1 & Hu1 & Hr1 & Hq1 & Hc1 & Hskip).
  - exact HpT.
  - exact HuT.
  - intros Hnil. rewrite Hnil in Hlen1. discriminate Hlen1.
  - rewrite HrT. exact Hfeed1.
  - discriminate.
  - rewrite Hid1. exact Hother.
  - destruct (scripted_wait_loop LW tick idle LW_GRF250_COMMAND_UPDATE_RATE
                LW_RESPONSE_TIMEOUT_MS (u32 (now + LW_RESPONSE_TIMEOUT_MS))
                rest r2 reply (fuel - length stray) d1)
      as (d' & Hloop & _ & Hu & Hr & _ & Hc).
    + exact Hp1.
    + exact Hu1.
    + intros Hnil. rewrite Hnil in Hlen2. discriminate Hlen2.
    + rewrite Hlen1, Hlen2. cbn [length le_bytes]. lia.
    + rewrite Hr1. exact Hfeed2.
    + right. exact Hid2.
    + replace fuel with (length stray + (fuel - length stray))%nat
        by (rewrite Hlen1; lia).
      rewrite Hskip, Hloop. rewrite decide_True by reflexivity.
      cbn [mbind option_bind].
      rewrite decide_False by (intros Hne; apply Hne; reflexivity).
      rewrite Hr. unfold lw_grf250_parse_response_update_rate.
      rewrite decide_False by (rewrite Hid2; intros Hne; apply Hne; reflexivity).
      unfold lw_parse_response_uint32. rewrite Hparse. cbn [mbind option_bind].
      rewrite (le_value_unsigned 4 rate) by exact Hrate.
      exists d'. split; [reflexivity |]. split; [| exact Hu].
      rewrite Hc, Hc1. exact HcT.
Qed.

End ScriptedSkip.

Lemma get_update_rate_skips_other_packet_witness :
  exists d',
    lw_grf250_get_update_rate false 24
      (scripted_device false 600 0
         (lw_create_packet 44 0 [1; 2; 3; 4] (Z.of_nat (length [1; 2; 3; 4]))
            ++ lw_create_packet LW_GRF250_COMMAND_UPDATE_RATE 0 (le_bytes 4 20) 4
            ++ []) 0) 7
      = Some (LW_RESULT_SUCCESS, d', 20)
    /\ count_sends (calls d') = 1%nat
    /\ snd (user_data d') = [].
Proof.
  apply (get_update_rate_skips_other_packet false 600 0 20 44 0 0 7 0
           [1; 2; 3; 4] [] 24).
  - lia.
  - discriminate.
  - cbn. lia.
  - cbn. lia.
Defined.

(** ** Alarm status *)

Lemma le_value_low b rest :
  is_byte b -> Z.land (le_value (b :: rest)) 0xFF = b.
Proof.
  unfold is_byte. intros Hb. cbn [le_value].
  change 0xFF with (Z.ones 8). rewrite Z.land_ones by lia.
  apply Z.bits_inj'. intros i Hi.
  destruct (decide (i < 8)) as [Hlo | Hhi].
  - rewrite Z.mod_pow2_bits_low by lia. rewrite Z.lor_spec.
    rewrite Z.shiftl_spec_low by lia. apply orb_false_r.
  - rewrite Z.mod_pow2_bits_high by lia. symmetry.
    destruct (decide (b = 0)) as [-> | Hnz]; [apply Z.bits_0 |].
    apply Z.bits_above_log2; [lia |].
    apply Z.log2_lt_pow2; [lia |].
    apply Z.lt_le_trans with (2 ^ 8); [lia |].
    apply Z.pow_le_mono_r; lia.
Qed.

Lemma le_value_high b rest :
  is_byte b -> Z.shiftr (le_value (b :: rest)) 8 = le_value rest.
Proof.
  unfold is_byte. intros Hb. cbn [le_value].
  rewrite Z.shiftr_lor. rewrite Z.shiftr_shiftl_l by lia.
  change (8 - 8) with 0. rewrite Z.shiftl_0_r.
  rewrite Z.shiftr_div_pow2 by lia. rewrite Z.div_small by lia.
  apply Z.lor_0_l.
Qed.

(** X23: of the four payload bytes of an alarm-status reply,
    [lw_grf250_parse_response_alarm_status] reports the first as alarm A and
    the second as alarm B, whole bytes and not just a flag bit each; the
    third and fourth byte have no influence on the result. *)
Theorem alarm_status_bytes (LW : bool) r (write b0 b1 b2 b3 : Z) out :
  wf_response LW r ->
  rsp_parse_state r = LW_PARSESTATE_START
    \/ rsp_parse_state r = LW_PARSESTATE_DONE ->
  is_byte b0 -> is_byte b1 -> is_byte b2 -> is_byte b3 ->
  let reply :=
    lw_create_packet LW_GRF250_COMMAND_ALARM_STATUS write [b0; b1; b2; b3] 4 in
  exists r',
    feed_all LW r reply = Some (repeat LW_RESULT_AGAIN 9 ++ [LW_RESULT_SUCCESS], r')
    /\ lw_grf250_parse_response_alarm_status r' out
       = Some (LW_RESULT_SUCCESS, {| alarm_a := b0; alarm_b := b1 |}).
Proof.
  intros Hwf Hst H0 H1 H2 H3 reply. pose proof (recv_size_bounds LW) as Hb.
  destruct (decode_reply LW r LW_GRF250_COMMAND_ALARM_STATUS write [b0; b1; b2; b3]
              Hwf Hst ltac:(cbn [length]; lia))
    as (r' & Hfeed & Hlen & _ & Hid & _ & Hparse).
  change (Z.of_nat (length [b0; b1; b2; b3])) with 4 in Hfeed, Hlen, Hparse.
  fold reply in Hfeed, Hlen. rewrite Hlen in Hfeed.
  exists r'. split; [exact Hfeed |].
  unfold lw_grf250_parse_response_alarm_status.
  rewrite decide_False by (rewrite Hid; intros Hne; apply Hne; reflexivity).
  unfold lw_parse_response_uint32. rewrite Hparse. cbn [mbind option_bind].
  rewrite Z.shiftr_0_r. rewrite (le_value_low b0) by exact H0.
  rewrite (le_value_high b0) by exact H0.
  rewrite (le_value_low b1) by exact H1.
  unfold is_byte in H0, H1. rewrite (u8_small b0), (u8_small b1) by lia.
  reflexivity.
Qed.

Lemma alarm_status_bytes_witness :
  exists r',
    feed_all false (lw_init_response (zero_response false))
      (lw_create_packet LW_GRF250_COMMAND_ALARM_STATUS 0 [1; 2; 255; 255] 4)
      = Some (repeat LW_RESULT_AGAIN 9 ++ [LW_RESULT_SUCCESS], r')
    /\ lw_grf250_parse_response_alarm_status r' (mk_alarm_status 0 0)
       = Some (LW_RESULT_SUCCESS, {| alarm_a := 1; alarm_b := 2 |}).
Proof.
  apply (alarm_status_bytes false (lw_init_response (zero_response false))
           0 1 2 255 255 (mk_alarm_status 0 0) (zero_response_wf false)
           (or_introl eq_refl)); unfold is_byte; lia.
Defined.

(** ** Distance data: when the parser is defined *)

Lemma parse_int32_defined LW response off :
  wf_response LW response -> 0 <= off <= 28 ->
  exists raw, lw_parse_response_int32 response off = Some raw.
Proof.
  intros Hwf Hoff. pose proof (recv_size_bounds LW) as Hb. red in Hwf.
  unfold lw_parse_response_int32, parse_bytes.
  rewrite decide_True by (rewrite u32_small by lia; lia).
  cbn [mbind option_bind]. eexists. reflexivity.
Qed.

Lemma parse_field_defined LW response config (k : nat) scale store dd off :
  wf_response LW response ->
  (forall slot raw,
     0 <= slot <= 7 ->
     lw_parse_response_int32 response (4 * slot) = Some raw ->
     -21474836 <= raw <= 21474836) ->
  scale = None \/ scale = Some 100 ->
  off = 4 * fields_before config k ->
  (k <= 7)%nat ->
  exists st',
    parse_field response config (Z.shiftl 1 (Z.of_nat k)) scale store (dd, off)
      = Some st'.
Proof.
  intros Hwf Hsmall Hscale Hoff Hk. pose proof (fields_before_range config k) as Hr.
  unfold parse_field. destruct (decide _); [| eexists; reflexivity].
  destruct (parse_int32_defined LW response off Hwf ltac:(lia)) as (raw & Hraw).
  rewrite Hraw. cbn [mbind option_bind].
  pose proof (Hsmall (fields_before config k) raw ltac:(lia)
                ltac:(rewrite <- Hoff; exact Hraw)) as Hbound.
  destruct Hscale as [-> | ->].
  - cbn [mbind option_bind]. eexists. reflexivity.
  - unfold int32_checked. rewrite decide_True by lia.
    cbn [mbind option_bind]. eexists. reflexivity.
Qed.

(** X24: [lw_grf250_parse_response_distance_data] on a response to the
    distance-data command is defined and answers [SUCCESS] for every
    [config], provided each 32-bit number in the first 32 payload bytes lies
    within plus or minus 21474836: it reads no further than payload offset
    32, which is inside even the 64-byte receive buffer, and within that
    bound the multiplication by 100 stays inside [int32_t]. *)
Theorem distance_data_defined (LW : bool) response (config : Z) distance_data :
  wf_response LW response ->
  rsp_command_id response = LW_GRF250_COMMAND_DISTANCE_DATA ->
  (forall slot raw,
     0 <= slot <= 7 ->
     lw_parse_response_int32 response (4 * slot) = Some raw ->
     -21474836 <= raw <= 21474836) ->
  exists result,
    lw_grf250_parse_response_distance_data response config distance_data
      = Some (LW_RESULT_SUCCESS, result).
Proof.
  intros Hwf Hid Hsmall. unfold lw_grf250_parse_response_distance_data.
  rewrite decide_False by (rewrite Hid; intros Hne; apply Hne; reflexivity).
  destruct (parse_field_defined LW response config 0 (Some 100)
              set_first_return_raw_mm distance_data 0 Hwf Hsmall
              ltac:(right; reflexivity) eq_refl ltac:(lia)) as ([d1 o1] & H1).
  destruct (parse_field_step response config 0 _ _ _ _ _ H1 eq_refl ltac:(lia))
    as (Ho1 & _).
  change (parse_field response config LW_GRF250_DISTANCE_CONFIG_FIRST_RETURN_RAW
            (Some 100) set_first_return_raw_mm (distance_data, 0)) with
    (parse_field response config (Z.shiftl 1 (Z.of_nat 0)) (Some 100)
       set_first_return_raw_mm (distance_data, 0)).
  rewrite H1. cbn [mbind option_bind]. cbn [snd] in Ho1.
  destruct (parse_field_defined LW response config 1 (Some 100)
              set_first_return_filtered_mm d1 o1 Hwf Hsmall
              ltac:(right; reflexivity) Ho1 ltac:(lia)) as ([d2 o2] & H2).
  destruct (parse_field_step response config 1 _ _ _ _ _ H2 Ho1 ltac:(lia))
    as (Ho2 & _).
  change LW_GRF250_DISTANCE_CONFIG_FIRST_RETURN_FILTERED
    with (Z.shiftl 1 (Z.of_nat 1)).
  rewrite H2. cbn [mbind option_bind]. cbn [snd] in Ho2.
  destruct (parse_field_defined LW response config 2 None
              set_first_return_strength d2 o2 Hwf Hsmall
              ltac:(left; reflexivity) Ho2 ltac:(lia)) as ([d3 o3] & H3).
  destruct (parse_field_step response config 2 _ _ _ _ _ H3 Ho2 ltac:(lia))
    as (Ho3 & _).
  change LW_GRF250_DISTANCE_CONFIG_FIRST_RETURN_STRENGTH
    with (Z.shiftl 1 (Z.of_nat 2)).
  rewrite H3. cbn [mbind option_bind]. cbn [snd] in Ho3.
  destruct (parse_field_defined LW response config 3 (Some 100)
              set_last_return_raw_mm d3 o3 Hwf Hsmall
              ltac:(right; reflexivity) Ho3 ltac:(lia)) as ([d4 o4] & H4).
  destruct (parse_field_step response config 3 _ _ _ _ _ H4 Ho3 ltac:(lia))
    as (Ho4 & _).
  change LW_GRF250_DISTANCE_CONFIG_LAST_RETURN_RAW
    with (Z.shiftl 1 (Z.of_nat 3)).
  rewrite H4. cbn [mbind option_bind]. cbn [snd] in Ho4.
  destruct (parse_field_defined LW response config 4 (Some 100)
              set_last_return_filtered_mm d4 o4 Hwf Hsmall
              ltac:(right; reflexivity) Ho4 ltac:(lia)) as ([d5 o5] & H5).
  destruct (parse_field_step response config 4 _ _ _ _ _ H5 Ho4 ltac:(lia))
    as (Ho5 & _).
  change LW_GRF250_DISTANCE_CONFIG_LAST_RETURN_FILTERED
    with (Z.shiftl 1 (Z.of_nat 4)).
  rewrite H5. cbn [mbind option_bind]. cbn [snd] in Ho5.
  destruct (parse_field_defined LW response config 5 None
              set_last_return_strength d5 o5 Hwf Hsmall
              ltac:(left; reflexivity) Ho5 ltac:(lia)) as ([d6 o6] & H6).
  destruct (parse_field_step response config 5 _ _ _ _ _ H6 Ho5 ltac:(lia))
    as (Ho6 & _).
  change LW_GRF250_DISTANCE_CONFIG_LAST_RETURN_STRENGTH
    with (Z.shiftl 1 (Z.of_nat 5)).
  rewrite H6. cbn [mbind option_bind]. cbn [snd] in Ho6.
  destruct (parse_field_defined LW response config 6 None
              set_temperature d6 o6 Hwf Hsmall
              ltac:(left; reflexivity) Ho6 ltac:(lia)) as ([d7 o7] & H7).
  destruct (parse_field_step response config 6 _ _ _ _ _ H7 Ho6 ltac:(lia))
    as (Ho7 & _).
  change LW_GRF250_DISTANCE_CONFIG_TEMPERATURE with (Z.shiftl 1 (Z.of_nat 6)).
  rewrite H7. cbn [mbind option_bind]. cbn [snd] in Ho7.
  destruct (parse_field_defined LW response config 7 None
              set_alarm_status d7 o7 Hwf Hsmall
              ltac:(left; reflexivity) Ho7 ltac:(lia)) as ([d8 o8] & H8).
  change LW_GRF250_DISTANCE_CONFIG_ALARM_STATUS with (Z.shiftl 1 (Z.of_nat 7)).
  rewrite H8. cbn [mbind option_bind]. eexists. reflexivity.
Qed.

Lemma distance_data_defined_witness :
  exists result,
    lw_grf250_parse_response_distance_data
      (decoder_after false
         (lw_create_packet 44 0 [12; 0; 0; 0; 253; 255; 255; 255] 8))
      255 (mk_distance_data 0 0 0 0 0 0 0 0)
      = Some (LW_RESULT_SUCCESS, result).
Proof.
  set (response := decoder_after false
                     (lw_create_packet 44 0 [12; 0; 0; 0; 253; 255; 255; 255] 8)).
  apply (distance_data_defined false response 255 (mk_distance_data 0 0 0 0 0 0 0 0)).
  - vm_compute. reflexivity.
  - vm_compute. reflexivity.
  - intros slot raw Hslot Hraw.
    assert (Hall : holds_from
                     (fun j =>
                        match lw_parse_response_int32 response (4 * j) with
                        | Some v => (-21474836 <=? v) && (v <=? 21474836)
                        | None => true
                        end) 8 0 = true) by (vm_compute; reflexivity).
    pose proof (holds_from_spec _ 8 0 Hall slot ltac:(lia)) as Hp.
    cbv beta in Hp. rewrite Hraw in Hp. lia.
Defined.

(** ** Values without a range check *)

(** X25: the firmware version on the wire.  Of the four payload bytes of
    a firmware-version reply, [lw_grf250_parse_response_firmware_version]
    followed by [lw_expand_firmware_version] (as
    [lw_grf250_get_product_info] applies them) reports the first byte as
    patch, the second as minor and the third as major; the fourth byte has
    no influence on the three fields. *)
Theorem firmware_version_from_reply (LW : bool) r (write b0 b1 b2 b3 out : Z) :
  wf_response LW r ->
  rsp_parse_state r = LW_PARSESTATE_START
    \/ rsp_parse_state r = LW_PARSESTATE_DONE ->
  is_byte b0 -> is_byte b1 -> is_byte b2 -> is_byte b3 ->
  let reply :=
    lw_create_packet LW_GRF250_COMMAND_FIRMWARE_VERSION write [b0; b1; b2; b3] 4 in
  exists r' version,
    feed_all LW r reply = Some (repeat LW_RESULT_AGAIN 9 ++ [LW_RESULT_SUCCESS], r')
    /\ lw_grf250_parse_response_firmware_version r' out
       = Some (LW_RESULT_SUCCESS, version)
    /\ lw_expand_firmware_version version
       = {| major := b2; minor := b1; patch := b0 |}.
Proof.
  intros Hwf Hst H0 H1 H2 H3 reply. pose proof (recv_size_bounds LW) as Hb.
  destruct (decode_reply LW r LW_GRF250_COMMAND_FIRMWARE_VERSION write
              [b0; b1; b2; b3] Hwf Hst ltac:(cbn [length]; lia))
    as (r' & Hfeed & Hlen & _ & Hid & _ & Hparse).
  change (Z.of_nat (length [b0; b1; b2; b3])) with 4 in Hfeed, Hlen, Hparse.
  fold reply in Hfeed, Hlen. rewrite Hlen in Hfeed.
  exists r', (le_value [b0; b1; b2; b3]). split; [exact Hfeed |]. split.
  - unfold lw_grf250_parse_response_firmware_version.
    rewrite decide_False by (rewrite Hid; intros Hne; apply Hne; reflexivity).
    unfold lw_parse_response_uint32. rewrite Hparse. reflexivity.
  - unfold lw_expand_firmware_version.
    change 16 with (8 + 8). rewrite <- Z.shiftr_shiftr by lia.
    rewrite Z.shiftr_0_r.
    rewrite (le_value_high b0) by exact H0.
    rewrite (le_value_high b1) by exact H1.
    rewrite (le_value_low b0) by exact H0.
    rewrite (le_value_low b1) by exact H1.
    rewrite (le_value_low b2) by exact H2.
    reflexivity.
Qed.

Lemma firmware_version_from_reply_witness :
  exists r' version,
    feed_all false (lw_init_response (zero_response false))
      (lw_create_packet LW_GRF250_COMMAND_FIRMWARE_VERSION 0 [3; 2; 1; 0] 4)
      = Some (repeat LW_RESULT_AGAIN 9 ++ [LW_RESULT_SUCCESS], r')
    /\ lw_grf250_parse_response_firmware_version r' 0
       = Some (LW_RESULT_SUCCESS, version)
    /\ lw_expand_firmware_version version
       = {| major := 1; minor := 2; patch := 3 |}.
Proof.
  apply (firmware_version_from_reply false (lw_init_response (zero_response false))
           0 3 2 1 0 0 (zero_response_wf false) (or_introl eq_refl));
    unfold is_byte; lia.
Defined.

(** X26: the distance configuration and the I2C address are written
    without any check, and come back unchanged: every 32-bit configuration
    word and every address byte, sent and decoded, is what the matching
    response parser returns. *)
Theorem unchecked_parameter_round_trip (LW : bool) r request (value out : Z) :
  wf_response LW r ->
  rsp_parse_state r = LW_PARSESTATE_START
    \/ rsp_parse_state r = LW_PARSESTATE_DONE ->
  (0 <= value < 2 ^ 32 ->
   exists r',
     fst (lw_grf250_create_request_write_distance_config request value)
       = LW_RESULT_SUCCESS
     /\ feed_all LW r
          (sent_bytes
             (snd (lw_grf250_create_request_write_distance_config request value)))
        = Some (repeat LW_RESULT_AGAIN 9 ++ [LW_RESULT_SUCCESS], r')
     /\ lw_grf250_parse_response_distance_config r' out
        = Some (LW_RESULT_SUCCESS, value)) /\
  (0 <= value < 2 ^ 8 ->
   exists r',
     fst (lw_grf250_create_request_write_i2c_address request value)
       = LW_RESULT_SUCCESS
     /\ feed_all LW r
          (sent_bytes (snd (lw_grf250_create_request_write_i2c_address request value)))
        = Some (repeat LW_RESULT_AGAIN 6 ++ [LW_RESULT_SUCCESS], r')
     /\ lw_grf250_parse_response_i2c_address r' out
        = Some (LW_RESULT_SUCCESS, value)).
Proof.
  intros Hwf Hst. split; intros Hv.
  - destruct (uint32_decodes LW r request Hwf Hst LW_GRF250_COMMAND_DISTANCE_CONFIG
                value Hv) as (r' & Hfeed & Hid & Hparse).
    exists r'. split; [reflexivity |]. split; [exact Hfeed |].
    unfold lw_grf250_parse_response_distance_config.
    rewrite decide_False by (rewrite Hid; intros Hne; apply Hne; reflexivity).
    rewrite Hparse. reflexivity.
  - destruct (uint8_decodes LW r request Hwf Hst LW_GRF250_COMMAND_I2C_ADDRESS
                value Hv) as (r' & Hfeed & Hid & Hparse).
    exists r'. split; [reflexivity |]. split; [exact Hfeed |].
    unfold lw_grf250_parse_response_i2c_address.
    rewrite decide_False by (rewrite Hid; intros Hne; apply Hne; reflexivity).
    rewrite Hparse. reflexivity.
Qed.

Lemma unchecked_parameter_round_trip_witness :
  exists r',
    fst (lw_grf250_create_request_write_i2c_address
           (mk_request (repeat 0 160%nat) 0 0) 0x66) = LW_RESULT_SUCCESS
    /\ feed_all false (lw_init_response (zero_response false))
         (sent_bytes (snd (lw_grf250_create_request_write_i2c_address
                             (mk_request (repeat 0 160%nat) 0 0) 0x66)))
       = Some (repeat LW_RESULT_AGAIN 6 ++ [LW_RESULT_SUCCESS], r')
    /\ lw_grf250_parse_response_i2c_address r' 0 = Some (LW_RESULT_SUCCESS, 0x66).
Proof.
  destruct (unchecked_parameter_round_trip false
              (lw_init_response (zero_response false))
              (mk_request (repeat 0 160%nat) 0 0) 0x66 0
              (zero_response_wf false) (or_introl eq_refl)) as [_ H].
  apply H. lia.
Defined.
